(** * Memory and learning consolidation engine of personal-ai-agent

    A shallow embedding of [backend/app/models/learning_data.py],
    [backend/app/services/memory_service.py],
    [backend/app/services/learning_service.py] and the profile reset of
    [backend/app/api/learning.py], with the properties of the engine proved
    or refuted on it.

    Conventions of the embedding.
    - Python [float] values are exact rationals ([Q]); comparisons are the
      ones the code performs, rounding is not modelled.
    - [datetime] values are integers ([Z]) counting microseconds;
      [timedelta.days] is the floor division by one day.
    - UUID primary keys are natural numbers.
    - A table is the list of its rows in the order the database returns
      them when no ordering is requested; ORDER BY is a stable sort of it.
    - [datetime.utcnow()] is a clock value passed to each operation.
    - Columns hold values ([None] counters, confidences and times are not
      modelled), and the refresh of [updated_at] by [onupdate] at flush is
      left out: no property below reads [updated_at]. *)

From Stdlib Require Import List Bool Arith ZArith QArith Qminmax String Ascii.
From Stdlib Require Import Lia Lqa Permutation Sorted.
Import ListNotations.

Local Open Scope Z_scope.

(** ** Python built-ins on floats *)

(** [min(a, b)]: the first argument unless the second is strictly smaller. *)
Definition py_min (a b : Q) : Q := if Qle_bool a b then a else b.

(** [max(a, b)]: the first argument unless the second is strictly larger. *)
Definition py_max (a b : Q) : Q := if Qle_bool b a then a else b.

Definition Qltb (a b : Q) : bool := negb (Qle_bool b a).

(** ** The fact record: class [LearningData]

    The columns [category], [extraction_method], [is_validated],
    [importance_score], [tags] and [related_learnings] are written once by
    their column defaults and never read by the engine; they are left out. *)

Record LearningData : Type := mkLearningData {
  id : nat;
  user_id : string;
  learning_type : string;
  key : string;
  value : string;
  confidence : Q;
  source_conversation_id : option nat;
  context : option string;
  times_observed : Z;
  times_reinforced : Z;
  times_contradicted : Z;
  last_observed : Z;
  last_reinforced : Z;
  created_at : Z;
  updated_at : Z;
  is_active : bool;
  superseded_by : option nat;
  validation_score : Q
}.

(** Attribute assignment [d.field = v]. *)

Definition set_confidence (v : Q) (d : LearningData) : LearningData :=
  mkLearningData (id d) (user_id d) (learning_type d) (key d) (value d)
    v (source_conversation_id d) (context d)
    (times_observed d) (times_reinforced d) (times_contradicted d)
    (last_observed d) (last_reinforced d) (created_at d) (updated_at d)
    (is_active d) (superseded_by d) (validation_score d).

Definition set_times_observed (v : Z) (d : LearningData) : LearningData :=
  mkLearningData (id d) (user_id d) (learning_type d) (key d) (value d)
    (confidence d) (source_conversation_id d) (context d)
    v (times_reinforced d) (times_contradicted d)
    (last_observed d) (last_reinforced d) (created_at d) (updated_at d)
    (is_active d) (superseded_by d) (validation_score d).

Definition set_times_reinforced (v : Z) (d : LearningData) : LearningData :=
  mkLearningData (id d) (user_id d) (learning_type d) (key d) (value d)
    (confidence d) (source_conversation_id d) (context d)
    (times_observed d) v (times_contradicted d)
    (last_observed d) (last_reinforced d) (created_at d) (updated_at d)
    (is_active d) (superseded_by d) (validation_score d).

Definition set_times_contradicted (v : Z) (d : LearningData) : LearningData :=
  mkLearningData (id d) (user_id d) (learning_type d) (key d) (value d)
    (confidence d) (source_conversation_id d) (context d)
    (times_observed d) (times_reinforced d) v
    (last_observed d) (last_reinforced d) (created_at d) (updated_at d)
    (is_active d) (superseded_by d) (validation_score d).

Definition set_last_observed (v : Z) (d : LearningData) : LearningData :=
  mkLearningData (id d) (user_id d) (learning_type d) (key d) (value d)
    (confidence d) (source_conversation_id d) (context d)
    (times_observed d) (times_reinforced d) (times_contradicted d)
    v (last_reinforced d) (created_at d) (updated_at d)
    (is_active d) (superseded_by d) (validation_score d).

Definition set_last_reinforced (v : Z) (d : LearningData) : LearningData :=
  mkLearningData (id d) (user_id d) (learning_type d) (key d) (value d)
    (confidence d) (source_conversation_id d) (context d)
    (times_observed d) (times_reinforced d) (times_contradicted d)
    (last_observed d) v (created_at d) (updated_at d)
    (is_active d) (superseded_by d) (validation_score d).

Definition set_updated_at (v : Z) (d : LearningData) : LearningData :=
  mkLearningData (id d) (user_id d) (learning_type d) (key d) (value d)
    (confidence d) (source_conversation_id d) (context d)
    (times_observed d) (times_reinforced d) (times_contradicted d)
    (last_observed d) (last_reinforced d) (created_at d) v
    (is_active d) (superseded_by d) (validation_score d).

Definition set_is_active (v : bool) (d : LearningData) : LearningData :=
  mkLearningData (id d) (user_id d) (learning_type d) (key d) (value d)
    (confidence d) (source_conversation_id d) (context d)
    (times_observed d) (times_reinforced d) (times_contradicted d)
    (last_observed d) (last_reinforced d) (created_at d) (updated_at d)
    v (superseded_by d) (validation_score d).

Definition set_superseded_by (v : option nat) (d : LearningData) : LearningData :=
  mkLearningData (id d) (user_id d) (learning_type d) (key d) (value d)
    (confidence d) (source_conversation_id d) (context d)
    (times_observed d) (times_reinforced d) (times_contradicted d)
    (last_observed d) (last_reinforced d) (created_at d) (updated_at d)
    (is_active d) v (validation_score d).

Definition set_validation_score (v : Q) (d : LearningData) : LearningData :=
  mkLearningData (id d) (user_id d) (learning_type d) (key d) (value d)
    (confidence d) (source_conversation_id d) (context d)
    (times_observed d) (times_reinforced d) (times_contradicted d)
    (last_observed d) (last_reinforced d) (created_at d) (updated_at d)
    (is_active d) (superseded_by d) v.

(** [LearningData._calculate_validation_score] *)
Definition _calculate_validation_score (d : LearningData) : Q :=
  let total_feedback := times_reinforced d + times_contradicted d in
  if total_feedback =? 0 then 0%Q
  else
    let reinforcement_ratio :=
      (inject_Z (times_reinforced d) / inject_Z total_feedback)%Q in
    let observation_bonus :=
      py_min (inject_Z (times_observed d) / 10) (2 # 10) in
    py_min (reinforcement_ratio + observation_bonus) 1.

(** [LearningData.reinforce(new_confidence=None)] at clock [now] *)
Definition reinforce (now : Z) (new_confidence : option Q) (d : LearningData)
  : LearningData :=
  let d := set_times_reinforced (times_reinforced d + 1) d in
  let d := set_times_observed (times_observed d + 1) d in
  let d := set_last_reinforced now d in
  let d := set_last_observed now d in
  let d :=
    match new_confidence with
    | Some nc =>
        let weight := py_min (inject_Z (times_reinforced d) / 10) (5 # 10) in
        set_confidence (weight * nc + (1 - weight) * confidence d)%Q d
    | None =>
        set_confidence (py_min (confidence d * (11 # 10)) 1) d
    end in
  let d := set_validation_score (_calculate_validation_score d) d in
  set_updated_at now d.

(** [LearningData.contradict()] at clock [now] *)
Definition contradict (now : Z) (d : LearningData) : LearningData :=
  let d := set_times_contradicted (times_contradicted d + 1) d in
  let d := set_times_observed (times_observed d + 1) d in
  let d := set_last_observed now d in
  let contradiction_penalty := (2 # 10)%Q in
  let d :=
    set_confidence (py_max (confidence d - contradiction_penalty) (1 # 10)) d in
  let d := set_validation_score (_calculate_validation_score d) d in
  let d :=
    if times_contradicted d >? times_reinforced d + 2
    then set_is_active false d else d in
  set_updated_at now d.

(** [LearningData.supersede_with(new_learning_id)] *)
Definition supersede_with (now : Z) (new_learning_id : nat) (d : LearningData)
  : LearningData :=
  set_updated_at now (set_superseded_by (Some new_learning_id)
                        (set_is_active false d)).

(** Evidence events delivered to one record, for runs of calls. *)
Inductive Evidence : Type :=
| Reinforce (now : Z) (new_confidence : option Q)
| Contradict (now : Z).

Definition apply_evidence (d : LearningData) (e : Evidence) : LearningData :=
  match e with
  | Reinforce now nc => reinforce now nc d
  | Contradict now => contradict now d
  end.

Definition apply_all (d : LearningData) (es : list Evidence) : LearningData :=
  fold_left apply_evidence es d.


(** ** Text helpers

    Strings are byte strings; the model covers ASCII text ([str.lower],
    [\w] and [\b] are the ASCII ones). *)

Local Open Scope string_scope.

Definition is_upper (c : ascii) : bool :=
  let n := nat_of_ascii c in (65 <=? n)%nat && (n <=? 90)%nat.

Definition is_lower (c : ascii) : bool :=
  let n := nat_of_ascii c in (97 <=? n)%nat && (n <=? 122)%nat.

Definition is_digit (c : ascii) : bool :=
  let n := nat_of_ascii c in (48 <=? n)%nat && (n <=? 57)%nat.

(** [[a-zA-Z]] *)
Definition is_alpha (c : ascii) : bool := is_upper c || is_lower c.

(** [\w] *)
Definition is_word_char (c : ascii) : bool :=
  is_alpha c || is_digit c || Ascii.eqb c "_"%char.

Definition lower_char (c : ascii) : ascii :=
  if is_upper c then ascii_of_nat (nat_of_ascii c + 32) else c.

(** [str.lower()] *)
Fixpoint lower (s : string) : string :=
  match s with
  | EmptyString => EmptyString
  | String c t => String (lower_char c) (lower t)
  end.

(** [needle in hay] *)
Fixpoint contains (needle hay : string) : bool :=
  if prefix needle hay then true
  else match hay with
       | EmptyString => false
       | String _ t => contains needle t
       end.

Fixpoint string_forallb (p : ascii -> bool) (s : string) : bool :=
  match s with
  | EmptyString => true
  | String c t => p c && string_forallb p t
  end.

(** The maximal runs of [\w] characters of a text, in order; [cur] is the
    run being read, reversed. *)
Fixpoint word_runs (cur : list ascii) (s : string) : list string :=
  let flush := match cur with
               | [] => []
               | _ => [string_of_list_ascii (rev cur)]
               end in
  match s with
  | EmptyString => flush
  | String c t =>
      if is_word_char c then word_runs (c :: cur) t
      else flush ++ word_runs [] t
  end.

(** [re.findall(r'\b[a-zA-Z]{3,}\b', text)]: a match starts and ends at a
    word boundary and holds letters only, so the matches are the [\w] runs
    made of at least three letters and nothing else. *)
Definition findall_words (text : string) : list string :=
  filter (fun w => string_forallb is_alpha w && (3 <=? String.length w)%nat)
         (word_runs [] text).

Definition stop_words : list string :=
  ["the"; "a"; "an"; "and"; "or"; "but"; "in"; "on"; "at"; "to"; "for"; "of";
   "with"; "by"; "is"; "are"; "was"; "were"; "be"; "been"; "being"; "have";
   "has"; "had"; "do"; "does"; "did"; "will"; "would"; "could"; "should";
   "may"; "might"; "must"; "can"; "this"; "that"; "these"; "those"; "i"; "me";
   "my"; "myself"; "we"; "us"; "our"; "you"; "your"; "he"; "him"; "his"; "she";
   "her"; "it"; "its"; "they"; "them"; "their"].

Definition mem_string (s : string) (l : list string) : bool :=
  existsb (String.eqb s) l.

(** [MemoryService._extract_keywords]; [list(set(keywords))] keeps one copy
    of each keyword, in an order the callers do not depend on. *)
Definition _extract_keywords (text : string) : list string :=
  let words := findall_words (lower text) in
  let keywords := filter (fun word => negb (mem_string word stop_words)) words in
  nodup string_dec keywords.

(** ** Relevance scoring *)

Definition microseconds_per_day : Z := 86400 * 1000000.

(** [(a - b).days] *)
Definition timedelta_days (a b : Z) : Z := (a - b) / microseconds_per_day.

(** [f"{key} {value} {context or ''}".lower()] *)
Definition text_to_search (d : LearningData) : string :=
  lower (key d ++ " " ++ value d ++ " " ++
         match context d with Some c => c | None => EmptyString end).

Definition keyword_matches (d : LearningData) (keywords : list string) : nat :=
  List.length (filter (fun keyword => contains keyword (text_to_search d)) keywords).

Definition type_bonus (d : LearningData) : Q :=
  if mem_string (learning_type d) ["personal_fact"; "communication_preference"]
  then 1 # 10 else 0.

Definition recency_score (now : Z) (d : LearningData) : Q :=
  let days_since_observed := timedelta_days now (last_observed d) in
  py_max 0 (1 - inject_Z days_since_observed / 30).

(** [MemoryService._calculate_relevance_score] at clock [now] *)
Definition _calculate_relevance_score (now : Z) (d : LearningData)
    (query : string) (keywords : list string) : Q :=
  let score := 0%Q in
  let score :=
    match keywords with
    | [] => score
    | _ =>
        let keyword_score :=
          (inject_Z (Z.of_nat (keyword_matches d keywords))
           / inject_Z (Z.of_nat (List.length keywords)))%Q in
        (score + keyword_score * (6 # 10))%Q
    end in
  let score := (score + recency_score now d * (2 # 10))%Q in
  let score := (score + confidence d * (2 # 10))%Q in
  let score := (score + type_bonus d)%Q in
  py_min score 1.

(** The score as the specification words it: the fraction of the keywords
    found in the fact (0 without keywords), and the weighted sum with the
    type bonus, before clamping. *)
Definition keyword_overlap (d : LearningData) (keywords : list string) : Q :=
  match keywords with
  | [] => 0
  | _ => inject_Z (Z.of_nat (keyword_matches d keywords))
         / inject_Z (Z.of_nat (List.length keywords))
  end.

Definition weighted_sum (now : Z) (d : LearningData) (keywords : list string)
  : Q :=
  ((6 # 10) * keyword_overlap d keywords
   + (2 # 10) * recency_score now d
   + (2 # 10) * confidence d
   + type_bonus d)%Q.

(** ** The other tables *)

Module Conversation.
Record t : Type := mk {
  id : nat;
  user_id : string;
  message_type : string;
  content : string;
  timestamp : Z;
  topics : list string
}.
End Conversation.

(** The rendered [title] and [summary] texts of a summary are left out. *)
Module ConversationSummary.
Record t : Type := mk {
  id : nat;
  user_id : string;
  key_topics : list string;
  start_time : Z;
  end_time : Z;
  message_count : nat;
  conversation_ids : list nat;
  summary_type : string;
  confidence_score : Q;
  created_at : Z;
  is_active : bool;
  is_archived : bool
}.
End ConversationSummary.

Module UserProfile.
Record t : Type := mk {
  id : nat;
  user_id : string;
  personal_facts : list (string * string);
  communication_preferences : list (string * string);
  topics_of_interest : list string;
  expertise_areas : list string;
  avg_message_length : Q;
  formality_score : Q;
  preferred_response_length : string;
  created_at : Z;
  last_updated : Z;
  last_interaction : Z;
  total_messages : Z;
  total_conversations : Z
}.

Inductive attribute : Type := Column | Method.

(** The names the class body of [UserProfile] binds. *)
Definition class_attributes : list (string * attribute) :=
  [("id", Column); ("user_id", Column); ("personal_facts", Column);
   ("communication_preferences", Column); ("topics_of_interest", Column);
   ("expertise_areas", Column); ("avg_message_length", Column);
   ("formality_score", Column); ("preferred_response_length", Column);
   ("created_at", Column); ("last_updated", Column);
   ("last_interaction", Column); ("total_messages", Column);
   ("total_conversations", Column); ("__repr__", Method)].

(** Attribute lookup on an instance; [None] is Python's [AttributeError].
    The names the declarative base adds ([metadata], [registry], the
    [_sa_] ones) are none of the names looked up below. *)
Definition getattr (name : string) : option attribute :=
  match find (fun a => String.eqb (fst a) name) class_attributes with
  | Some a => Some (snd a)
  | None => None
  end.
End UserProfile.

Record Database : Type := mkDatabase {
  learning_data : list LearningData;
  conversation_summaries : list ConversationSummary.t;
  user_profiles : list UserProfile.t;
  conversations : list Conversation.t
}.

(** ** Sessions

    [SessionLocal] is made with [autoflush=False]: a SELECT is evaluated on
    the rows as they were when the transaction began ([stored]), and returns
    the objects of the identity map ([work]), which carry the changes made
    so far.  [db.add] appends to [work]; [commit] writes [work] back and
    [rollback] drops it. *)

Record Session : Type := mkSession {
  stored : Database;
  work : Database
}.

Definition begin (db : Database) : Session := mkSession db db.
Definition commit (s : Session) : Database := work s.
Definition rollback (s : Session) : Database := stored s.

Definition with_learning (t : list LearningData) (s : Session) : Session :=
  mkSession (stored s)
    (mkDatabase t (conversation_summaries (work s)) (user_profiles (work s))
       (conversations (work s))).

Definition add_summary (x : ConversationSummary.t) (s : Session) : Session :=
  mkSession (stored s)
    (mkDatabase (learning_data (work s)) (conversation_summaries (work s) ++ [x])
       (user_profiles (work s)) (conversations (work s))).

(** The object with primary key [i]. *)
Definition get (i : nat) (t : list LearningData) : option LearningData :=
  find (fun o => (id o =? i)%nat) t.

(** A change [f] made to the object with primary key [i]. *)
Definition update (i : nat) (f : LearningData -> LearningData)
    (t : list LearningData) : list LearningData :=
  map (fun o => if (id o =? i)%nat then f o else o) t.

(** The objects a list of row identities refers to. *)
Definition deref (t : list LearningData) (ids : list nat) : list LearningData :=
  flat_map (fun i => match get i t with Some o => [o] | None => [] end) ids.

(** [uuid.uuid4()]: an identity no row of the table has. *)
Definition fresh_id (used : list nat) : nat := S (fold_right Nat.max 0%nat used).

(** ** ORDER BY and [list.sort]: stable sorts *)

Section StableSort.
Context {A : Type}.
(** [before y x]: [y] sorts strictly before [x]. *)
Variable before : A -> A -> bool.

Fixpoint insert_sorted (x : A) (l : list A) : list A :=
  match l with
  | [] => [x]
  | y :: t => if before y x then y :: insert_sorted x t else x :: y :: t
  end.

Definition order_by (l : list A) : list A := fold_right insert_sorted [] l.

(** What a stable sort establishes between an element and a later one:
    the later one does not sort strictly before it, and when the two tie
    they are still in the relation [T] that held in the input. *)
Definition sorted_stably (T : A -> A -> Prop) (a b : A) : Prop :=
  before b a = false /\ (before a b = false -> T a b).
End StableSort.

(** [ORDER BY learning_type, key], strings compared byte by byte *)
Definition type_key_before (a b : LearningData) : bool :=
  match String.compare (learning_type a) (learning_type b) with
  | Lt => true
  | Eq => String.ltb (key a) (key b)
  | Gt => false
  end.

(** [ORDER BY confidence DESC, last_observed DESC] *)
Definition confidence_recency_before (a b : LearningData) : bool :=
  Qltb (confidence b) (confidence a)
  || (Qeq_bool (confidence a) (confidence b)
      && (last_observed b <? last_observed a)%Z).

(** A query on [LearningData]: the rows of [stored] that satisfy [where_],
    ordered, as objects of [work]. *)
Definition query (where_ : LearningData -> bool)
    (before : LearningData -> LearningData -> bool) (s : Session)
  : list LearningData :=
  deref (learning_data (work s))
        (map id (order_by before (filter where_ (learning_data (stored s))))).

Definition unordered (a b : LearningData) : bool := false.

Definition active_of (uid : string) (d : LearningData) : bool :=
  String.eqb (user_id d) uid && is_active d.

(** ** Retrieval: [MemoryService.get_relevant_memories] *)

Module Memory.
(** The dictionary built for one fact; [last_observed] is kept as the
    time value, not its ISO rendering. *)
Record t : Type := mk {
  type : string;
  key : string;
  value : string;
  confidence : Q;
  relevance : Q;
  context : option string;
  last_observed : Z
}.
End Memory.

(** [l[:n]] *)
Definition slice_to (A : Type) (n : Z) (l : list A) : list A :=
  if (n <? 0)%Z then firstn (Z.to_nat (Z.of_nat (List.length l) + n)) l
  else firstn (Z.to_nat n) l.
Arguments slice_to {A} n l.

Definition memory_of (now : Z) (query_text : string) (keywords : list string)
    (data : LearningData) : Memory.t :=
  Memory.mk (learning_type data) (key data) (value data) (confidence data)
    (_calculate_relevance_score now data query_text keywords)
    (context data) (last_observed data).

(** The rows the query of [get_relevant_memories] returns. *)
Definition candidates (user : string) (db : Database) : list LearningData :=
  firstn 20 (query (active_of user) confidence_recency_before (begin db)).

(** [sort(key=relevance, reverse=True)] *)
Definition relevance_before (a b : Memory.t) : bool :=
  Qltb (Memory.relevance b) (Memory.relevance a).

Definition get_relevant_memories (now : Z) (db : Database) (user : string)
    (query_text : string) (limit : Z) : list Memory.t :=
  let keywords := _extract_keywords (lower query_text) in
  let learning_data := candidates user db in
  let relevant_memories :=
    filter (fun m => Qltb (1 # 10) (Memory.relevance m))
           (map (memory_of now query_text keywords) learning_data) in
  let relevant_memories := order_by relevance_before relevant_memories in
  slice_to limit relevant_memories.




(** ** The merge pass: [MemoryService._merge_similar_learnings] *)

(** [f"{learning.learning_type}:{learning.key}"] *)
Definition group_key (learning : LearningData) : string :=
  learning_type learning ++ ":" ++ key learning.

(** [groups[k].append(v)], creating the entry at the end of the dictionary
    when [k] is new. *)
Fixpoint dict_append (k : string) (v : nat) (groups : list (string * list nat))
  : list (string * list nat) :=
  match groups with
  | [] => [(k, [v])]
  | (k', vs) :: rest =>
      if String.eqb k k' then (k', (vs ++ [v])%list) :: rest
      else (k', vs) :: dict_append k v rest
  end.

(** The grouping loop; a group holds references to objects. *)
Definition build_groups (learning_groups : list LearningData)
  : list (string * list nat) :=
  fold_left (fun groups learning =>
               dict_append (group_key learning) (id learning) groups)
            learning_groups [].

(** [max(learnings, key=lambda x: x.confidence)] with [best] the maximum so
    far: a later element wins only with a strictly larger confidence. *)
Fixpoint max_by_confidence (best : LearningData) (rest : list LearningData)
  : LearningData :=
  match rest with
  | [] => best
  | x :: t =>
      if Qltb (confidence best) (confidence x) then max_by_confidence x t
      else max_by_confidence best t
  end.

(** The three [+=] on the counters of the primary and the adoption of a
    newer [last_observed], for one [other]. *)
Definition absorb (other p : LearningData) : LearningData :=
  let p := set_times_observed (times_observed p + times_observed other) p in
  let p := set_times_reinforced (times_reinforced p + times_reinforced other) p in
  let p := set_times_contradicted
             (times_contradicted p + times_contradicted other) p in
  if (last_observed other >? last_observed p)%Z
  then set_last_observed (last_observed other) p else p.

(** [other.is_active = False; other.superseded_by = primary.id] *)
Definition mark_merged (primary : nat) (other : LearningData) : LearningData :=
  set_superseded_by (Some primary) (set_is_active false other).

(** One turn of [for other in others]. *)
Definition fold_into (primary other : nat) (t : list LearningData)
  : list LearningData :=
  match get other t with
  | None => t
  | Some o => update other (mark_merged primary) (update primary (absorb o) t)
  end.

(** The growth of the survivor's confidence and its new validation score. *)
Definition boost (p : LearningData) : LearningData :=
  let p := set_confidence (py_min (confidence p * (11 # 10)) 1) p in
  set_validation_score (_calculate_validation_score p) p.

(** The body of [for group_key, learnings in groups.items()]. *)
Definition merge_group (ids : list nat) (t : list LearningData)
  : list LearningData :=
  let learnings := deref t ids in
  if (1 <? List.length learnings)%nat then
    match learnings with
    | [] => t
    | first :: rest =>
        let primary := max_by_confidence first rest in
        let others :=
          filter (fun l => negb (id l =? id primary)%nat) learnings in
        let t := fold_left (fun t other => fold_into (id primary) (id other) t)
                           others t in
        update (id primary) boost t
    end
  else t.

Definition _merge_similar_learnings (user : string) (s : Session) : Session :=
  let learning_groups := query (active_of user) type_key_before s in
  let groups := build_groups learning_groups in
  with_learning
    (fold_left (fun t g => merge_group (snd g) t) groups
               (learning_data (work s))) s.

(** What the merge pass does to one row [x] of a group [learnings], as a
    function of the group alone. *)
Definition mem_id (i : nat) (ids : list nat) : bool := existsb (Nat.eqb i) ids.

Definition merged_row (learnings : list LearningData) (x : LearningData)
  : LearningData :=
  match learnings with
  | [] => x
  | first :: rest =>
      if (1 <? List.length learnings)%nat then
        let primary := max_by_confidence first rest in
        if (id x =? id primary)%nat
        then boost (fold_left (fun p other => absorb other p)
                      (filter (fun l => negb (id l =? id primary)%nat) learnings)
                      x)
        else mark_merged (id primary) x
      else x
  end.

(** The rows of [l] filed under the dictionary key [k], and the group of
    [x] among the rows [l] a query returned. *)
Definition rows_with_key (k : string) (l : list LearningData)
  : list LearningData :=
  filter (fun y => String.eqb (group_key y) k) l.

Definition group_of (x : LearningData) (l : list LearningData)
  : list LearningData :=
  rows_with_key (group_key x) l.

(** ** The archival pass: [MemoryService._archive_old_learnings] *)

Definition archivable (user : string) (cutoff_date : Z) (d : LearningData)
  : bool :=
  String.eqb (user_id d) user && is_active d
  && Qltb (confidence d) (3 # 10)
  && (last_observed d <? cutoff_date)%Z
  && (times_contradicted d >? times_reinforced d)%Z.

Definition _archive_old_learnings (now : Z) (user : string) (s : Session)
  : Session :=
  let cutoff_date := (now - 30 * microseconds_per_day)%Z in
  let old_learnings := query (archivable user cutoff_date) unordered s in
  with_learning
    (fold_left (fun t learning =>
                  update (id learning)
                    (fun l => set_updated_at now (set_is_active false l)) t)
               old_learnings (learning_data (work s))) s.

(** ** Summaries: [MemoryService._create_recent_summary] *)

Definition timestamp_before (a b : Conversation.t) : bool :=
  (Conversation.timestamp a <? Conversation.timestamp b)%Z.

Definition hours (n : Z) : Z := (n * 3600 * 1000000)%Z.

Definition _create_recent_summary (now : Z) (user : string) (s : Session)
  : Session :=
  let recent_conversations :=
    order_by timestamp_before
      (filter (fun c => String.eqb (Conversation.user_id c) user
                        && (Conversation.timestamp c >? now - hours 24)%Z)
              (conversations (stored s))) in
  if (List.length recent_conversations <? 10)%nat then s
  else
    let existing_summary :=
      find (fun x => String.eqb (ConversationSummary.user_id x) user
                     && (ConversationSummary.start_time x >? now - hours 25)%Z)
           (conversation_summaries (stored s)) in
    match existing_summary, recent_conversations with
    | Some _, _ => s
    | None, [] => s
    | None, first :: _ =>
        let topics :=
          nodup string_dec (flat_map Conversation.topics recent_conversations) in
        add_summary
          (ConversationSummary.mk
             (fresh_id (map ConversationSummary.id
                            (conversation_summaries (work s))))
             user topics
             (Conversation.timestamp first)
             (Conversation.timestamp (last recent_conversations first))
             (List.length recent_conversations)
             (map Conversation.id recent_conversations)
             "automatic" (7 # 10) now true false) s
    end.

(** ** The orchestrator: [MemoryService.consolidate_memory] *)

Inductive Exception : Type := AttributeError | TypeError.

Inductive Outcome : Type :=
| Committed
| RolledBack (e : Exception).

Definition first_profile (user : string) (db : Database)
  : option UserProfile.t :=
  find (fun p => String.eqb (UserProfile.user_id p) user) (user_profiles db).

Definition consolidate_memory (now : Z) (db : Database) (user : string)
  : Database * Outcome :=
  let s := begin db in
  let s := _create_recent_summary now user s in
  let s := _merge_similar_learnings user s in
  let s := _archive_old_learnings now user s in
  match first_profile user (stored s) with
  | Some user_profile =>
      match UserProfile.getattr "calculate_profile_completeness" with
      | None => (rollback s, RolledBack AttributeError)
      | Some UserProfile.Column => (rollback s, RolledBack TypeError)
      | Some UserProfile.Method => (commit s, Committed)
      end
  | None => (commit s, Committed)
  end.

(** The merge pass as one unit of work on the stored facts. *)
Definition merge_pass (user : string) (db : Database) : Database :=
  commit (_merge_similar_learnings user (begin db)).

(** The rows the merge pass reads in a new session, in the order of its
    query. *)
Definition queried_rows (user : string) (db : Database) : list LearningData :=
  query (active_of user) type_key_before (begin db).

(** The archival pass as one unit of work on the stored facts. *)
Definition archival_pass (now : Z) (user : string) (db : Database) : Database :=
  commit (_archive_old_learnings now user (begin db)).

(** ** The learning-update cycle: [LearningService] *)

(** The dictionary the analysis collaborator returns; a key that is absent
    is [None].  Values are the strings [str(value)] yields. *)
Record Analysis : Type := mkAnalysis {
  a_personal_facts : option (list (string * string));
  a_communication_preferences : option (list (string * string));
  a_topics_of_interest : option (list string);
  a_expertise_areas : option (list string);
  a_formality_score : option Q;
  a_preferred_response_length : option string
}.

(** [LearningData(...)] followed by [db.add]: the row as inserted, with the
    column defaults ([times_observed = 1], no reinforcement, active). *)
Definition new_learning_data (now : Z) (user : string) (ltype k v : string)
    (conf : Q) (conversation_id : nat) (ctx : string) (timestamp : Z)
    (t : list LearningData) : list LearningData :=
  (t ++ [mkLearningData (fresh_id (map id t)) user ltype k v conf
           (Some conversation_id) (Some ctx) 1 0 0 now now timestamp now
           true None 0])%list.

(** [LearningService._store_learning_data] *)
Definition _store_learning_data (now : Z) (user : string) (analysis : Analysis)
    (conversation_id : nat) (s : Session) : Session :=
  let timestamp := now in
  let t := learning_data (work s) in
  let t :=
    match a_personal_facts analysis with
    | Some facts =>
        fold_left (fun t kv =>
                     new_learning_data now user "personal_fact" (fst kv) (snd kv)
                       (8 # 10) conversation_id
                       "Learned from conversation analysis" timestamp t)
                  facts t
    | None => t
    end in
  let t :=
    match a_communication_preferences analysis with
    | Some prefs =>
        fold_left (fun t kv =>
                     new_learning_data now user "communication_preference"
                       (fst kv) (snd kv) (7 # 10) conversation_id
                       "Inferred communication preference" timestamp t)
                  prefs t
    | None => t
    end in
  let t :=
    match a_topics_of_interest analysis with
    | Some topics =>
        fold_left (fun t topic =>
                     new_learning_data now user "topic_interest" "topic" topic
                       (6 # 10) conversation_id
                       "Topic mentioned in conversation" timestamp t)
                  topics t
    | None => t
    end in
  with_learning t s.

(** [if analysis:] a dictionary is true when it has a key. *)
Definition is_some {A : Type} (o : option A) : bool :=
  match o with Some _ => true | None => false end.

Definition analysis_truthy (analysis : Analysis) : bool :=
  is_some (a_personal_facts analysis)
  || is_some (a_communication_preferences analysis)
  || is_some (a_topics_of_interest analysis)
  || is_some (a_expertise_areas analysis)
  || is_some (a_formality_score analysis)
  || is_some (a_preferred_response_length analysis).

Definition timestamp_after (a b : Conversation.t) : bool :=
  (Conversation.timestamp b <? Conversation.timestamp a)%Z.

(** [LearningService._perform_learning_update]; [analysis] is what the
    collaborator answered, with well-typed values.  The call of
    [_update_user_profile_from_analysis] writes to the [UserProfile] object
    only, does not raise on such an analysis, and is not embedded. *)
Definition _perform_learning_update (now : Z) (user : string)
    (analysis : Analysis) (s : Session) : Session :=
  let recent_conversations :=
    firstn 20
      (order_by timestamp_after
         (filter (fun c => String.eqb (Conversation.user_id c) user)
                 (conversations (stored s)))) in
  match recent_conversations with
  | [] => s
  | first :: _ =>
      if analysis_truthy analysis
      then _store_learning_data now user analysis (Conversation.id first) s
      else s
  end.

(** The cycle as one unit of work, committed by its caller. *)
Definition learning_update (now : Z) (user : string) (analysis : Analysis)
    (db : Database) : Database :=
  commit (_perform_learning_update now user analysis (begin db)).

(** ** Profile reset: [reset_user_profile] *)

Definition reset_profile_fields (now : Z) (p : UserProfile.t) : UserProfile.t :=
  UserProfile.mk (UserProfile.id p) (UserProfile.user_id p) [] [] [] []
    0 (5 # 10) "medium" (UserProfile.created_at p) now
    (UserProfile.last_interaction p) (UserProfile.total_messages p)
    (UserProfile.total_conversations p).

(** The first row of a table that satisfies [p], changed by [f]. *)
Fixpoint update_first {A : Type} (p : A -> bool) (f : A -> A) (l : list A)
  : list A :=
  match l with
  | [] => []
  | x :: t => if p x then f x :: t else x :: update_first p f t
  end.

Record ResetResponse : Type := mkResetResponse {
  deleted_learning_entries : nat;
  deleted_summaries : nat;
  profile_reset : bool
}.

(** [reset_user_profile]: two bulk DELETE statements, the reset of the
    profile object, and the commit. *)
Definition reset_user_profile (now : Z) (user : string) (db : Database)
  : Database * ResetResponse :=
  let mine := fun d : LearningData => String.eqb (user_id d) user in
  let mine_s := fun x => String.eqb (ConversationSummary.user_id x) user in
  let deleted_learning := List.length (filter mine (learning_data db)) in
  let deleted_summaries :=
    List.length (filter mine_s (conversation_summaries db)) in
  let is_mine := fun p => String.eqb (UserProfile.user_id p) user in
  (mkDatabase
     (filter (fun d => negb (mine d)) (learning_data db))
     (filter (fun x => negb (mine_s x)) (conversation_summaries db))
     (update_first is_mine (reset_profile_fields now) (user_profiles db))
     (conversations db),
   mkResetResponse deleted_learning deleted_summaries
     (existsb is_mine (user_profiles db))).

(** ** Well-formed stores *)

(** [id] is the primary key of [learning_data]. *)
Definition unique_ids (db : Database) : Prop := NoDup (map id (learning_data db)).

(** The character [:] does not occur in [s]. *)
Fixpoint colon_free (s : string) : bool :=
  match s with
  | EmptyString => true
  | String c t => negb (Ascii.eqb c ":"%char) && colon_free t
  end.

Fixpoint sum_of (f : LearningData -> Z) (l : list LearningData) : Z :=
  match l with
  | [] => 0
  | x :: t => f x + sum_of f t
  end.

(** The active records of [user] with the identity [(ltype, k)]. *)
Definition has_identity (ltype k : string) (d : LearningData) : bool :=
  String.eqb (learning_type d) ltype && String.eqb (key d) k.

Definition identity_group (user ltype k : string) (db : Database)
  : list LearningData :=
  filter (fun d => active_of user d && has_identity ltype k d)
         (learning_data db).

(** The row of the stored facts with primary key [i]. *)
Definition fact (i : nat) (db : Database) : option LearningData :=
  get i (learning_data db).


(** What a learning-update cycle reports of a row: type, key, value and
    confidence. *)
Definition fact_summary (d : LearningData) : string * string * string * Q :=
  (learning_type d, key d, value d, confidence d).

(** A row as inserted: of [user], active, observed once, never reinforced
    or contradicted. *)
Definition newly_created (user : string) (d : LearningData) : Prop :=
  user_id d = user /\ is_active d = true /\ times_observed d = 1
  /\ times_reinforced d = 0 /\ times_contradicted d = 0
  /\ superseded_by d = None.

Definition or_empty {A : Type} (o : option (list A)) : list A :=
  match o with Some l => l | None => [] end.

(** The facts of an analysis with the confidence each type is created
    with. *)
Definition created_facts (analysis : Analysis)
  : list (string * string * string * Q) :=
  (map (fun kv => ("personal_fact", fst kv, snd kv, 8 # 10))
       (or_empty (a_personal_facts analysis))
   ++ map (fun kv => ("communication_preference", fst kv, snd kv, 7 # 10))
          (or_empty (a_communication_preferences analysis))
   ++ map (fun topic => ("topic_interest", "topic", topic, 6 # 10))
          (or_empty (a_topics_of_interest analysis)))%list.

(** ** Sample stores *)

Definition city_a : LearningData :=
  mkLearningData 1 "u" "personal_fact" "city" "Paris" (6 # 10) None None
    1 1 0 100 100 10 10 true None 0.

Definition city_b : LearningData :=
  mkLearningData 2 "u" "personal_fact" "city" "Lyon" (9 # 10) None None
    2 1 1 200 200 20 20 true None 0.

Definition two_cities : Database := mkDatabase [city_a; city_b] [] [] [].

Definition tied_later : LearningData :=
  mkLearningData 1 "u" "personal_fact" "city" "Paris" (8 # 10) None None
    1 0 0 300 300 200 200 true None 0.

Definition tied_earlier : LearningData :=
  mkLearningData 2 "u" "personal_fact" "city" "Lyon" (8 # 10) None None
    1 0 0 300 300 100 100 true None 0.





Definition profile_of_u : UserProfile.t :=
  UserProfile.mk 1 "u" [("city", "Paris")] [] ["chess"] [] 12 (1 # 2) "medium"
    0 0 0 10 1.

Definition two_cities_with_profile : Database :=
  mkDatabase [city_a; city_b] [] [profile_of_u] [].

Definition retired : LearningData :=
  mkLearningData 3 "u" "personal_fact" "city" "Nice" (1 # 10) None None
    4 0 3 50 50 5 5 false None 0.

Definition one_message : Conversation.t :=
  Conversation.mk 7 "u" "user" "I moved to Paris" 400 [].

Definition city_known : Database :=
  mkDatabase [city_a; retired] [] [profile_of_u] [one_message].

Definition city_again : Analysis :=
  mkAnalysis (Some [("city", "Paris")]) None None None (Some (1 # 2))
    (Some "medium").


(** ** Working memory: [MemoryService.get_conversation_context] *)

Module ContextMessage.
(** One entry of the context; [timestamp] is kept as the time value. *)
Record t : Type := mk {
  role : string;
  content : string;
  timestamp : Z;
  id : nat
}.
End ContextMessage.

Definition max_context_messages : nat := 50.
Definition consolidation_threshold : nat := 100.

Definition context_entry (conv : Conversation.t) : ContextMessage.t :=
  ContextMessage.mk
    (if String.eqb (Conversation.message_type conv) "user"
     then "user" else "assistant")
    (Conversation.content conv) (Conversation.timestamp conv)
    (Conversation.id conv).

(** [limit = max_messages or self.max_context_messages]: [None] and [0]
    give the default.  A limit is a natural number (the database rejects
    a negative LIMIT). *)
Definition context_limit (max_messages : option nat) : nat :=
  match max_messages with
  | Some (S n) => S n
  | _ => max_context_messages
  end.

Definition get_conversation_context (db : Database) (user : string)
    (max_messages : option nat) : list ContextMessage.t :=
  let limit := context_limit max_messages in
  let conversations :=
    firstn limit
      (order_by timestamp_after
         (filter (fun c => String.eqb (Conversation.user_id c) user)
                 (conversations db))) in
  map context_entry (rev conversations).

(** ** Consolidation policy and statistics *)

Definition recent_message_count (now window : Z) (db : Database)
    (user : string) : nat :=
  List.length
    (filter (fun c => String.eqb (Conversation.user_id c) user
                      && (Conversation.timestamp c >? now - window)%Z)
            (conversations db)).

Definition active_learning_count (db : Database) (user : string) : nat :=
  List.length (filter (active_of user) (learning_data db)).

(** [MemoryService.should_consolidate_memory] *)
Definition should_consolidate_memory (now : Z) (db : Database) (user : string)
  : bool :=
  let recent_messages := recent_message_count now (hours 24) db user in
  let active_learning_count := active_learning_count db user in
  (consolidation_threshold <? recent_messages)%nat
  || (200 <? active_learning_count)%nat.

Record MemoryStats : Type := mkMemoryStats {
  stats_total_conversations : nat;
  stats_recent_7_days : nat;
  stats_active_entries : nat;
  stats_high_confidence_entries : nat;
  stats_confidence_ratio : Q;
  stats_total_summaries : nat;
  stats_consolidation_needed : bool
}.

(** [MemoryService.get_memory_stats] *)
Definition get_memory_stats (now : Z) (db : Database) (user : string)
  : MemoryStats :=
  let total_conversations :=
    List.length (filter (fun c => String.eqb (Conversation.user_id c) user)
                        (conversations db)) in
  let recent_conversations :=
    recent_message_count now (7 * microseconds_per_day) db user in
  let active_learnings := active_learning_count db user in
  let high_confidence_learnings :=
    List.length
      (filter (fun d => active_of user d && Qltb (8 # 10) (confidence d))
              (learning_data db)) in
  let total_summaries :=
    List.length
      (filter (fun x => String.eqb (ConversationSummary.user_id x) user)
              (conversation_summaries db)) in
  mkMemoryStats total_conversations recent_conversations active_learnings
    high_confidence_learnings
    (inject_Z (Z.of_nat high_confidence_learnings)
     / inject_Z (Z.of_nat (Nat.max active_learnings 1)))
    total_summaries (should_consolidate_memory now db user).

(** ** [MemoryService.build_memory_context] *)

(** [f"{key}: {value}"] *)
Definition key_value (k v : string) : string := k ++ ": " ++ v.

Definition profile_part (label : string) (entries : list (string * string))
  : list string :=
  match entries with
  | [] => []
  | _ => [label ++ String.concat ", "
                     (map (fun kv => key_value (fst kv) (snd kv)) entries)]
  end.

Definition build_memory_context (now : Z) (db : Database) (user : string)
    (current_query : string) : string :=
  let user_profile := first_profile user db in
  let facts_part :=
    match user_profile with
    | Some p => profile_part "Personal facts: " (UserProfile.personal_facts p)
    | None => []
    end in
  let relevant_memories := get_relevant_memories now db user current_query 5 in
  let memories_part :=
    match relevant_memories with
    | [] => []
    | _ =>
        ["Relevant context: "
         ++ String.concat ", "
              (map (fun memory =>
                      key_value (Memory.key memory) (Memory.value memory))
                   (slice_to 3 relevant_memories))]
    end in
  let prefs_part :=
    match user_profile with
    | Some p => profile_part "Communication preferences: "
                  (UserProfile.communication_preferences p)
    | None => []
    end in
  String.concat " | " (facts_part ++ memories_part ++ prefs_part)%list.

(** ** The profile aggregator: [LearningService]

    The functions below give the state of the [UserProfile] object after
    the call. *)

(** [d[k] = v] on a dictionary kept in insertion order. *)
Fixpoint dict_set (k v : string) (d : list (string * string))
  : list (string * string) :=
  match d with
  | [] => [(k, v)]
  | (k', v') :: rest =>
      if String.eqb k k' then (k', v) :: rest
      else (k', v') :: dict_set k v rest
  end.

(** [d.get(k)] *)
Fixpoint dict_get (k : string) (d : list (string * string)) : option string :=
  match d with
  | [] => None
  | (k', v') :: rest => if String.eqb k k' then Some v' else dict_get k rest
  end.

(** [d.update(new)] *)
Definition dict_update (d new : list (string * string))
  : list (string * string) :=
  fold_left (fun d kv => dict_set (fst kv) (snd kv) d) new d.

(** [list(set(a).union(set(b)))]: one copy of each element, in an order the
    source does not fix. *)
Definition set_union (a b : list string) : list string :=
  nodup string_dec (a ++ b).

Definition set_formality_score (v : Q) (p : UserProfile.t) : UserProfile.t :=
  UserProfile.mk (UserProfile.id p) (UserProfile.user_id p)
    (UserProfile.personal_facts p) (UserProfile.communication_preferences p)
    (UserProfile.topics_of_interest p) (UserProfile.expertise_areas p)
    (UserProfile.avg_message_length p) v
    (UserProfile.preferred_response_length p) (UserProfile.created_at p)
    (UserProfile.last_updated p) (UserProfile.last_interaction p)
    (UserProfile.total_messages p) (UserProfile.total_conversations p).

Definition set_avg_message_length (v : Q) (p : UserProfile.t)
  : UserProfile.t :=
  UserProfile.mk (UserProfile.id p) (UserProfile.user_id p)
    (UserProfile.personal_facts p) (UserProfile.communication_preferences p)
    (UserProfile.topics_of_interest p) (UserProfile.expertise_areas p)
    v (UserProfile.formality_score p)
    (UserProfile.preferred_response_length p) (UserProfile.created_at p)
    (UserProfile.last_updated p) (UserProfile.last_interaction p)
    (UserProfile.total_messages p) (UserProfile.total_conversations p).

(** [x or default] on a float: [0.0] is false. *)
Definition float_or (x default : Q) : Q :=
  if Qeq_bool x 0 then default else x.

(** The new value of a field an analysis key updates when the key is
    present with a non-empty value. *)
Definition when_given {A B : Type} (o : option (list A)) (f : list A -> B)
    (old : B) : B :=
  match o with
  | Some (x :: l) => f (x :: l)
  | _ => old
  end.

(** [LearningService._update_user_profile_from_analysis], for a profile
    that exists. *)
Definition _update_user_profile_from_analysis (now : Z) (analysis : Analysis)
    (p : UserProfile.t) : UserProfile.t :=
  let personal_facts :=
    when_given (a_personal_facts analysis)
      (dict_update (UserProfile.personal_facts p))
      (UserProfile.personal_facts p) in
  let communication_preferences :=
    when_given (a_communication_preferences analysis)
      (dict_update (UserProfile.communication_preferences p))
      (UserProfile.communication_preferences p) in
  let topics_of_interest :=
    when_given (a_topics_of_interest analysis)
      (set_union (UserProfile.topics_of_interest p))
      (UserProfile.topics_of_interest p) in
  let expertise_areas :=
    when_given (a_expertise_areas analysis)
      (set_union (UserProfile.expertise_areas p))
      (UserProfile.expertise_areas p) in
  let formality_score :=
    match a_formality_score analysis with
    | Some new_score =>
        let current_score := float_or (UserProfile.formality_score p) (5 # 10) in
        let alpha := (3 # 10)%Q in
        (alpha * new_score + (1 - alpha) * current_score)%Q
    | None => UserProfile.formality_score p
    end in
  let preferred_response_length :=
    match a_preferred_response_length analysis with
    | Some x => x
    | None => UserProfile.preferred_response_length p
    end in
  UserProfile.mk (UserProfile.id p) (UserProfile.user_id p)
    personal_facts communication_preferences topics_of_interest
    expertise_areas (UserProfile.avg_message_length p) formality_score
    preferred_response_length (UserProfile.created_at p) now
    (UserProfile.last_interaction p) (UserProfile.total_messages p)
    (UserProfile.total_conversations p).

Definition total_length (msgs : list Conversation.t) : nat :=
  fold_right (fun msg n => (String.length (Conversation.content msg) + n)%nat)
             0%nat msgs.

(** [LearningService._update_communication_metrics], for a profile that
    exists. *)
Definition _update_communication_metrics (conversations : list Conversation.t)
    (p : UserProfile.t) : UserProfile.t :=
  let user_messages :=
    filter (fun conv => String.eqb (Conversation.message_type conv) "user")
           conversations in
  match user_messages with
  | [] => p
  | _ =>
      let avg_length :=
        (inject_Z (Z.of_nat (total_length user_messages))
         / inject_Z (Z.of_nat (List.length user_messages)))%Q in
      let alpha := (2 # 10)%Q in
      let current_avg := UserProfile.avg_message_length p in
      set_avg_message_length
        (alpha * avg_length + (1 - alpha) * current_avg)%Q p
  end.

(** ** Statements about stores *)

(** A superseded record is inactive. *)
Definition lifecycle_ok (d : LearningData) : Prop :=
  superseded_by d = None \/ is_active d = false.

(** The ranges of the data model: confidence in [0, 1], counters not
    negative, at least one observation. *)
Definition in_range (d : LearningData) : Prop :=
  (0 <= confidence d <= 1)%Q
  /\ 1 <= times_observed d /\ 0 <= times_reinforced d
  /\ 0 <= times_contradicted d.

(** What the archival pass does to a stored row. *)
Definition archived_row (now : Z) (user : string) (x : LearningData)
  : LearningData :=
  if archivable user (now - 30 * microseconds_per_day) x
  then set_updated_at now (set_is_active false x) else x.

(** The creation of a summary as one unit of work. *)
Definition summary_pass (now : Z) (user : string) (db : Database) : Database :=
  commit (_create_recent_summary now user (begin db)).

(** The messages a summary would cover, and the test for a summary that
    covers the last hours already. *)
Definition recent_of (now : Z) (user : string) (db : Database)
  : list Conversation.t :=
  order_by timestamp_before
    (filter (fun c => String.eqb (Conversation.user_id c) user
                      && (Conversation.timestamp c >? now - hours 24)%Z)
            (conversations db)).

Definition covered (now : Z) (user : string) (x : ConversationSummary.t)
  : bool :=
  String.eqb (ConversationSummary.user_id x) user
  && (ConversationSummary.start_time x >? now - hours 25)%Z.

(** The facts and preferences of the profile row of [user], empty without
    a row. *)
Definition profile_entries (f : UserProfile.t -> list (string * string))
    (user : string) (db : Database) : list (string * string) :=
  match first_profile user db with
  | Some p => f p
  | None => []
  end.

(** ** Request limits and input checks: [core/security.py] *)

(** Clock readings are microseconds, as for the other timestamps; texts are
    ASCII, as in the rest of the model. *)

(** [RateLimiter._requests]: the times recorded for each key, a dictionary
    in insertion order. *)
Fixpoint requests_of (key : string) (r : list (string * list Z))
  : option (list Z) :=
  match r with
  | [] => None
  | (k, v) :: rest => if String.eqb key k then Some v else requests_of key rest
  end.

(** [self._requests[key] = v] *)
Fixpoint set_requests (key : string) (v : list Z) (r : list (string * list Z))
  : list (string * list Z) :=
  match r with
  | [] => [(key, v)]
  | (k, v') :: rest =>
      if String.eqb key k then (k, v) :: rest
      else (k, v') :: set_requests key v rest
  end.

(** [timedelta(seconds=n)] *)
Definition seconds (n : Z) : Z := n * 1000000.

(** The times recorded for [key], none for a key never seen. *)
Definition recorded (key : string) (r : list (string * list Z)) : list Z :=
  match requests_of key r with Some v => v | None => [] end.

(** [RateLimiter.is_allowed] at clock [now]: the answer and the new state
    of [_requests]. *)
Definition is_allowed (now : Z) (key : string) (max_requests window_seconds : Z)
    (r : list (string * list Z)) : bool * list (string * list Z) :=
  let r := match requests_of key r with
           | None => set_requests key [] r
           | Some _ => r
           end in
  let cutoff := now - seconds window_seconds in
  let kept := filter (fun req_time => req_time >? cutoff) (recorded key r) in
  let r := set_requests key kept r in
  if Z.of_nat (List.length kept) >=? max_requests then (false, r)
  else (true, set_requests key (kept ++ [now]) r).

(** A run of requests for one key at the times [times]: the state of the
    limiter and the times of the requests it allowed. *)
Definition limited_run (key : string) (max_requests window_seconds : Z)
    (times : list Z) : list (string * list Z) * list Z :=
  fold_left
    (fun st now =>
       let '(ok, r) := is_allowed now key max_requests window_seconds (fst st) in
       (r, if ok then (snd st ++ [now])%list else snd st))
    times ([], []).

Definition newline : ascii := ascii_of_nat 10.

(** [[a-zA-Z0-9_-]] *)
Definition is_id_char (c : ascii) : bool :=
  is_alpha c || is_digit c || Ascii.eqb c "_"%char || Ascii.eqb c "-"%char.

(** The part of a text that [$] lets a pattern end at: the text, or the
    text without its final newline. *)
Definition before_final_newline (s : list ascii) : list ascii :=
  match rev s with
  | c :: body => if Ascii.eqb c newline then rev body else s
  | [] => s
  end.

(** [validate_user_id]: [re.match(r'^[a-zA-Z0-9_-]{1,50}$', user_id)] *)
Definition validate_user_id (user_id : string) : bool :=
  match user_id with
  | EmptyString => false
  | _ =>
      let body := before_final_newline (list_ascii_of_string user_id) in
      (1 <=? List.length body)%nat && (List.length body <=? 50)%nat
      && forallb is_id_char body
  end.






(** ** More sample data *)

Definition topic_jazz : LearningData :=
  mkLearningData 3 "u" "topic_interest" "topic" "jazz music" (9 # 10) None
    None 1 0 0 400 400 0 0 true None 0.

Definition topic_cars : LearningData :=
  mkLearningData 4 "u" "topic_interest" "topic" "cars" (9 # 10) None None
    1 0 0 400 400 0 0 true None 0.
(** * Properties *)

Local Open Scope Q_scope.

(** ** Python [min] and [max] *)

Lemma py_min_cases (a b : Q) :
  (a <= b /\ py_min a b = a) \/ (b < a /\ py_min a b = b).
Proof.
  unfold py_min. destruct (Qle_bool a b) eqn:E.
  - left. split; [now apply Qle_bool_iff | reflexivity].
  - right. split; [| reflexivity].
    apply Qnot_le_lt. intro H. apply Qle_bool_iff in H. congruence.
Qed.

Lemma py_max_cases (a b : Q) :
  (b <= a /\ py_max a b = a) \/ (a < b /\ py_max a b = b).
Proof.
  unfold py_max. destruct (Qle_bool b a) eqn:E.
  - left. split; [now apply Qle_bool_iff | reflexivity].
  - right. split; [| reflexivity].
    apply Qnot_le_lt. intro H. apply Qle_bool_iff in H. congruence.
Qed.

Lemma Qltb_true (a b : Q) : Qltb a b = true <-> a < b.
Proof.
  unfold Qltb. rewrite negb_true_iff. split.
  - intro E. apply Qnot_le_lt. intro H. apply Qle_bool_iff in H. congruence.
  - intro H. destruct (Qle_bool b a) eqn:E; [| reflexivity].
    apply Qle_bool_iff in E. apply Qle_not_lt in E. contradiction.
Qed.

Lemma Qltb_false (a b : Q) : Qltb a b = false <-> b <= a.
Proof.
  unfold Qltb. rewrite negb_false_iff. apply Qle_bool_iff.
Qed.

Ltac split_min_max :=
  repeat match goal with
  | |- context [py_min ?a ?b] =>
      let H := fresh "Hmin" in let E := fresh "Emin" in
      destruct (py_min_cases a b) as [[H E] | [H E]]; rewrite E in *
  | |- context [py_max ?a ?b] =>
      let H := fresh "Hmax" in let E := fresh "Emax" in
      destruct (py_max_cases a b) as [[H E] | [H E]]; rewrite E in *
  end.

Lemma inject_Z_nonneg (z : Z) : (0 <= z)%Z -> 0 <= inject_Z z.
Proof. intro H. change 0 with (inject_Z 0). now rewrite <- Zle_Qle. Qed.

Lemma ratio_bounds (m n : Z) :
  (0 <= m <= n)%Z -> (0 < n)%Z -> 0 <= inject_Z m / inject_Z n <= 1.
Proof.
  intros [Hm Hmn] Hn.
  assert (Hn' : 0 < inject_Z n).
  { change 0 with (inject_Z 0). now rewrite <- Zlt_Qlt. }
  split.
  - apply Qle_shift_div_l; [assumption |]. rewrite Qmult_0_l.
    now apply inject_Z_nonneg.
  - apply Qle_shift_div_r; [assumption |]. rewrite Qmult_1_l.
    now rewrite <- Zle_Qle.
Qed.

(** ** The reinforcement engine *)

Section Reinforcement.
Variable now : Z.
Variable d : LearningData.

Lemma contradict_confidence :
  confidence (contradict now d) = py_max (confidence d - (2 # 10)) (1 # 10).
Proof.
  unfold contradict; cbn.
  destruct (_ >? _)%Z; reflexivity.
Qed.

Lemma reinforce_confidence_plain :
  confidence (reinforce now None d) = py_min (confidence d * (11 # 10)) 1.
Proof. reflexivity. Qed.

Lemma reinforce_confidence_blend (nc : Q) :
  confidence (reinforce now (Some nc) d)
  = let weight := py_min (inject_Z (times_reinforced d + 1) / 10) (5 # 10) in
    weight * nc + (1 - weight) * confidence d.
Proof. reflexivity. Qed.




End Reinforcement.

(** C7: a confidence in [0, 1] stays in [0.1, 1] under [contradict] and in
    [0, 1] under [reinforce], with or without an observed confidence in
    [0, 1].  The reinforcement counter is non-negative, as every counter
    the engine writes. *)
Theorem confidence_stays_clamped (now : Z) (d : LearningData)
    (observed : option Q) :
  0 <= confidence d <= 1 ->
  (0 <= times_reinforced d)%Z ->
  (forall c, observed = Some c -> 0 <= c <= 1) ->
  ((1 # 10) <= confidence (contradict now d) <= 1)
  /\ (0 <= confidence (reinforce now observed d) <= 1).
Proof.
  intros [Hlo Hhi] Hcount Hobs. split.
  - rewrite contradict_confidence. split_min_max; lra.
  - destruct observed as [c |].
    + destruct (Hobs c eq_refl) as [Hc0 Hc1].
      rewrite reinforce_confidence_blend. cbv zeta.
      assert (Hw : 0 <= inject_Z (times_reinforced d + 1) / 10).
      { apply Qle_shift_div_l; [lra |]. rewrite Qmult_0_l.
        apply inject_Z_nonneg. lia. }
      set (q := inject_Z (times_reinforced d + 1) / 10) in *.
      split_min_max; nra.
    + rewrite reinforce_confidence_plain. split_min_max; lra.
Qed.

Lemma confidence_stays_clamped_witness :
  ((1 # 10) <= confidence (contradict 5
      (mkLearningData 1 "u" "personal_fact" "city" "Paris" (8 # 10) None None
         1 0 0 0 0 0 0 true None 0)) <= 1)
  /\ (0 <= confidence (reinforce 5 (Some (1 # 2))
      (mkLearningData 1 "u" "personal_fact" "city" "Paris" (8 # 10) None None
         1 0 0 0 0 0 0 true None 0)) <= 1).
Proof.
  apply confidence_stays_clamped.
  - cbn. split; lra.
  - cbn. lia.
  - intros c E. injection E as <-. split; lra.
Defined.




(** ** The relevance scorer *)




Lemma type_bonus_spec (d : LearningData) :
  type_bonus d ==
  if (String.eqb (learning_type d) "personal_fact"
      || String.eqb (learning_type d) "communication_preference")%bool
  then 1 # 10 else 0.
Proof.
  unfold type_bonus, mem_string. cbn [existsb]. rewrite orb_false_r.
  reflexivity.
Qed.

Lemma relevance_score_unfold (now : Z) (d : LearningData) (query : string)
    (keywords : list string) :
  exists raw, raw == weighted_sum now d keywords
    /\ _calculate_relevance_score now d query keywords = py_min raw 1.
Proof.
  unfold _calculate_relevance_score, weighted_sum, keyword_overlap.
  destruct keywords as [| k ks]; eexists; (split; [| reflexivity]); ring.
Qed.



(** ** Tables: lookup and update by primary key *)

Local Open Scope nat_scope.

Section Tables.
Implicit Types (t : list LearningData) (i : nat).

Lemma get_in t (x : LearningData) :
  NoDup (map id t) -> In x t -> get (id x) t = Some x.
Proof.
  unfold get. induction t as [| y t IH]; intros Hnd Hin; [contradiction |].
  cbn in Hnd. inversion Hnd as [| ? ? Hnotin Hnd']; subst. cbn.
  destruct Hin as [-> | Hin].
  - now rewrite Nat.eqb_refl.
  - destruct (Nat.eqb_spec (id y) (id x)) as [E | _].
    + exfalso. apply Hnotin. rewrite E. now apply in_map.
    + now apply IH.
Qed.

Lemma get_some t i (x : LearningData) :
  get i t = Some x -> In x t /\ id x = i.
Proof.
  unfold get. intro H. apply find_some in H. destruct H as [Hin E].
  split; [assumption | now apply Nat.eqb_eq].
Qed.

Lemma deref_rows t (l : list LearningData) :
  NoDup (map id t) -> incl l t -> deref t (map id l) = l.
Proof.
  intros Hnd. unfold deref. induction l as [| x l IH]; intro Hincl.
  - reflexivity.
  - cbn. rewrite (get_in t x Hnd) by (apply Hincl; now left).
    cbn. f_equal. apply IH. intros y Hy. apply Hincl. now right.
Qed.

Lemma update_ids i (f : LearningData -> LearningData) t :
  (forall x, id (f x) = id x) -> map id (update i f t) = map id t.
Proof.
  intro Hf. unfold update. rewrite map_map. apply map_ext.
  intro x. destruct (id x =? i); [apply Hf | reflexivity].
Qed.
End Tables.

(** ** Stable sorting *)

Section StableSortFacts.
Context {A : Type}.
Variable before : A -> A -> bool.

Lemma insert_sorted_perm (x : A) (l : list A) :
  Permutation (insert_sorted before x l) (x :: l).
Proof.
  induction l as [| y t IH]; cbn.
  - reflexivity.
  - destruct (before y x).
    + rewrite IH. apply perm_swap.
    + reflexivity.
Qed.

Lemma order_by_perm (l : list A) : Permutation (order_by before l) l.
Proof.
  induction l as [| x l IH]; cbn.
  - reflexivity.
  - rewrite insert_sorted_perm. now constructor.
Qed.

Lemma order_by_in (l : list A) (x : A) : In x (order_by before l) <-> In x l.
Proof.
  split; apply Permutation_in;
    [apply order_by_perm | symmetry; apply order_by_perm].
Qed.

(** Elements of one class [p] that never sort before one another keep
    their order. *)
Lemma insert_sorted_filter (p : A -> bool) (x : A) (l : list A) :
  (forall y, In y l -> p y = true -> p x = true -> before y x = false) ->
  filter p (insert_sorted before x l) = filter p (x :: l).
Proof.
  induction l as [| y t IH]; intro H; [reflexivity |].
  cbn [insert_sorted]. destruct (before y x) eqn:E; [| reflexivity].
  cbn [filter]. rewrite IH by (intros z Hz; apply H; now right).
  cbn [filter]. destruct (p y) eqn:Py, (p x) eqn:Px; try reflexivity.
  rewrite (H y (or_introl eq_refl) Py eq_refl) in E. discriminate.
Qed.

Lemma order_by_stable (p : A -> bool) (l : list A) :
  (forall x y, p x = true -> p y = true -> before x y = false) ->
  filter p (order_by before l) = filter p l.
Proof.
  intro H. induction l as [| x l IH]; [reflexivity |].
  cbn [order_by fold_right]. fold (order_by before l).
  rewrite insert_sorted_filter by (intros; now apply H).
  cbn [filter]. now rewrite IH.
Qed.

(** For a sort order [before] whose complement is transitive, the output
    is sorted, and elements that tie keep the order [T] of the input. *)
Section Sorted.
Variable T : A -> A -> Prop.
Hypothesis before_asym :
  forall a b, before a b = true -> before b a = false.
Hypothesis not_before_trans :
  forall a b c, before b a = false -> before c b = false ->
                before c a = false.

Lemma insert_sorted_sorted (x : A) (s : list A) :
  StronglySorted (sorted_stably before T) s -> Forall (T x) s ->
  StronglySorted (sorted_stably before T) (insert_sorted before x s).
Proof.
  induction s as [| y t IH]; intros Hs Hx; cbn.
  - constructor; constructor.
  - inversion Hs as [| ? ? Ht Hy]; subst.
    inversion Hx as [| ? ? Hxy Hxt]; subst.
    destruct (before y x) eqn:E.
    + constructor; [now apply IH |].
      apply (Permutation_Forall (Permutation_sym (insert_sorted_perm x t))).
      constructor; [| assumption].
      split; [now apply before_asym | congruence].
    + constructor; [assumption |].
      constructor; [split; [assumption | auto] |].
      rewrite Forall_forall in *. intros z Hz. split.
      * apply not_before_trans with y; [assumption |]. now apply Hy.
      * intros _. now apply Hxt.
Qed.

Lemma order_by_sorted (l : list A) :
  StronglySorted T l -> StronglySorted (sorted_stably before T) (order_by before l).
Proof.
  induction 1 as [| x l Hl IH Hx]; cbn.
  - constructor.
  - apply insert_sorted_sorted; [assumption |].
    now apply (Permutation_Forall (Permutation_sym (order_by_perm l))).
Qed.
End Sorted.
End StableSortFacts.

Lemma order_by_unordered (l : list LearningData) : order_by unordered l = l.
Proof.
  induction l as [| x l IH]; [reflexivity |].
  change (order_by unordered (x :: l))
    with (insert_sorted unordered x (order_by unordered l)).
  rewrite IH. destruct l; reflexivity.
Qed.

Lemma in_firstn {A : Type} (n : nat) (l : list A) (x : A) :
  In x (firstn n l) -> In x l.
Proof.
  intro H. rewrite <- (firstn_skipn n l). apply in_or_app. now left.
Qed.

Section SortedLists.
Context {A : Type} (R : A -> A -> Prop).

Lemma StronglySorted_firstn (n : nat) (l : list A) :
  StronglySorted R l -> StronglySorted R (firstn n l).
Proof.
  intro H. revert n. induction H as [| x l Hl IH Hx]; intro n.
  - rewrite firstn_nil. constructor.
  - destruct n; cbn; constructor; [apply IH |].
    rewrite Forall_forall in *. intros y Hy. apply Hx.
    now apply in_firstn with n.
Qed.


Lemma StronglySorted_split (l1 l2 : list A) :
  StronglySorted R (l1 ++ l2) ->
  forall a b, In a l1 -> In b l2 -> R a b.
Proof.
  induction l1 as [| x l1 IH]; intros H a b Ha Hb; [contradiction |].
  cbn in H. inversion H as [| ? ? Hs Hx]; subst.
  destruct Ha as [-> | Ha].
  - rewrite Forall_forall in Hx. apply Hx. apply in_or_app. now right.
  - now apply IH.
Qed.

Lemma StronglySorted_weaken (R' : A -> A -> Prop) (l : list A) :
  (forall a b, R a b -> R' a b) ->
  StronglySorted R l -> StronglySorted R' l.
Proof.
  intros HR. induction 1 as [| x l Hl IH Hx]; constructor; [assumption |].
  eapply Forall_impl; [| exact Hx]. intros; now apply HR.
Qed.
End SortedLists.

Lemma StronglySorted_map {A B : Type} (f : A -> B) (R : B -> B -> Prop)
    (l : list A) :
  StronglySorted (fun a b => R (f a) (f b)) l -> StronglySorted R (map f l).
Proof.
  induction 1 as [| x l Hl IH Hx]; cbn; constructor; [assumption |].
  rewrite Forall_forall in *. intros y Hy. apply in_map_iff in Hy.
  destruct Hy as (z & <- & Hz). now apply Hx.
Qed.

(** ** The merge pass, group by group *)

Lemma absorb_id (o p : LearningData) : id (absorb o p) = id p.
Proof. unfold absorb. cbn. destruct (_ >? _)%Z; reflexivity. Qed.

Lemma mark_merged_id (i : nat) (o : LearningData) : id (mark_merged i o) = id o.
Proof. reflexivity. Qed.

Lemma boost_id (p : LearningData) : id (boost p) = id p.
Proof. reflexivity. Qed.

Lemma absorb_all_id (others : list LearningData) (p : LearningData) :
  id (fold_left (fun p o => absorb o p) others p) = id p.
Proof.
  revert p. induction others as [| o os IH]; intro p; cbn; [reflexivity |].
  rewrite IH. apply absorb_id.
Qed.

Lemma mem_id_in (i : nat) (ids : list nat) : mem_id i ids = true <-> In i ids.
Proof.
  unfold mem_id. rewrite existsb_exists. split.
  - intros (j & Hj & E). apply Nat.eqb_eq in E. now subst.
  - intro H. exists i. split; [assumption | apply Nat.eqb_refl].
Qed.

Lemma mem_id_not_in (i : nat) (ids : list nat) :
  mem_id i ids = false <-> ~ In i ids.
Proof.
  rewrite <- mem_id_in. destruct (mem_id i ids); split; congruence.
Qed.

Lemma same_id_same_row (t : list LearningData) (x y : LearningData) :
  NoDup (map id t) -> In x t -> In y t -> id x = id y -> x = y.
Proof.
  intros Hnd Hx Hy E. pose proof (get_in t x Hnd Hx) as Gx.
  pose proof (get_in t y Hnd Hy) as Gy. rewrite E in Gx. congruence.
Qed.

Lemma NoDup_ids_filter (p : LearningData -> bool) (l : list LearningData) :
  NoDup (map id l) -> NoDup (map id (filter p l)).
Proof.
  induction l as [| x l IH]; cbn; intro H; [constructor |].
  inversion H as [| ? ? Hx Hl]; subst. destruct (p x); cbn.
  - constructor; [| now apply IH].
    intro Hin. apply Hx. apply in_map_iff in Hin.
    destruct Hin as (y & E & Hy). apply filter_In in Hy.
    rewrite <- E. apply in_map. tauto.
  - now apply IH.
Qed.

Lemma fold_into_loop (primary : nat) (others t : list LearningData) :
  NoDup (map id t) -> NoDup (map id others) -> incl others t ->
  ~ In primary (map id others) ->
  fold_left (fun t other => fold_into primary (id other) t) others t
  = map (fun x =>
           if id x =? primary
           then fold_left (fun p o => absorb o p) others x
           else if mem_id (id x) (map id others)
                then mark_merged primary x else x) t.
Proof.
  revert t. induction others as [| o os IH]; intros t Ht Hos Hincl Hp.
  - cbn. rewrite <- (map_id t) at 1. apply map_ext.
    intro x. now destruct (id x =? primary).
  - cbn [fold_left]. cbn [map] in Hos, Hp.
    inversion Hos as [| ? ? Ho Hos']; subst.
    assert (Hot : In o t) by (apply Hincl; now left).
    unfold fold_into at 2. rewrite (get_in t o Ht Hot).
    rewrite IH; try assumption.
    + unfold update. rewrite !map_map. apply map_ext_in. intros x Hx.
      destruct (Nat.eqb_spec (id x) primary) as [Ep | Np];
        cbv beta iota; rewrite ?absorb_id;
        destruct (Nat.eqb_spec (id x) (id o)) as [Eo | No];
        cbv beta iota; rewrite ?absorb_id, ?mark_merged_id.
      * exfalso. apply Hp. left. congruence.
      * rewrite (proj2 (Nat.eqb_eq _ _) Ep). reflexivity.
      * rewrite (proj2 (Nat.eqb_neq _ _) Np).
        assert (x = o) by now apply (same_id_same_row t). subst x.
        rewrite (proj2 (mem_id_not_in _ _) Ho).
        cbn [map mem_id existsb]. now rewrite Nat.eqb_refl.
      * rewrite (proj2 (Nat.eqb_neq _ _) Np).
        cbn [map mem_id existsb]. fold (mem_id (id x) (map id os)).
        rewrite (proj2 (Nat.eqb_neq _ _) No). reflexivity.
    + rewrite update_ids by (intro; apply mark_merged_id).
      now rewrite update_ids by (intro; apply absorb_id).
    + intros y Hy. unfold update. rewrite map_map. apply in_map_iff.
      exists y. split; [| apply Hincl; now right].
      assert (Ny : id y <> primary).
      { intro E. apply Hp. right. rewrite <- E. now apply in_map. }
      assert (Nyo : id y <> id o).
      { intro E. apply Ho. rewrite <- E. now apply in_map. }
      rewrite (proj2 (Nat.eqb_neq _ _) Ny).
      now rewrite (proj2 (Nat.eqb_neq _ _) Nyo).
    + intro H. apply Hp. now right.
Qed.

Lemma max_by_confidence_in (best : LearningData) (rest : list LearningData) :
  In (max_by_confidence best rest) (best :: rest).
Proof.
  revert best. induction rest as [| x t IH]; intro best; cbn.
  - now left.
  - destruct (Qltb (confidence best) (confidence x)).
    + right. apply IH.
    + destruct (IH best) as [E | H]; [now left | right; now right].
Qed.

Lemma merged_row_id (grp : list LearningData) (x : LearningData) :
  id (merged_row grp x) = id x.
Proof.
  unfold merged_row. destruct grp as [| first rest]; [reflexivity |].
  destruct (1 <? _); [| reflexivity].
  destruct (id x =? _); [| reflexivity].
  rewrite boost_id. apply absorb_all_id.
Qed.

Lemma merge_group_spec (grp t : list LearningData) :
  NoDup (map id t) -> NoDup (map id grp) -> incl grp t ->
  merge_group (map id grp) t
  = map (fun x => if mem_id (id x) (map id grp) then merged_row grp x else x) t.
Proof.
  intros Ht Hgrp Hincl. unfold merge_group. rewrite (deref_rows t grp Ht Hincl).
  unfold merged_row.
  destruct grp as [| first rest].
  - cbn. now rewrite map_id.
  - destruct (1 <? List.length (first :: rest)) eqn:Elen.
    + set (grp := first :: rest) in *.
      set (primary := max_by_confidence first rest).
      assert (Hpin : In primary grp) by apply max_by_confidence_in.
      set (others := filter (fun l => negb (id l =? id primary)) grp).
      rewrite fold_into_loop; try assumption.
      * unfold update. rewrite map_map. apply map_ext_in. intros x Hx.
        destruct (Nat.eqb_spec (id x) (id primary)) as [Ep | Np].
        { rewrite absorb_all_id. rewrite (proj2 (Nat.eqb_eq _ _) Ep).
          assert (Hm : mem_id (id x) (map id grp) = true).
          { apply mem_id_in. rewrite Ep. now apply in_map. }
          rewrite Hm. reflexivity. }
        destruct (mem_id (id x) (map id others)) eqn:Em.
        { rewrite mark_merged_id. rewrite (proj2 (Nat.eqb_neq _ _) Np).
          assert (Hm : mem_id (id x) (map id grp) = true).
          { apply mem_id_in. apply mem_id_in in Em. apply in_map_iff in Em.
            destruct Em as (y & E & Hy). apply filter_In in Hy.
            rewrite <- E. apply in_map. tauto. }
          rewrite Hm. reflexivity. }
        rewrite (proj2 (Nat.eqb_neq _ _) Np).
        assert (Hm : mem_id (id x) (map id grp) = false).
        { apply mem_id_not_in. intro Hin. apply mem_id_not_in in Em.
          apply Em. apply in_map_iff in Hin. destruct Hin as (y & E & Hy).
          apply in_map_iff. exists y. split; [assumption |].
          apply filter_In. split; [assumption |].
          apply negb_true_iff. apply Nat.eqb_neq. congruence. }
        rewrite Hm. reflexivity.
      * now apply NoDup_ids_filter.
      * intros y Hy. apply filter_In in Hy. apply Hincl. tauto.
      * intro Hin. apply in_map_iff in Hin. destruct Hin as (y & E & Hy).
        apply filter_In in Hy. destruct Hy as [_ Hy].
        apply negb_true_iff in Hy. apply Nat.eqb_neq in Hy. congruence.
    + rewrite <- (map_id t) at 1. apply map_ext. intro x.
      now destruct (mem_id _ _).
Qed.

(** ** The grouping dictionary *)

Lemma mem_string_in (s : string) (l : list string) :
  mem_string s l = true <-> In s l.
Proof.
  unfold mem_string. rewrite existsb_exists. split.
  - intros (x & Hx & E). apply String.eqb_eq in E. now subst.
  - intro H. exists s. split; [assumption | apply String.eqb_refl].
Qed.

Lemma mem_string_not_in (s : string) (l : list string) :
  mem_string s l = false <-> ~ In s l.
Proof.
  rewrite <- mem_string_in. destruct (mem_string s l); split; congruence.
Qed.

Lemma dict_append_keys (k : string) (v : nat) (G : list (string * list nat)) :
  map fst (dict_append k v G)
  = if mem_string k (map fst G) then map fst G else (map fst G ++ [k])%list.
Proof.
  induction G as [| [k' vs] G IH]; cbn [dict_append]; [reflexivity |].
  cbn [map fst mem_string existsb].
  destruct (String.eqb k k') eqn:E; cbn [orb map fst]; [reflexivity |].
  fold (mem_string k (map fst G)). rewrite IH.
  now destruct (mem_string k (map fst G)).
Qed.

Lemma dict_append_in (k : string) (v : nat) (G : list (string * list nat))
    (k' : string) (ids' : list nat) :
  NoDup (map fst G) ->
  In (k', ids') (dict_append k v G) ->
  (k' <> k /\ In (k', ids') G)
  \/ (k' = k /\ ((exists ids0, In (k, ids0) G /\ ids' = (ids0 ++ [v])%list)
                 \/ (~ In k (map fst G) /\ ids' = [v]))).
Proof.
  induction G as [| [k0 vs] G IH]; cbn [dict_append]; intro Hnd.
  - intros [E | []]. injection E as <- <-. right. split; [reflexivity |].
    right. split; [intros [] | reflexivity].
  - cbn in Hnd. inversion Hnd as [| ? ? Hk0 Hnd']; subst.
    destruct (String.eqb_spec k k0) as [<- | N].
    + intros [E | H].
      * injection E as <- <-. right. split; [reflexivity |]. left.
        exists vs. split; [now left | reflexivity].
      * left. split; [| now right].
        intros ->. apply Hk0. change k with (fst (k, ids')). now apply in_map.
    + intros [E | H].
      * injection E as <- <-. left. split; [congruence | now left].
      * destruct (IH Hnd' H) as [[Hn Hin] | [-> [(ids0 & Hin & ->) | [Hnot ->]]]].
        { left. split; [assumption | now right]. }
        { right. split; [reflexivity |]. left. exists ids0.
          split; [now right | reflexivity]. }
        { right. split; [reflexivity |]. right. split; [| reflexivity].
          cbn. intros [E | Hin]; [congruence | contradiction]. }
Qed.

Lemma filter_none {A : Type} (p : A -> bool) (l : list A) :
  (forall x, In x l -> p x = false) -> filter p l = [].
Proof.
  induction l as [| x l IH]; intro H; [reflexivity |].
  cbn. rewrite (H x (or_introl eq_refl)). apply IH.
  intros y Hy. apply H. now right.
Qed.

Lemma filter_all {A : Type} (p : A -> bool) (l : list A) :
  (forall x, In x l -> p x = true) -> filter p l = l.
Proof.
  induction l as [| x l IH]; intro H; [reflexivity |].
  cbn. rewrite (H x (or_introl eq_refl)). f_equal. apply IH.
  intros y Hy. apply H. now right.
Qed.

Lemma build_groups_snoc (l : list LearningData) (x : LearningData) :
  build_groups (l ++ [x]) = dict_append (group_key x) (id x) (build_groups l).
Proof. unfold build_groups. now rewrite fold_left_app. Qed.

Lemma build_groups_spec (l : list LearningData) :
  NoDup (map fst (build_groups l))
  /\ (forall k ids, In (k, ids) (build_groups l) ->
       ids = map id (filter (fun y => String.eqb (group_key y) k) l))
  /\ (forall x, In x l -> In (group_key x) (map fst (build_groups l))).
Proof.
  induction l as [| x l (Hnd & Hids & Hkeys)] using rev_ind.
  - repeat split; [constructor | intros k ids [] | intros x []].
  - rewrite build_groups_snoc. set (G := build_groups l) in *.
    assert (Hk : map fst (dict_append (group_key x) (id x) G)
                 = if mem_string (group_key x) (map fst G) then map fst G
                   else (map fst G ++ [group_key x])%list)
      by apply dict_append_keys.
    repeat split.
    + rewrite Hk. destruct (mem_string _ _) eqn:E; [assumption |].
      apply mem_string_not_in in E.
      apply (Permutation_NoDup (l := group_key x :: map fst G)).
      * apply Permutation_cons_append.
      * now constructor.
    + intros k ids Hin. rewrite filter_app, map_app. cbn [filter].
      apply dict_append_in in Hin; [| assumption].
      destruct Hin as [[Hn Hin] | [-> [(ids0 & Hin & ->) | [Hnot ->]]]].
      * rewrite (proj2 (String.eqb_neq _ _)) by congruence.
        cbn. rewrite app_nil_r. now apply Hids.
      * rewrite String.eqb_refl. cbn. f_equal. now apply Hids.
      * rewrite String.eqb_refl. cbn.
        rewrite filter_none; [reflexivity |].
        intros y Hy. apply String.eqb_neq. intros E. apply Hnot.
        rewrite <- E. now apply Hkeys.
    + intros y Hy. rewrite Hk. apply in_app_or in Hy.
      destruct (mem_string _ _) eqn:E.
      * destruct Hy as [Hy | [<- | []]]; [now apply Hkeys |].
        now apply mem_string_in.
      * apply in_or_app. destruct Hy as [Hy | [<- | []]];
          [left; now apply Hkeys | right; now left].
Qed.

(** ** The merge pass as a function of the stored rows *)

Section MergeLoop.
Variable P : LearningData -> bool.
Variables t0 l : list LearningData.
Hypothesis t0_ids : NoDup (map id t0).
Hypothesis l_rows : forall x, In x l <-> In x t0 /\ P x = true.

Lemma grp_row_by_id (k : string) (x : LearningData) :
  In x t0 -> In (id x) (map id (rows_with_key k l)) ->
  group_key x = k /\ P x = true.
Proof.
  intros Hx Hin. apply in_map_iff in Hin. destruct Hin as (z & E & Hz).
  apply filter_In in Hz. destruct Hz as [Hz Hk].
  apply l_rows in Hz. destruct Hz as [Hz HP].
  assert (z = x) by now apply (same_id_same_row t0). subst z.
  split; [now apply String.eqb_eq | assumption].
Qed.

Lemma merge_loop (G : list (string * list nat))
    (F : LearningData -> LearningData) :
  NoDup (map id l) ->
  NoDup (map fst G) ->
  (forall k ids, In (k, ids) G -> ids = map id (rows_with_key k l)) ->
  (forall x, id (F x) = id x) ->
  (forall x, In x t0 -> In (group_key x) (map fst G) -> P x = true ->
             F x = x) ->
  fold_left (fun t g => merge_group (snd g) t) G (map F t0)
  = map (fun x =>
           if mem_string (group_key x) (map fst G) && P x
           then merged_row (group_of x l) x else F x) t0.
Proof.
  intro Hl. revert F.
  induction G as [| [k ids] G IH]; intros F Hnd Hids HF Hfix.
  - cbn. apply map_ext. reflexivity.
  - cbn [fold_left snd]. cbn [map fst] in Hnd.
    inversion Hnd as [| ? ? Hk HndG]; subst.
    rewrite (Hids k ids (or_introl eq_refl)).
    assert (Hincl : incl (rows_with_key k l) (map F t0)).
    { intros y Hy. apply filter_In in Hy. destruct Hy as [Hy Ek].
      apply String.eqb_eq in Ek. apply l_rows in Hy. destruct Hy as [Hy HP].
      apply in_map_iff. exists y. split; [| assumption].
      apply Hfix; [assumption | | assumption]. left. now symmetry. }
    rewrite merge_group_spec; [| | now apply NoDup_ids_filter | assumption].
    2:{ rewrite map_map. erewrite map_ext; [exact t0_ids | apply HF]. }
    rewrite map_map.
    rewrite (IH (fun x => if mem_id (id (F x)) (map id (rows_with_key k l))
                          then merged_row (rows_with_key k l) (F x) else F x)).
    + apply map_ext_in. intros x Hx.
      cbn [map fst mem_string existsb]. fold (mem_string (group_key x) (map fst G)).
      destruct (mem_string (group_key x) (map fst G) && P x) eqn:E.
      * apply andb_prop in E. destruct E as [-> ->].
        now rewrite orb_true_r.
      * rewrite HF.
        destruct (String.eqb_spec (group_key x) k) as [Ek | Nk];
          cbn [orb]; [destruct (P x) eqn:HP; cbn [andb] |].
        -- assert (Hxl : In x (rows_with_key k l)).
           { apply filter_In. split; [now apply l_rows |].
             now apply String.eqb_eq. }
           rewrite (proj2 (mem_id_in _ _) (in_map id _ _ Hxl)).
           rewrite Hfix; [| assumption | now left | assumption].
           unfold group_of. now rewrite Ek.
        -- destruct (mem_id (id x) (map id (rows_with_key k l))) eqn:Em;
             [| reflexivity].
           apply mem_id_in in Em.
           destruct (grp_row_by_id k x Hx Em). congruence.
        -- rewrite E.
           destruct (mem_id (id x) (map id (rows_with_key k l))) eqn:Em;
             [| reflexivity].
           apply mem_id_in in Em.
           destruct (grp_row_by_id k x Hx Em). congruence.
    + assumption.
    + intros k' ids' Hin. apply Hids. now right.
    + intro x. destruct (mem_id _ _); [| apply HF].
      rewrite merged_row_id. apply HF.
    + intros x Hx Hkey HP.
      rewrite Hfix; [| assumption | now right | assumption].
      destruct (mem_id (id x) (map id (rows_with_key k l))) eqn:Em; [| reflexivity].
      apply mem_id_in in Em. destruct (grp_row_by_id k x Hx Em) as [Ek _].
      subst k. contradiction.
Qed.
End MergeLoop.

Lemma query_fresh (where_ : LearningData -> bool)
    (before : LearningData -> LearningData -> bool) (db : Database) :
  unique_ids db ->
  query where_ before (begin db)
  = order_by before (filter where_ (learning_data db)).
Proof.
  intro H. unfold query. cbn. apply deref_rows; [assumption |].
  intros x Hx. apply order_by_in in Hx. apply filter_In in Hx. tauto.
Qed.

Lemma order_by_ids (before : LearningData -> LearningData -> bool)
    (l : list LearningData) :
  NoDup (map id l) -> NoDup (map id (order_by before l)).
Proof.
  apply Permutation_NoDup. apply Permutation_map. symmetry.
  apply order_by_perm.
Qed.

(** The rows the merge pass groups. *)
Lemma merge_rows (user : string) (db : Database) (x : LearningData) :
  In x (order_by type_key_before (filter (active_of user) (learning_data db)))
  <-> In x (learning_data db) /\ active_of user x = true.
Proof. rewrite order_by_in. apply filter_In. Qed.

Lemma merge_pass_rows (user : string) (db : Database) :
  unique_ids db ->
  learning_data (merge_pass user db)
  = map (fun x =>
           if active_of user x
           then merged_row
                  (group_of x (query (active_of user) type_key_before (begin db)))
                  x
           else x) (learning_data db).
Proof.
  intro Hu. rewrite (query_fresh _ _ _ Hu).
  unfold merge_pass, commit, _merge_similar_learnings, with_learning.
  cbn [work learning_data]. rewrite (query_fresh _ _ _ Hu). cbn [begin work].
  set (l := order_by type_key_before (filter (active_of user) (learning_data db))).
  destruct (build_groups_spec l) as (Hnd & Hids & Hkeys).
  rewrite <- (map_id (learning_data db)) at 1.
  rewrite (merge_loop (active_of user) (learning_data db) l Hu
             (merge_rows user db) (build_groups l) (fun x => x)).
  - apply map_ext_in. intros x Hx.
    destruct (active_of user x) eqn:E; [| now rewrite andb_false_r].
    rewrite andb_true_r.
    rewrite (proj2 (mem_string_in _ _)); [reflexivity |].
    apply Hkeys. now apply merge_rows.
  - apply order_by_ids. now apply NoDup_ids_filter.
  - assumption.
  - assumption.
  - reflexivity.
  - reflexivity.
Qed.

Lemma merge_pass_other_tables (user : string) (db : Database) :
  conversation_summaries (merge_pass user db) = conversation_summaries db
  /\ user_profiles (merge_pass user db) = user_profiles db
  /\ conversations (merge_pass user db) = conversations db.
Proof. repeat split. Qed.

(** ** What the merge does to the rows of one group *)

Lemma absorb_fields (o p : LearningData) :
  times_observed (absorb o p) = (times_observed p + times_observed o)%Z
  /\ times_reinforced (absorb o p) = (times_reinforced p + times_reinforced o)%Z
  /\ times_contradicted (absorb o p)
     = (times_contradicted p + times_contradicted o)%Z
  /\ is_active (absorb o p) = is_active p
  /\ user_id (absorb o p) = user_id p
  /\ learning_type (absorb o p) = learning_type p
  /\ key (absorb o p) = key p.
Proof. unfold absorb. cbn. destruct (_ >? _)%Z; repeat split. Qed.

Lemma absorb_all_fields (others : list LearningData) (p : LearningData) :
  let p' := fold_left (fun p o => absorb o p) others p in
  times_observed p' = (times_observed p + sum_of times_observed others)%Z
  /\ times_reinforced p'
     = (times_reinforced p + sum_of times_reinforced others)%Z
  /\ times_contradicted p'
     = (times_contradicted p + sum_of times_contradicted others)%Z
  /\ is_active p' = is_active p
  /\ user_id p' = user_id p
  /\ learning_type p' = learning_type p
  /\ key p' = key p.
Proof.
  revert p. induction others as [| o os IH]; intro p; cbn.
  - repeat split; lia.
  - destruct (IH (absorb o p)) as (H1 & H2 & H3 & H4 & H5 & H6 & H7).
    destruct (absorb_fields o p) as (A1 & A2 & A3 & A4 & A5 & A6 & A7).
    cbv zeta in *. rewrite H1, H2, H3, H4, H5, H6, H7.
    rewrite A1, A2, A3, A4, A5, A6, A7. repeat split; lia.
Qed.

Lemma sum_of_split (f : LearningData -> Z) (p : LearningData)
    (grp : list LearningData) :
  NoDup (map id grp) -> In p grp ->
  sum_of f grp
  = (f p + sum_of f (filter (fun l => negb (id l =? id p)%nat) grp))%Z.
Proof.
  induction grp as [| x g IH]; intros Hnd Hin; [contradiction |].
  cbn in Hnd. inversion Hnd as [| ? ? Hx Hg]; subst.
  cbn [sum_of filter]. destruct Hin as [-> | Hin].
  - rewrite Nat.eqb_refl. cbn [negb]. f_equal.
    f_equal. symmetry. apply filter_all.
    intros y Hy. apply negb_true_iff. apply Nat.eqb_neq. intro E.
    apply Hx. rewrite <- E. now apply in_map.
  - destruct (Nat.eqb_spec (id x) (id p)) as [E | N].
    + exfalso. apply Hx. rewrite E. now apply in_map.
    + cbn [negb sum_of]. rewrite (IH Hg Hin). lia.
Qed.

Lemma max_by_confidence_first (best : LearningData)
    (rest : list LearningData) :
  exists pre post,
    best :: rest = (pre ++ max_by_confidence best rest :: post)%list
    /\ (forall x, In x pre ->
                  (confidence x < confidence (max_by_confidence best rest))%Q)
    /\ (forall x, In x post ->
                  (confidence x <= confidence (max_by_confidence best rest))%Q).
Proof.
  revert best. induction rest as [| x t IH]; intro best.
  - exists [], []. repeat split; intros ? [].
  - cbn [max_by_confidence].
    destruct (Qltb (confidence best) (confidence x)) eqn:E.
    + apply Qltb_true in E.
      destruct (IH x) as (pre & post & Heq & Hpre & Hpost).
      exists (best :: pre), post. repeat split.
      * cbn. now rewrite Heq.
      * intros y [<- | Hy]; [| now apply Hpre].
        destruct pre as [| z pre'].
        -- cbn in Heq. injection Heq as Hx _. now rewrite <- Hx.
        -- cbn in Heq. injection Heq as Hx _. subst z.
           apply Qlt_trans with (confidence x); [assumption |].
           apply Hpre. now left.
      * assumption.
    + apply Qltb_false in E.
      destruct (IH best) as (pre & post & Heq & Hpre & Hpost).
      destruct pre as [| z pre'].
      * cbn in Heq. injection Heq as Hb Ht.
        exists [], (x :: post). repeat split.
        -- cbn. now rewrite <- Hb, <- Ht.
        -- intros ? [].
        -- intros y [<- | Hy]; [now rewrite <- Hb | now apply Hpost].
      * cbn in Heq. injection Heq as Hb Ht. subst z.
        exists (best :: x :: pre'), post. repeat split.
        -- cbn. do 2 f_equal. exact Ht.
        -- intros y [<- | [<- | Hy]].
           ++ apply Hpre. now left.
           ++ apply Qle_lt_trans with (confidence best); [assumption |].
              apply Hpre. now left.
           ++ apply Hpre. now right.
        -- assumption.
Qed.

Lemma merged_row_primary (first : LearningData) (rest : list LearningData) :
  NoDup (map id (first :: rest)) ->
  1 < List.length (first :: rest) ->
  let primary := max_by_confidence first rest in
  let p' := merged_row (first :: rest) primary in
  times_observed p' = sum_of times_observed (first :: rest)
  /\ times_reinforced p' = sum_of times_reinforced (first :: rest)
  /\ times_contradicted p' = sum_of times_contradicted (first :: rest)
  /\ is_active p' = is_active primary.
Proof.
  intros grp_ids grp_size primary.
  assert (Hin : In primary (first :: rest)) by apply max_by_confidence_in.
  unfold merged_row.
  rewrite (proj2 (Nat.ltb_lt _ _) grp_size). fold primary.
  rewrite Nat.eqb_refl. cbv zeta.
  set (others := filter (fun l => negb (id l =? id primary)) (first :: rest)).
  destruct (absorb_all_fields others primary) as (H1 & H2 & H3 & H4 & _).
  cbv zeta in *. unfold boost. cbn [times_observed times_reinforced
    times_contradicted is_active set_validation_score set_confidence].
  rewrite H1, H2, H3, H4.
  rewrite !(sum_of_split _ primary (first :: rest) grp_ids Hin). fold others.
  repeat split.
Qed.

Lemma merged_row_other (first : LearningData) (rest : list LearningData)
    (x : LearningData) :
  1 < List.length (first :: rest) ->
  id x <> id (max_by_confidence first rest) ->
  merged_row (first :: rest) x
  = mark_merged (id (max_by_confidence first rest)) x.
Proof.
  intros grp_size N. unfold merged_row.
  rewrite (proj2 (Nat.ltb_lt _ _) grp_size).
  now rewrite (proj2 (Nat.eqb_neq _ _) N).
Qed.

Lemma merged_row_single (grp : list LearningData) (x : LearningData) :
  List.length grp <= 1 -> merged_row grp x = x.
Proof.
  intro H. unfold merged_row. destruct grp as [| first rest]; [reflexivity |].
  now rewrite (proj2 (Nat.ltb_ge _ _) H).
Qed.

Lemma merged_row_identity (grp : list LearningData) (x : LearningData) :
  user_id (merged_row grp x) = user_id x
  /\ learning_type (merged_row grp x) = learning_type x
  /\ key (merged_row grp x) = key x.
Proof.
  unfold merged_row. destruct grp as [| first rest]; [repeat split |].
  destruct (1 <? _); [| repeat split].
  destruct (id x =? _); [| repeat split].
  set (others := filter _ _).
  destruct (absorb_all_fields others x) as (_ & _ & _ & _ & H5 & H6 & H7).
  cbv zeta in *. unfold boost.
  cbn [user_id learning_type key set_validation_score set_confidence].
  now rewrite H5, H6, H7.
Qed.

Lemma get_map (M : LearningData -> LearningData) (t : list LearningData)
    (x : LearningData) :
  NoDup (map id t) -> (forall y, id (M y) = id y) -> In x t ->
  get (id x) (map M t) = Some (M x).
Proof.
  intros Hnd HM Hx. rewrite <- (HM x). apply get_in.
  - rewrite map_map. erewrite map_ext; [exact Hnd | apply HM].
  - now apply in_map.
Qed.

(** ** Group keys and identities *)

Lemma colon_split (s1 s2 k1 k2 : string) :
  colon_free s1 = true -> colon_free s2 = true ->
  (s1 ++ ":" ++ k1)%string = (s2 ++ ":" ++ k2)%string ->
  s1 = s2 /\ k1 = k2.
Proof.
  revert s2. induction s1 as [| c1 t1 IH]; intros [| c2 t2] H1 H2 E; cbn in *.
  - injection E as ->. split; reflexivity.
  - injection E as <- _. cbn in H2. discriminate.
  - injection E as -> _. cbn in H1. discriminate.
  - injection E as -> E.
    apply andb_prop in H1. apply andb_prop in H2.
    destruct (IH t2 (proj2 H1) (proj2 H2) E) as [-> ->]. split; reflexivity.
Qed.

Lemma group_key_identity (ltype k : string) (y : LearningData) :
  colon_free ltype = true -> colon_free (learning_type y) = true ->
  String.eqb (group_key y) (ltype ++ ":" ++ k) = has_identity ltype k y.
Proof.
  intros H1 H2. unfold has_identity, group_key.
  destruct (String.eqb_spec (learning_type y ++ ":" ++ key y)
                            (ltype ++ ":" ++ k)) as [E | N].
  - destruct (colon_split _ _ _ _ H2 H1 E) as [-> ->].
    now rewrite !String.eqb_refl.
  - destruct (String.eqb_spec (learning_type y) ltype) as [E1 | ?];
      [| reflexivity].
    destruct (String.eqb_spec (key y) k) as [E2 | ?]; [| reflexivity].
    exfalso. apply N. now rewrite E1, E2.
Qed.

Lemma Permutation_filter {A : Type} (p : A -> bool) (l l' : list A) :
  Permutation l l' -> Permutation (filter p l) (filter p l').
Proof.
  induction 1 as [| x l l' H IH | x y l | l l' l'' H1 IH1 H2 IH2]; cbn.
  - constructor.
  - destruct (p x); [now constructor | assumption].
  - destruct (p x), (p y); try reflexivity. apply perm_swap.
  - now transitivity (filter p l').
Qed.

Lemma filter_filter {A : Type} (p q : A -> bool) (l : list A) :
  filter q (filter p l) = filter (fun x => p x && q x) l.
Proof.
  induction l as [| x l IH]; cbn; [reflexivity |].
  destruct (p x); cbn; [destruct (q x) |]; now rewrite IH.
Qed.

Lemma sum_of_perm (f : LearningData -> Z) (l l' : list LearningData) :
  Permutation l l' -> sum_of f l = sum_of f l'.
Proof.
  induction 1 as [| x l l' H IH | x y l | l l' l'' H1 IH1 H2 IH2]; cbn;
    solve [lia | congruence].
Qed.

Section MergeOfOneUser.
Variable user : string.
Variable db : Database.
Hypothesis db_ids : unique_ids db.

Lemma rows_in (x : LearningData) :
  In x (queried_rows user db)
  <-> In x (learning_data db) /\ active_of user x = true.
Proof.
  unfold queried_rows. rewrite (query_fresh _ _ _ db_ids).
  apply merge_rows.
Qed.

Lemma rows_ids : NoDup (map id (queried_rows user db)).
Proof.
  unfold queried_rows. rewrite (query_fresh _ _ _ db_ids).
  apply order_by_ids. now apply NoDup_ids_filter.
Qed.

Lemma fact_after_merge (x : LearningData) :
  In x (learning_data db) ->
  fact (id x) (merge_pass user db)
  = Some (if active_of user x
          then merged_row (group_of x (queried_rows user db)) x else x).
Proof.
  intro Hx. unfold fact. rewrite (merge_pass_rows user db db_ids).
  apply (get_map
           (fun x => if active_of user x
                     then merged_row (group_of x (queried_rows user db)) x
                     else x));
    [exact db_ids | | assumption].
  intro y. destruct (active_of user y); [apply merged_row_id | reflexivity].
Qed.

(** The outcome of the pass for one dictionary key [gk] with more than
    one row. *)
Lemma merge_of_group (gk : string) :
  1 < List.length (rows_with_key gk (queried_rows user db)) ->
  exists pre primary post,
    rows_with_key gk (queried_rows user db) = (pre ++ primary :: post)%list
    /\ (forall x, In x pre -> (confidence x < confidence primary)%Q)
    /\ (forall x, In x post -> (confidence x <= confidence primary)%Q)
    /\ (exists p',
           fact (id primary) (merge_pass user db) = Some p'
           /\ is_active p' = true
           /\ times_observed p'
              = sum_of times_observed
                  (rows_with_key gk (queried_rows user db))
           /\ times_reinforced p'
              = sum_of times_reinforced
                  (rows_with_key gk (queried_rows user db))
           /\ times_contradicted p'
              = sum_of times_contradicted
                  (rows_with_key gk (queried_rows user db)))
    /\ (forall x, In x (pre ++ post) ->
          exists x',
            fact (id x) (merge_pass user db) = Some x'
            /\ is_active x' = false
            /\ superseded_by x' = Some (id primary)).
Proof.
  intro Hlen.
  assert (Hg_ids : NoDup (map id (rows_with_key gk (queried_rows user db))))
    by (apply NoDup_ids_filter, rows_ids).
  assert (Hg_in : forall x, In x (rows_with_key gk (queried_rows user db)) ->
            In x (learning_data db) /\ active_of user x = true
            /\ group_of x (queried_rows user db)
               = rows_with_key gk (queried_rows user db)).
  { intros x Hx. apply filter_In in Hx. destruct Hx as [Hx Ek].
    apply rows_in in Hx. apply String.eqb_eq in Ek.
    unfold group_of. rewrite Ek. tauto. }
  destruct (rows_with_key gk (queried_rows user db)) as [| first rest] eqn:Eg;
    [cbn in Hlen; lia |].
  destruct (max_by_confidence_first first rest)
    as (pre & post & Heq & Hpre & Hpost).
  set (primary := max_by_confidence first rest) in *.
  exists pre, primary, post.
  assert (Hp : In primary (first :: rest)) by apply max_by_confidence_in.
  destruct (Hg_in primary Hp) as (Hpdb & Hpact & Hpg).
  split; [assumption |]. split; [assumption |]. split; [assumption |].
  split.
  - exists (merged_row (first :: rest) primary).
    rewrite (fact_after_merge primary Hpdb), Hpact, Hpg.
    destruct (merged_row_primary first rest Hg_ids Hlen)
      as (H1 & H2 & H3 & H4).
    fold primary in H1, H2, H3, H4. cbv zeta in *.
    rewrite H1, H2, H3, H4. repeat split.
    unfold active_of in Hpact. apply andb_prop in Hpact. tauto.
  - intros x Hx.
    assert (Hxg : In x (first :: rest)).
    { rewrite Heq. apply in_app_or in Hx. apply in_or_app.
      destruct Hx; [now left | right; now right]. }
    assert (Nx : id x <> id primary).
    { rewrite Heq in Hg_ids. rewrite map_app in Hg_ids. cbn in Hg_ids.
      apply NoDup_remove_2 in Hg_ids. intro E. apply Hg_ids.
      rewrite <- E, <- map_app. now apply in_map. }
    destruct (Hg_in x Hxg) as (Hxdb & Hxact & Hxgr).
    exists (mark_merged (id primary) x).
    rewrite (fact_after_merge x Hxdb), Hxact, Hxgr.
    rewrite (merged_row_other first rest x Hlen Nx). repeat split.
Qed.

Hypothesis db_types :
  forall x, In x (learning_data db) -> colon_free (learning_type x) = true.

Lemma identity_rows (ltype k : string) :
  filter (has_identity ltype k) (queried_rows user db) <> [] ->
  rows_with_key (ltype ++ ":" ++ k) (queried_rows user db)
  = filter (has_identity ltype k) (queried_rows user db).
Proof.
  intro Hne. unfold rows_with_key.
  destruct (filter (has_identity ltype k) (queried_rows user db))
    as [| z zs] eqn:E;
    [congruence |]. rewrite <- E. clear Hne.
  assert (Hz : In z (filter (has_identity ltype k) (queried_rows user db)))
    by (rewrite E; now left).
  apply filter_In in Hz. destruct Hz as [Hz Hid].
  apply rows_in in Hz. destruct Hz as [Hz _].
  unfold has_identity in Hid. apply andb_prop in Hid.
  destruct Hid as [Ht _]. apply String.eqb_eq in Ht.
  assert (Hcf : colon_free ltype = true) by (rewrite <- Ht; now apply db_types).
  apply filter_ext_in. intros y Hy. apply rows_in in Hy.
  apply group_key_identity; [assumption |]. apply db_types. tauto.
Qed.

Lemma identity_group_perm (ltype k : string) :
  Permutation (filter (has_identity ltype k) (queried_rows user db))
              (identity_group user ltype k db).
Proof.
  unfold identity_group. rewrite <- filter_filter.
  apply Permutation_filter. unfold queried_rows.
  rewrite (query_fresh _ _ _ db_ids). apply order_by_perm.
Qed.
End MergeOfOneUser.

(** ** The merge pass: the claims *)

Lemma two_cities_ids : unique_ids two_cities.
Proof.
  unfold unique_ids. cbn. repeat constructor; cbn; intuition discriminate.
Qed.

Lemma two_cities_types (x : LearningData) :
  In x (learning_data two_cities) -> colon_free (learning_type x) = true.
Proof. intros [<- | [<- | []]]; reflexivity. Qed.

(** C3: after the merge pass, the survivor of a group of two or more active
    records of one user sharing [(learning_type, key)] carries the sums of
    the three evidence counters over the group, and every other record of
    the group is inactive and superseded by the survivor.  Identifiers are
    unique (primary key) and learning types hold no [:], the separator of
    the grouping key. *)
Theorem merge_conserves_evidence (user : string) (db : Database)
    (ltype k : string) :
  unique_ids db ->
  (forall x, In x (learning_data db) -> colon_free (learning_type x) = true) ->
  2 <= List.length (identity_group user ltype k db) ->
  exists survivor survivor',
    In survivor (identity_group user ltype k db)
    /\ fact (id survivor) (merge_pass user db) = Some survivor'
    /\ is_active survivor' = true
    /\ times_observed survivor'
       = sum_of times_observed (identity_group user ltype k db)
    /\ times_reinforced survivor'
       = sum_of times_reinforced (identity_group user ltype k db)
    /\ times_contradicted survivor'
       = sum_of times_contradicted (identity_group user ltype k db)
    /\ (forall x, In x (identity_group user ltype k db) ->
          id x <> id survivor ->
          exists x',
            fact (id x) (merge_pass user db) = Some x'
            /\ is_active x' = false
            /\ superseded_by x' = Some (id survivor)).
Proof.
  intros Hids Htypes Hlen.
  pose proof (identity_group_perm user db Hids ltype k) as Hperm.
  assert (Hne : filter (has_identity ltype k) (queried_rows user db) <> []).
  { intro E. rewrite E in Hperm. apply Permutation_length in Hperm.
    cbn in Hperm. lia. }
  pose proof (identity_rows user db Hids Htypes ltype k Hne) as Hrows.
  destruct (merge_of_group user db Hids (ltype ++ ":" ++ k))
    as (pre & primary & post & Heq & _ & _ & (p' & Hp' & Hact & H1 & H2 & H3)
        & Hothers).
  { rewrite Hrows, (Permutation_length Hperm). lia. }
  rewrite Hrows in *.
  exists primary, p'. repeat split; try assumption.
  - apply (Permutation_in _ Hperm). rewrite Heq. apply in_or_app.
    right. now left.
  - now rewrite H1, (sum_of_perm _ _ _ Hperm).
  - now rewrite H2, (sum_of_perm _ _ _ Hperm).
  - now rewrite H3, (sum_of_perm _ _ _ Hperm).
  - intros x Hx Nx. apply Hothers.
    apply (Permutation_in _ (Permutation_sym Hperm)) in Hx.
    rewrite Heq in Hx. apply in_app_or in Hx. apply in_or_app.
    destruct Hx as [Hx | [E | Hx]]; [now left | | now right].
    now subst x.
Qed.

Lemma merge_conserves_evidence_witness :
  exists survivor survivor',
    In survivor (identity_group "u" "personal_fact" "city" two_cities)
    /\ fact (id survivor) (merge_pass "u" two_cities) = Some survivor'
    /\ is_active survivor' = true
    /\ times_observed survivor'
       = sum_of times_observed
           (identity_group "u" "personal_fact" "city" two_cities)
    /\ times_reinforced survivor'
       = sum_of times_reinforced
           (identity_group "u" "personal_fact" "city" two_cities)
    /\ times_contradicted survivor'
       = sum_of times_contradicted
           (identity_group "u" "personal_fact" "city" two_cities)
    /\ (forall x,
          In x (identity_group "u" "personal_fact" "city" two_cities) ->
          id x <> id survivor ->
          exists x',
            fact (id x) (merge_pass "u" two_cities) = Some x'
            /\ is_active x' = false
            /\ superseded_by x' = Some (id survivor)).
Proof.
  apply merge_conserves_evidence.
  - exact two_cities_ids.
  - exact two_cities_types.
  - cbn. lia.
Defined.

(** C9, as the code has it: in a group of more than one record the
    survivor has the highest confidence, and among the records that tie on
    it the survivor is the first in the order of the query ([ORDER BY
    learning_type, key]); [created_at] plays no part. *)
Theorem survivor_is_first_of_highest_confidence (user : string)
    (db : Database) (ltype k : string) :
  unique_ids db ->
  (forall x, In x (learning_data db) -> colon_free (learning_type x) = true) ->
  1 < List.length (filter (has_identity ltype k) (queried_rows user db)) ->
  exists pre primary post,
    filter (has_identity ltype k) (queried_rows user db)
    = (pre ++ primary :: post)%list
    /\ (forall x, In x pre -> (confidence x < confidence primary)%Q)
    /\ (forall x, In x post -> (confidence x <= confidence primary)%Q)
    /\ (exists p', fact (id primary) (merge_pass user db) = Some p'
                   /\ is_active p' = true)
    /\ (forall x, In x (pre ++ post) ->
          exists x',
            fact (id x) (merge_pass user db) = Some x'
            /\ is_active x' = false
            /\ superseded_by x' = Some (id primary)).
Proof.
  intros Hids Htypes Hlen.
  assert (Hne : filter (has_identity ltype k) (queried_rows user db) <> []).
  { intro E. rewrite E in Hlen. cbn in Hlen. lia. }
  pose proof (identity_rows user db Hids Htypes ltype k Hne) as Hrows.
  destruct (merge_of_group user db Hids (ltype ++ ":" ++ k))
    as (pre & primary & post & Heq & Hpre & Hpost
        & (p' & Hp' & Hact & _) & Hothers).
  { now rewrite Hrows. }
  rewrite Hrows in *.
  exists pre, primary, post. repeat split; try assumption.
  exists p'. now split.
Qed.

Lemma survivor_is_first_of_highest_confidence_witness :
  exists pre primary post,
    filter (has_identity "personal_fact" "city") (queried_rows "u" two_cities)
    = (pre ++ primary :: post)%list
    /\ (forall x, In x pre -> (confidence x < confidence primary)%Q)
    /\ (forall x, In x post -> (confidence x <= confidence primary)%Q)
    /\ (exists p', fact (id primary) (merge_pass "u" two_cities) = Some p'
                   /\ is_active p' = true)
    /\ (forall x, In x (pre ++ post) ->
          exists x',
            fact (id x) (merge_pass "u" two_cities) = Some x'
            /\ is_active x' = false
            /\ superseded_by x' = Some (id primary)).
Proof.
  apply survivor_is_first_of_highest_confidence.
  - exact two_cities_ids.
  - exact two_cities_types.
  - cbn. lia.
Defined.

(** C9 as stated fails: two records tie on the highest confidence, and the
    one created first is the one the pass supersedes. *)
Lemma tie_not_broken_by_created_at :
  let db := mkDatabase [tied_later; tied_earlier] [] [] [] in
  (confidence tied_earlier == confidence tied_later)%Q
  /\ (created_at tied_earlier < created_at tied_later)%Z
  /\ option_map is_active (fact (id tied_earlier) (merge_pass "u" db))
     = Some false
  /\ option_map superseded_by (fact (id tied_earlier) (merge_pass "u" db))
     = Some (Some (id tied_later))
  /\ option_map is_active (fact (id tied_later) (merge_pass "u" db))
     = Some true.
Proof. cbv zeta. repeat split. Qed.

(** ** Idempotence of the merge pass *)

Lemma merge_pass_eta (user : string) (db : Database) :
  merge_pass user db
  = mkDatabase (learning_data (merge_pass user db)) (conversation_summaries db)
      (user_profiles db) (conversations db).
Proof. reflexivity. Qed.

Lemma merge_pass_unique_ids (user : string) (db : Database) :
  unique_ids db -> unique_ids (merge_pass user db).
Proof.
  intro H. unfold unique_ids. rewrite (merge_pass_rows user db H), map_map.
  erewrite map_ext; [exact H |].
  intro x. cbv beta. destruct (active_of user x); [apply merged_row_id | reflexivity].
Qed.

Lemma short_list_one_row (g : list LearningData) (y z : LearningData) :
  List.length g <= 1 -> In y g -> In z g -> y = z.
Proof.
  destruct g as [| a [| b g]]; cbn; intros H Hy Hz;
    [contradiction | | lia].
  destruct Hy as [<- | []], Hz as [<- | []]. reflexivity.
Qed.

Lemma one_id_short_list (g : list LearningData) :
  NoDup (map id g) ->
  (forall y z, In y g -> In z g -> id y = id z) ->
  List.length g <= 1.
Proof.
  destruct g as [| a [| b g]]; cbn; intros Hnd H; [lia | lia |].
  exfalso. inversion Hnd as [| ? ? Ha _]; subst. apply Ha. left.
  symmetry. apply H; [now left | right; now left].
Qed.

Lemma mark_merged_inactive (user : string) (i : nat) (x : LearningData) :
  active_of user (mark_merged i x) = false.
Proof. unfold active_of. cbn. apply andb_false_r. Qed.

Section AfterMerge.
Variable user : string.
Variable db : Database.
Hypothesis db_ids : unique_ids db.

(** A row that is active after the pass was active before it, and is
    alone in its group or the one the pass kept. *)
Lemma active_after_merge (x0 : LearningData) :
  In x0 (learning_data db) ->
  active_of user
    (if active_of user x0
     then merged_row (group_of x0 (queried_rows user db)) x0 else x0) = true ->
  In x0 (group_of x0 (queried_rows user db))
  /\ (List.length (group_of x0 (queried_rows user db)) <= 1
      \/ exists first rest,
           group_of x0 (queried_rows user db) = first :: rest
           /\ id x0 = id (max_by_confidence first rest)).
Proof.
  intros Hx0 Hact. destruct (active_of user x0) eqn:E; [| congruence].
  assert (Hin : In x0 (group_of x0 (queried_rows user db))).
  { apply filter_In. split; [| apply String.eqb_refl].
    apply (rows_in user db db_ids). tauto. }
  split; [assumption |].
  destruct (group_of x0 (queried_rows user db)) as [| first rest] eqn:Eg;
    [contradiction |].
  destruct (Nat.leb_spec (List.length (first :: rest)) 1) as [Hle | Hgt];
    [now left | right].
  exists first, rest. split; [reflexivity |].
  destruct (Nat.eq_dec (id x0) (id (max_by_confidence first rest)))
    as [? | N]; [assumption |].
  rewrite (merged_row_other first rest x0 Hgt N) in Hact.
  now rewrite mark_merged_inactive in Hact.
Qed.

Lemma survivors_are_alone (y z : LearningData) :
  In y (learning_data (merge_pass user db)) ->
  In z (learning_data (merge_pass user db)) ->
  active_of user y = true -> active_of user z = true ->
  group_key y = group_key z -> id y = id z.
Proof.
  rewrite (merge_pass_rows user db db_ids). fold (queried_rows user db).
  intros Hy Hz Ay Az Ek.
  apply in_map_iff in Hy. destruct Hy as (y0 & <- & Hy0).
  apply in_map_iff in Hz. destruct Hz as (z0 & <- & Hz0).
  destruct (active_after_merge y0 Hy0 Ay) as [Hyin Hy].
  destruct (active_after_merge z0 Hz0 Az) as [Hzin Hz].
  assert (Ey : active_of user y0 = true).
  { destruct (active_of user y0) eqn:E; [reflexivity | congruence]. }
  assert (Ez : active_of user z0 = true).
  { destruct (active_of user z0) eqn:E; [reflexivity | congruence]. }
  rewrite Ey, Ez in *. rewrite !merged_row_id.
  assert (Ek0 : group_key y0 = group_key z0).
  { unfold group_key in *.
    destruct (merged_row_identity (group_of y0 (queried_rows user db)) y0)
      as (_ & T1 & K1).
    destruct (merged_row_identity (group_of z0 (queried_rows user db)) z0)
      as (_ & T2 & K2).
    now rewrite T1, K1, T2, K2 in Ek. }
  assert (Eg : group_of z0 (queried_rows user db)
               = group_of y0 (queried_rows user db)).
  { unfold group_of. now rewrite Ek0. }
  rewrite Eg in *.
  destruct (Nat.leb_spec (List.length (group_of y0 (queried_rows user db))) 1)
    as [Hle | Hgt].
  - f_equal. now apply (short_list_one_row _ _ _ Hle).
  - destruct Hy as [Hy | (f1 & r1 & E1 & I1)]; [lia |].
    destruct Hz as [Hz | (f2 & r2 & E2 & I2)]; [lia |].
    rewrite E1 in E2. injection E2 as <- <-. congruence.
Qed.
End AfterMerge.

(** C4: the merge pass is idempotent on every store (with unique primary
    keys): a second run changes nothing. *)
Theorem merge_pass_idempotent (user : string) (db : Database) :
  unique_ids db ->
  merge_pass user (merge_pass user db) = merge_pass user db.
Proof.
  intro Hids.
  pose proof (merge_pass_unique_ids user db Hids) as Hids1.
  rewrite (merge_pass_eta user (merge_pass user db)).
  rewrite (merge_pass_eta user db) at 5.
  f_equal.
  rewrite (merge_pass_rows user (merge_pass user db) Hids1).
  fold (queried_rows user (merge_pass user db)).
  rewrite <- (map_id (learning_data (merge_pass user db))) at 2.
  apply map_ext_in. intros x Hx.
  destruct (active_of user x) eqn:E; [| reflexivity].
  apply merged_row_single. apply one_id_short_list.
  - apply NoDup_ids_filter. now apply rows_ids.
  - intros y z Hy Hz. apply filter_In in Hy, Hz.
    destruct Hy as [Hy Ky], Hz as [Hz Kz].
    apply (rows_in user _ Hids1) in Hy, Hz.
    apply String.eqb_eq in Ky, Kz.
    apply (survivors_are_alone user db Hids); try tauto. congruence.
Qed.

Lemma merge_pass_idempotent_witness :
  merge_pass "u" (merge_pass "u" two_cities) = merge_pass "u" two_cities.
Proof. apply merge_pass_idempotent. exact two_cities_ids. Defined.

(** ** Retrieval *)

Lemma StronglySorted_any {A : Type} (l : list A) :
  StronglySorted (fun _ _ => True) l.
Proof.
  induction l as [| x l IH]; constructor; [assumption |].
  apply Forall_forall. intros; exact I.
Qed.

Lemma Qeq_bool_true (a b : Q) : Qeq_bool a b = true <-> (a == b)%Q.
Proof. apply Qeq_bool_iff. Qed.








Lemma slice_to_prefix {A : Type} (n : Z) (l : list A) :
  exists k, slice_to n l = firstn k l.
Proof. unfold slice_to. destruct (n <? 0)%Z; eexists; reflexivity. Qed.






(** ** Consolidation *)

Lemma create_recent_summary_stored (now : Z) (user : string) (s : Session) :
  stored (_create_recent_summary now user s) = stored s
  /\ learning_data (work (_create_recent_summary now user s))
     = learning_data (work s).
Proof.
  unfold _create_recent_summary.
  destruct (_ <? 10); [split; reflexivity |].
  destruct (find _ _); [split; reflexivity |].
  destruct (order_by _ _); split; reflexivity.
Qed.

Lemma find_in {A : Type} (p : A -> bool) (l : list A) (x : A) :
  In x l -> p x = true -> exists y, find p l = Some y.
Proof.
  intros Hin Hp. destruct (find p l) as [y |] eqn:E; [now exists y |].
  rewrite (find_none p l E x Hin) in Hp. discriminate.
Qed.

(** C2: for a user who has a [UserProfile] row, [consolidate_memory]
    reaches the call of [calculate_profile_completeness], which the class
    does not define; the [AttributeError] is caught, the session is rolled
    back, and the store is left as it was: no summary, merge or archival
    change is committed. *)
Theorem consolidation_rolls_back (now : Z) (db : Database) (user : string) :
  (exists p, In p (user_profiles db) /\ UserProfile.user_id p = user) ->
  consolidate_memory now db user = (db, RolledBack AttributeError).
Proof.
  intros (p & Hin & Hp). unfold consolidate_memory.
  set (s := _archive_old_learnings now user
              (_merge_similar_learnings user
                 (_create_recent_summary now user (begin db)))).
  assert (Hs : stored s = db).
  { unfold s, _archive_old_learnings, _merge_similar_learnings, with_learning.
    cbn [stored].
    now rewrite (proj1 (create_recent_summary_stored now user (begin db))). }
  rewrite Hs. unfold first_profile.
  destruct (find_in (fun q => String.eqb (UserProfile.user_id q) user)
              (user_profiles db) p Hin) as (q & ->).
  { rewrite Hp. apply String.eqb_refl. }
  assert (Hattr : UserProfile.getattr "calculate_profile_completeness" = None)
    by reflexivity.
  rewrite Hattr. unfold rollback. now rewrite Hs.
Qed.

Lemma consolidation_rolls_back_witness :
  consolidate_memory 500 two_cities_with_profile "u"
  = (two_cities_with_profile, RolledBack AttributeError).
Proof.
  apply consolidation_rolls_back. exists profile_of_u.
  split; [now left | reflexivity].
Defined.

(** Without a profile row the same run commits what the passes did. *)
Lemma consolidation_commits_without_profile (now : Z) (db : Database)
    (user : string) :
  first_profile user db = None ->
  consolidate_memory now db user
  = (commit (_archive_old_learnings now user
               (_merge_similar_learnings user
                  (_create_recent_summary now user (begin db)))),
     Committed).
Proof.
  intro H. unfold consolidate_memory.
  set (s := _archive_old_learnings now user _).
  assert (Hs : stored s = db).
  { unfold s, _archive_old_learnings, _merge_similar_learnings, with_learning.
    cbn [stored].
    now rewrite (proj1 (create_recent_summary_stored now user (begin db))). }
  now rewrite Hs, H.
Qed.

Lemma consolidation_merges_without_profile :
  map (fun d => (id d, is_active d, times_observed d))
      (learning_data (fst (consolidate_memory 500 two_cities "u")))
  = [(1, false, 1%Z); (2, true, 3%Z)].
Proof. reflexivity. Qed.

(** ** No pass deletes a fact; the reset does *)










(** ** The learning-update cycle *)

Lemma fold_new_rows {A : Type} (now : Z) (user : string) (ty k v : A -> string)
    (conf : Q) (cid : nat) (ctx : string) (ts : Z) (l : list A)
    (t : list LearningData) :
  exists added,
    fold_left (fun t a => new_learning_data now user (ty a) (k a) (v a) conf
                            cid ctx ts t) l t
    = (t ++ added)%list
    /\ map fact_summary added = map (fun a => (ty a, k a, v a, conf)) l
    /\ Forall (newly_created user) added.
Proof.
  revert t. induction l as [| a l IH]; intro t; cbn [fold_left].
  - exists []. rewrite app_nil_r. repeat split. constructor.
  - destruct (IH (new_learning_data now user (ty a) (k a) (v a) conf cid ctx
                    ts t)) as (added & E & Hsum & Hnew).
    exists (mkLearningData (fresh_id (map id t)) user (ty a) (k a) (v a) conf
              (Some cid) (Some ctx) 1 0 0 now now ts now true None 0 :: added).
    split; [rewrite E; unfold new_learning_data; now rewrite <- app_assoc |].
    split.
    + cbn. now rewrite Hsum.
    + constructor; [| assumption]. repeat split.
Qed.

Lemma store_learning_data_appends (now : Z) (user : string)
    (analysis : Analysis) (cid : nat) (s : Session) :
  exists added,
    learning_data (work (_store_learning_data now user analysis cid s))
    = (learning_data (work s) ++ added)%list
    /\ map fact_summary added = created_facts analysis
    /\ Forall (newly_created user) added.
Proof.
  unfold _store_learning_data, with_learning. cbn [work learning_data].
  set (t0 := learning_data (work s)).
  destruct (fold_new_rows now user (fun _ => "personal_fact") fst snd (8 # 10)
              cid "Learned from conversation analysis" now
              (or_empty (a_personal_facts analysis)) t0)
    as (add1 & E1 & S1 & N1).
  destruct (fold_new_rows now user (fun _ => "communication_preference") fst
              snd (7 # 10) cid "Inferred communication preference" now
              (or_empty (a_communication_preferences analysis))
              (t0 ++ add1)%list)
    as (add2 & E2 & S2 & N2).
  destruct (fold_new_rows now user (fun _ => "topic_interest")
              (fun _ => "topic") (fun topic : string => topic) (6 # 10) cid
              "Topic mentioned in conversation" now
              (or_empty (a_topics_of_interest analysis))
              ((t0 ++ add1) ++ add2)%list)
    as (add3 & E3 & S3 & N3).
  exists (add1 ++ add2 ++ add3)%list.
  split; [| split].
  - cbv beta in E1, E2, E3.
    replace (match a_personal_facts analysis with
             | Some facts => fold_left _ facts t0
             | None => t0
             end) with (t0 ++ add1)%list
      by (rewrite <- E1; now destruct (a_personal_facts analysis)).
    replace (match a_communication_preferences analysis with
             | Some prefs => fold_left _ prefs (t0 ++ add1)%list
             | None => (t0 ++ add1)%list
             end) with ((t0 ++ add1) ++ add2)%list
      by (rewrite <- E2; now destruct (a_communication_preferences analysis)).
    replace (match a_topics_of_interest analysis with
             | Some topics => fold_left _ topics ((t0 ++ add1) ++ add2)%list
             | None => ((t0 ++ add1) ++ add2)%list
             end) with (((t0 ++ add1) ++ add2) ++ add3)%list
      by (rewrite <- E3; now destruct (a_topics_of_interest analysis)).
    now rewrite <- !app_assoc.
  - unfold created_facts. now rewrite !map_app, S1, S2, S3.
  - apply Forall_app. split; [assumption |].
    apply Forall_app. now split.
Qed.





(** * Further properties of the engine *)

(** ** The reinforcement engine, continued *)

Lemma validation_score_bounds (d : LearningData) :
  (0 <= times_observed d)%Z -> (0 <= times_reinforced d)%Z ->
  (0 <= times_contradicted d)%Z ->
  (0 <= _calculate_validation_score d <= 1)%Q.
Proof.
  intros Ho Hr Hc. unfold _calculate_validation_score. cbv zeta.
  destruct (Z.eqb_spec (times_reinforced d + times_contradicted d) 0)
    as [E | N]; [split; lra |].
  assert (Hratio : (0 <= inject_Z (times_reinforced d)
                        / inject_Z (times_reinforced d + times_contradicted d)
                    <= 1)%Q)
    by (apply ratio_bounds; lia).
  assert (Hobs : (0 <= inject_Z (times_observed d) / 10)%Q).
  { apply Qle_shift_div_l; [lra |]. rewrite Qmult_0_l.
    now apply inject_Z_nonneg. }
  set (r := (inject_Z (times_reinforced d)
             / inject_Z (times_reinforced d + times_contradicted d))%Q) in *.
  set (o := (inject_Z (times_observed d) / 10)%Q) in *.
  split_min_max; lra.
Qed.

(** X1: after [reinforce] or [contradict] on a record whose counters are
    not negative, the stored validation score is the score of the new
    counters and lies in [0, 1]. *)
Theorem validation_score_stays_in_range (now : Z) (d : LearningData)
    (observed : option Q) :
  (0 <= times_observed d)%Z -> (0 <= times_reinforced d)%Z ->
  (0 <= times_contradicted d)%Z ->
  let r := reinforce now observed d in
  let c := contradict now d in
  validation_score r = _calculate_validation_score r
  /\ validation_score c = _calculate_validation_score c
  /\ (0 <= validation_score r <= 1)%Q
  /\ (0 <= validation_score c <= 1)%Q.
Proof.
  intros Ho Hr Hc r c.
  assert (Er : validation_score r = _calculate_validation_score r)
    by (unfold r; destruct observed; reflexivity).
  assert (Ec : validation_score c = _calculate_validation_score c).
  { unfold c, contradict. cbv zeta.
    destruct (_ >? _)%Z; reflexivity. }
  split; [assumption |]. split; [assumption |].
  rewrite Er, Ec. split; apply validation_score_bounds.
  - unfold r. destruct observed; cbn; lia.
  - unfold r. destruct observed; cbn; lia.
  - unfold r. destruct observed; cbn; lia.
  - unfold c, contradict. cbv zeta. destruct (_ >? _)%Z; cbn; lia.
  - unfold c, contradict. cbv zeta. destruct (_ >? _)%Z; cbn; lia.
  - unfold c, contradict. cbv zeta. destruct (_ >? _)%Z; cbn; lia.
Qed.

Lemma validation_score_stays_in_range_witness :
  let r := reinforce 5 None city_a in
  let c := contradict 5 city_a in
  validation_score r = _calculate_validation_score r
  /\ validation_score c = _calculate_validation_score c
  /\ (0 <= validation_score r <= 1)%Q
  /\ (0 <= validation_score c <= 1)%Q.
Proof.
  apply (validation_score_stays_in_range 5 city_a None); cbn; lia.
Defined.

Lemma evidence_step (d : LearningData) (e : Evidence) :
  let d' := apply_evidence d e in
  times_observed d' = (times_observed d + 1)%Z
  /\ (times_reinforced d' + times_contradicted d'
      = times_reinforced d + times_contradicted d + 1)%Z
  /\ (times_reinforced d <= times_reinforced d')%Z
  /\ (times_contradicted d <= times_contradicted d')%Z.
Proof.
  destruct e as [now nc | now]; cbn [apply_evidence].
  - destruct nc; cbn; lia.
  - unfold contradict. cbv zeta. destruct (_ >? _)%Z; cbn; lia.
Qed.

(** X2: through any run of [reinforce] and [contradict] calls every call
    counts as one observation and as one reinforcement or contradiction:
    [times_observed] grows by the number of calls, and so does
    [times_reinforced + times_contradicted]; no counter decreases. *)
Theorem evidence_is_counted_once (d : LearningData) (es : list Evidence) :
  let d' := apply_all d es in
  times_observed d' = (times_observed d + Z.of_nat (List.length es))%Z
  /\ (times_reinforced d' + times_contradicted d'
      = times_reinforced d + times_contradicted d
        + Z.of_nat (List.length es))%Z
  /\ (times_reinforced d <= times_reinforced d')%Z
  /\ (times_contradicted d <= times_contradicted d')%Z.
Proof.
  revert d. induction es as [| e es IH]; intro d.
  - cbn. lia.
  - cbn [apply_all fold_left List.length]. fold (apply_all (apply_evidence d e) es).
    destruct (IH (apply_evidence d e)) as (H1 & H2 & H3 & H4).
    destruct (evidence_step d e) as (S1 & S2 & S3 & S4).
    cbv zeta in *. rewrite H1, H2, S1, S2. lia.
Qed.

(** X3: [contradict] lowers a confidence of at least 0.3 by exactly 0.2,
    puts a confidence between 0.1 and 0.3 at the floor 0.1, and raises a
    confidence below 0.1 to 0.1. *)
Theorem contradict_confidence_step (now : Z) (d : LearningData) :
  let c := confidence d in
  let c' := confidence (contradict now d) in
  ((3 # 10) <= c -> c' == c - (2 # 10))%Q
  /\ ((1 # 10) <= c <= (3 # 10) -> c' == 1 # 10 /\ c' <= c)%Q
  /\ (c < (1 # 10) -> c' == 1 # 10 /\ c < c')%Q.
Proof.
  cbv zeta. rewrite contradict_confidence.
  repeat split; intros; split_min_max; lra.
Qed.

(** X4: [reinforce] with an observed confidence moves the confidence
    toward the observation and at most half of the way; without one it
    never lowers a confidence of [0, 1]. *)
Theorem reinforce_moves_toward_observation (now : Z) (d : LearningData)
    (nc : Q) :
  (0 <= times_reinforced d)%Z ->
  let c := confidence d in
  let c' := confidence (reinforce now (Some nc) d) in
  (c <= nc -> c <= c' /\ c' <= (c + nc) / 2)%Q
  /\ (nc <= c -> (c + nc) / 2 <= c' /\ c' <= c)%Q
  /\ (0 <= c <= 1 -> c <= confidence (reinforce now None d) <= 1)%Q.
Proof.
  intro Hcount. cbv zeta.
  rewrite reinforce_confidence_blend, reinforce_confidence_plain. cbv zeta.
  assert (Hw : (0 <= inject_Z (times_reinforced d + 1) / 10)%Q).
  { apply Qle_shift_div_l; [lra |]. rewrite Qmult_0_l.
    apply inject_Z_nonneg. lia. }
  set (q := (inject_Z (times_reinforced d + 1) / 10)%Q) in *.
  set (c := confidence d).
  assert (Hweight : (0 <= py_min q (5 # 10) <= 5 # 10)%Q)
    by (split_min_max; lra).
  set (w := py_min q (5 # 10)) in *.
  split; [| split].
  - intro H. split.
    + nra.
    + apply Qle_shift_div_l; [lra |]. nra.
  - intro H. split.
    + apply Qle_shift_div_r; [lra |]. nra.
    + nra.
  - intros [H0 H1]. split_min_max; lra.
Qed.

Lemma reinforce_moves_toward_observation_witness :
  let c := confidence city_a in
  let c' := confidence (reinforce 5 (Some 1%Q) city_a) in
  (c <= 1 -> c <= c' /\ c' <= (c + 1) / 2)%Q
  /\ (1 <= c -> (c + 1) / 2 <= c' /\ c' <= c)%Q
  /\ (0 <= c <= 1 -> c <= confidence (reinforce 5 None city_a) <= 1)%Q.
Proof.
  apply (reinforce_moves_toward_observation 5 city_a 1%Q). cbn. lia.
Defined.

(** ** Invariants of the stored facts *)

Section RowInvariant.
Variable P : LearningData -> Prop.

Lemma update_keeps (i : nat) (f : LearningData -> LearningData)
    (t : list LearningData) :
  (forall x, P x -> P (f x)) -> Forall P t -> Forall P (update i f t).
Proof.
  intros Hf Ht. unfold update. apply Forall_map.
  eapply Forall_impl; [| exact Ht]. intros x Hx. cbv beta.
  destruct (id x =? i); auto.
Qed.

Lemma fold_keeps {A : Type}
    (step : list LearningData -> A -> list LearningData) (l : list A)
    (t : list LearningData) :
  (forall t a, Forall P t -> Forall P (step t a)) ->
  Forall P t -> Forall P (fold_left step l t).
Proof.
  intro H. revert t. induction l as [| a l IH]; intros t Ht; cbn; auto.
Qed.

Hypothesis absorb_keeps : forall o p, P o -> P p -> P (absorb o p).
Hypothesis mark_merged_keeps : forall i o, P o -> P (mark_merged i o).
Hypothesis boost_keeps : forall p, P p -> P (boost p).
Hypothesis archive_keeps :
  forall now x, P x -> P (set_updated_at now (set_is_active false x)).

Lemma fold_into_keeps (primary other : nat) (t : list LearningData) :
  Forall P t -> Forall P (fold_into primary other t).
Proof.
  intro Ht. unfold fold_into. destruct (get other t) as [o |] eqn:E;
    [| assumption].
  assert (Ho : P o).
  { apply get_some in E. rewrite Forall_forall in Ht. apply Ht. tauto. }
  apply update_keeps; [apply mark_merged_keeps |].
  apply update_keeps; [| assumption]. intros x Hx. now apply absorb_keeps.
Qed.

Lemma merge_group_keeps (ids : list nat) (t : list LearningData) :
  Forall P t -> Forall P (merge_group ids t).
Proof.
  intro Ht. unfold merge_group. destruct (1 <? _); [| assumption].
  destruct (deref t ids) as [| first rest]; [assumption |].
  apply update_keeps; [exact boost_keeps |].
  apply fold_keeps; [| assumption]. intros t' a. apply fold_into_keeps.
Qed.

Lemma merge_keeps (user : string) (s : Session) :
  Forall P (learning_data (work s)) ->
  Forall P (learning_data (work (_merge_similar_learnings user s))).
Proof.
  intro H. unfold _merge_similar_learnings, with_learning.
  cbn [work learning_data]. apply fold_keeps; [| assumption].
  intros t g. apply merge_group_keeps.
Qed.

Lemma archive_keeps_rows (now : Z) (user : string) (s : Session) :
  Forall P (learning_data (work s)) ->
  Forall P (learning_data (work (_archive_old_learnings now user s))).
Proof.
  intro H. unfold _archive_old_learnings, with_learning.
  cbn [work learning_data]. apply fold_keeps; [| assumption].
  intros t g Ht. apply update_keeps; [apply archive_keeps | assumption].
Qed.

Lemma consolidate_keeps (now : Z) (db : Database) (user : string) :
  Forall P (learning_data db) ->
  Forall P (learning_data (fst (consolidate_memory now db user))).
Proof.
  intro H. unfold consolidate_memory.
  set (s := _archive_old_learnings now user _).
  assert (Hs : stored s = db).
  { unfold s, _archive_old_learnings, _merge_similar_learnings, with_learning.
    cbn [stored].
    now rewrite (proj1 (create_recent_summary_stored now user (begin db))). }
  assert (Hw : Forall P (learning_data (work s))).
  { unfold s. apply archive_keeps_rows, merge_keeps.
    now rewrite (proj2 (create_recent_summary_stored now user (begin db))). }
  destruct (first_profile user (stored s)); [| exact Hw].
  destruct (UserProfile.getattr _) as [[|] |]; cbn [fst]; unfold rollback;
    try rewrite Hs; assumption.
Qed.
End RowInvariant.

Lemma learning_update_rows (now : Z) (user : string) (analysis : Analysis)
    (db : Database) :
  exists added,
    learning_data (learning_update now user analysis db)
    = (learning_data db ++ added)%list
    /\ incl (map fact_summary added) (created_facts analysis)
    /\ Forall (newly_created user) added.
Proof.
  unfold learning_update, commit, _perform_learning_update.
  destruct (firstn 20 _) as [| first rest].
  - exists []. rewrite app_nil_r. repeat split; [intros ? [] | constructor].
  - destruct (analysis_truthy analysis).
    + destruct (store_learning_data_appends now user analysis
                  (Conversation.id first) (begin db))
        as (added & E & Hsum & Hnew).
      exists added. rewrite Hsum. repeat split; try assumption.
      apply incl_refl.
    + exists []. rewrite app_nil_r.
      repeat split; [intros ? [] | constructor].
Qed.

Lemma created_facts_confidence (analysis : Analysis)
    (x : string * string * string * Q) :
  In x (created_facts analysis) ->
  snd x = (8 # 10)%Q \/ snd x = (7 # 10)%Q \/ snd x = (6 # 10)%Q.
Proof.
  unfold created_facts. rewrite !in_app_iff, !in_map_iff.
  intros [(y & <- & _) | [(y & <- & _) | (y & <- & _)]]; cbn; tauto.
Qed.

(** X5: a superseded record is inactive, and the engine keeps it so: when
    every stored record that has [superseded_by] set is inactive, the same
    holds after the merge pass, the archival pass, a consolidation and a
    learning update, and for a single record after [supersede_with] and
    after any run of [reinforce] and [contradict] calls. *)
Theorem superseded_records_stay_inactive (now : Z) (user : string)
    (analysis : Analysis) (db : Database) :
  Forall lifecycle_ok (learning_data db) ->
  Forall lifecycle_ok (learning_data (merge_pass user db))
  /\ Forall lifecycle_ok (learning_data (archival_pass now user db))
  /\ Forall lifecycle_ok (learning_data (fst (consolidate_memory now db user)))
  /\ Forall lifecycle_ok (learning_data (learning_update now user analysis db))
  /\ (forall d i, lifecycle_ok (supersede_with now i d))
  /\ (forall d es, lifecycle_ok d -> lifecycle_ok (apply_all d es)).
Proof.
  intro H.
  assert (Ha : forall o p, lifecycle_ok o -> lifecycle_ok p ->
                           lifecycle_ok (absorb o p)).
  { intros o p _ Hp. unfold lifecycle_ok, absorb in *. cbv zeta.
    destruct (_ >? _)%Z; exact Hp. }
  assert (Hm : forall i o, lifecycle_ok o -> lifecycle_ok (mark_merged i o))
    by (intros; now right).
  assert (Hb : forall p, lifecycle_ok p -> lifecycle_ok (boost p))
    by (intros p Hp; exact Hp).
  assert (Hr : forall t x, lifecycle_ok x ->
                 lifecycle_ok (set_updated_at t (set_is_active false x)))
    by (intros; now right).
  split; [| split; [| split; [| split; [| split]]]].
  - unfold merge_pass, commit. now apply merge_keeps.
  - unfold archival_pass, commit. now apply archive_keeps_rows.
  - now apply consolidate_keeps.
  - destruct (learning_update_rows now user analysis db)
      as (added & -> & _ & Hnew).
    apply Forall_app. split; [assumption |].
    eapply Forall_impl; [| exact Hnew].
    intros x (_ & _ & _ & _ & _ & Hs). now left.
  - intros d i. now right.
  - intros d es. revert d. induction es as [| e es IH]; intros d Hd;
      [exact Hd |].
    cbn [apply_all fold_left]. apply IH. destruct e as [t nc | t].
    + unfold lifecycle_ok, apply_evidence. destruct nc; exact Hd.
    + unfold lifecycle_ok, apply_evidence, contradict in *. cbv zeta.
      destruct (_ >? _)%Z; cbn; [now right | exact Hd].
Qed.

Lemma superseded_records_stay_inactive_witness :
  Forall lifecycle_ok (learning_data (merge_pass "u" city_known))
  /\ Forall lifecycle_ok (learning_data (archival_pass 500 "u" city_known))
  /\ Forall lifecycle_ok
       (learning_data (fst (consolidate_memory 500 city_known "u")))
  /\ Forall lifecycle_ok
       (learning_data (learning_update 500 "u" city_again city_known))
  /\ (forall d i, lifecycle_ok (supersede_with 500 i d))
  /\ (forall d es, lifecycle_ok d -> lifecycle_ok (apply_all d es)).
Proof.
  apply superseded_records_stay_inactive.
  repeat constructor.
Defined.

(** X6: the ranges of the data model are kept: when every stored record
    has its confidence in [0, 1], at least one observation and no negative
    counter, the same holds after the merge pass, the archival pass, a
    consolidation and a learning update. *)
Theorem stored_facts_stay_in_range (now : Z) (user : string)
    (analysis : Analysis) (db : Database) :
  Forall in_range (learning_data db) ->
  Forall in_range (learning_data (merge_pass user db))
  /\ Forall in_range (learning_data (archival_pass now user db))
  /\ Forall in_range (learning_data (fst (consolidate_memory now db user)))
  /\ Forall in_range (learning_data (learning_update now user analysis db)).
Proof.
  intro H.
  assert (Ha : forall o p, in_range o -> in_range p -> in_range (absorb o p)).
  { intros o p (_ & O1 & O2 & O3) (C & P1 & P2 & P3).
    unfold in_range, absorb. cbv zeta.
    destruct (_ >? _)%Z; cbn; (split; [exact C | lia]). }
  assert (Hm : forall i o, in_range o -> in_range (mark_merged i o))
    by (intros i o Ho; exact Ho).
  assert (Hb : forall p, in_range p -> in_range (boost p)).
  { intros p ([C0 C1] & P1 & P2 & P3). unfold in_range, boost. cbn.
    split; [| lia]. split_min_max; lra. }
  assert (Hr : forall t x, in_range x ->
                 in_range (set_updated_at t (set_is_active false x)))
    by (intros t x Hx; exact Hx).
  split; [| split; [| split]].
  - unfold merge_pass, commit. now apply merge_keeps.
  - unfold archival_pass, commit. now apply archive_keeps_rows.
  - now apply consolidate_keeps.
  - destruct (learning_update_rows now user analysis db)
      as (added & -> & Hsum & Hnew).
    apply Forall_app. split; [assumption |].
    rewrite Forall_forall in *. intros x Hx.
    destruct (Hnew x Hx) as (_ & _ & H1 & H2 & H3 & _).
    unfold in_range. rewrite H1, H2, H3. split; [| lia].
    assert (Hc : In (fact_summary x) (created_facts analysis))
      by (apply Hsum; now apply in_map).
    apply created_facts_confidence in Hc. cbn in Hc.
    destruct Hc as [-> | [-> | ->]]; split; lra.
Qed.

Lemma stored_facts_stay_in_range_witness :
  Forall in_range (learning_data (merge_pass "u" two_cities))
  /\ Forall in_range (learning_data (archival_pass 500 "u" two_cities))
  /\ Forall in_range
       (learning_data (fst (consolidate_memory 500 two_cities "u")))
  /\ Forall in_range
       (learning_data (learning_update 500 "u" city_again two_cities)).
Proof.
  apply stored_facts_stay_in_range.
  repeat constructor; cbn; try lra; try lia.
Defined.

(** ** The merge pass, continued *)

(** X7: the merge pass changes nothing outside the duplicate groups of the
    user: the rows of other users, the inactive rows, and an active row
    that is alone in its group are stored after the pass as they were. *)
Theorem merge_leaves_other_rows (user : string) (db : Database)
    (x : LearningData) :
  unique_ids db ->
  In x (learning_data db) ->
  user_id x <> user \/ is_active x = false
  \/ List.length (group_of x (queried_rows user db)) <= 1 ->
  fact (id x) (merge_pass user db) = Some x.
Proof.
  intros Hids Hx Hcase. rewrite (fact_after_merge user db Hids x Hx).
  destruct (active_of user x) eqn:E; [| reflexivity].
  unfold active_of in E. apply andb_prop in E. destruct E as [Eu Ea].
  apply String.eqb_eq in Eu.
  destruct Hcase as [N | [N | Hlen]]; [congruence | congruence |].
  now rewrite merged_row_single.
Qed.

Lemma merge_leaves_other_rows_witness :
  fact (id retired) (merge_pass "u" city_known) = Some retired.
Proof.
  apply merge_leaves_other_rows.
  - unfold unique_ids. cbn. repeat constructor; cbn; intuition discriminate.
  - right. now left.
  - right. now left.
Defined.

(** X8: after the merge pass no two active records of the user share a
    learning type and key. *)
Theorem merge_leaves_no_duplicates (user : string) (db : Database)
    (y z : LearningData) :
  unique_ids db ->
  In y (learning_data (merge_pass user db)) ->
  In z (learning_data (merge_pass user db)) ->
  active_of user y = true -> active_of user z = true ->
  learning_type y = learning_type z -> key y = key z ->
  y = z.
Proof.
  intros Hids Hy Hz Ay Az Et Ek.
  apply (same_id_same_row (learning_data (merge_pass user db)));
    try assumption.
  - now apply merge_pass_unique_ids.
  - apply (survivors_are_alone user db Hids); try assumption.
    unfold group_key. now rewrite Et, Ek.
Qed.

Lemma merge_leaves_no_duplicates_witness :
  In (nth 1 (learning_data (merge_pass "u" two_cities)) city_a)
     (learning_data (merge_pass "u" two_cities))
  /\ active_of "u" (nth 1 (learning_data (merge_pass "u" two_cities)) city_a)
     = true
  /\ nth 1 (learning_data (merge_pass "u" two_cities)) city_a
     = nth 1 (learning_data (merge_pass "u" two_cities)) city_a.
Proof.
  assert (Hin : In (nth 1 (learning_data (merge_pass "u" two_cities)) city_a)
                  (learning_data (merge_pass "u" two_cities)))
    by (right; left; reflexivity).
  assert (Hact : active_of "u"
                   (nth 1 (learning_data (merge_pass "u" two_cities)) city_a)
                 = true) by reflexivity.
  split; [exact Hin |]. split; [exact Hact |].
  apply (merge_leaves_no_duplicates "u" two_cities); try assumption;
    try reflexivity.
  exact two_cities_ids.
Defined.

(** ** The archival pass *)

Lemma updates_by_id (f : LearningData -> LearningData)
    (l t : list LearningData) :
  (forall x, id (f x) = id x) -> NoDup (map id l) ->
  fold_left (fun t o => update (id o) f t) l t
  = map (fun x => if mem_id (id x) (map id l) then f x else x) t.
Proof.
  intros Hf. revert t. induction l as [| o l IH]; intros t Hl.
  - cbn. now rewrite map_id.
  - cbn [fold_left]. cbn [map] in Hl. inversion Hl as [| ? ? Ho Hl']; subst.
    rewrite (IH _ Hl'). unfold update. rewrite map_map.
    apply map_ext. intro x. cbn [map mem_id existsb].
    fold (mem_id (id x) (map id l)).
    destruct (Nat.eqb_spec (id x) (id o)) as [E | N].
    + rewrite Hf, E. rewrite (proj2 (mem_id_not_in _ _) Ho). reflexivity.
    + reflexivity.
Qed.

Lemma mem_id_filter (p : LearningData -> bool) (t : list LearningData)
    (x : LearningData) :
  NoDup (map id t) -> In x t ->
  mem_id (id x) (map id (filter p t)) = p x.
Proof.
  intros Hnd Hx. destruct (p x) eqn:E.
  - apply mem_id_in. apply in_map. apply filter_In. now split.
  - apply mem_id_not_in. intro Hin. apply in_map_iff in Hin.
    destruct Hin as (y & Ey & Hy). apply filter_In in Hy.
    destruct Hy as [Hy Py].
    assert (y = x) by now apply (same_id_same_row t). congruence.
Qed.

Lemma archival_pass_rows (now : Z) (user : string) (db : Database) :
  unique_ids db ->
  learning_data (archival_pass now user db)
  = map (archived_row now user) (learning_data db).
Proof.
  intro Hids. unfold archival_pass, commit, _archive_old_learnings,
    with_learning. cbn [work learning_data].
  rewrite (query_fresh _ _ _ Hids), order_by_unordered. cbn [begin work].
  rewrite updates_by_id; [| reflexivity | now apply NoDup_ids_filter].
  apply map_ext_in. intros x Hx. unfold archived_row.
  now rewrite (mem_id_filter _ _ _ Hids Hx).
Qed.

Lemma archivable_spec (user : string) (cutoff : Z) (x : LearningData) :
  archivable user cutoff x = true
  <-> user_id x = user /\ is_active x = true
      /\ (confidence x < 3 # 10)%Q /\ (last_observed x < cutoff)%Z
      /\ (times_contradicted x > times_reinforced x)%Z.
Proof.
  unfold archivable. rewrite !andb_true_iff, String.eqb_eq, Qltb_true,
    Z.ltb_lt, Z.gtb_ltb, Z.ltb_lt. intuition lia.
Qed.

(** X9: the archival pass deactivates exactly the active records of the
    user with confidence below 0.3, last observed more than 30 days ago
    and contradicted more often than reinforced; every record keeps its
    confidence, counters and [superseded_by]. *)
Theorem archival_pass_deactivates_stale_facts (now : Z) (user : string)
    (db : Database) (x : LearningData) :
  unique_ids db ->
  In x (learning_data db) ->
  exists x',
    fact (id x) (archival_pass now user db) = Some x'
    /\ confidence x' = confidence x
    /\ times_observed x' = times_observed x
    /\ times_reinforced x' = times_reinforced x
    /\ times_contradicted x' = times_contradicted x
    /\ superseded_by x' = superseded_by x
    /\ (is_active x' = true <->
        is_active x = true
        /\ ~ (user_id x = user /\ (confidence x < 3 # 10)%Q
              /\ (last_observed x < now - 30 * microseconds_per_day)%Z
              /\ (times_contradicted x > times_reinforced x)%Z)).
Proof.
  intros Hids Hx. exists (archived_row now user x).
  split.
  - unfold fact. rewrite (archival_pass_rows now user db Hids).
    apply get_map; [assumption | | assumption].
    intro y. unfold archived_row. now destruct (archivable _ _ y).
  - unfold archived_row.
    destruct (archivable user _ x) eqn:E.
    + apply archivable_spec in E. cbn. do 5 (split; [reflexivity |]).
      split; [discriminate |].
      intros [_ H]. exfalso. apply H. tauto.
    + do 5 (split; [reflexivity |]). split; [| tauto].
      intro Ha. split; [assumption |]. intro H.
      assert (archivable user (now - 30 * microseconds_per_day)%Z x = true)
        by (apply archivable_spec; tauto).
      congruence.
Qed.

Lemma archival_pass_deactivates_stale_facts_witness :
  exists x',
    fact (id city_a) (archival_pass 500 "u" two_cities) = Some x'
    /\ confidence x' = confidence city_a
    /\ times_observed x' = times_observed city_a
    /\ times_reinforced x' = times_reinforced city_a
    /\ times_contradicted x' = times_contradicted city_a
    /\ superseded_by x' = superseded_by city_a
    /\ (is_active x' = true <->
        is_active city_a = true
        /\ ~ (user_id city_a = "u" /\ (confidence city_a < 3 # 10)%Q
              /\ (last_observed city_a < 500 - 30 * microseconds_per_day)%Z
              /\ (times_contradicted city_a > times_reinforced city_a)%Z)).
Proof.
  apply archival_pass_deactivates_stale_facts.
  - exact two_cities_ids.
  - now left.
Defined.

Lemma archived_row_twice (now : Z) (user : string) (x : LearningData) :
  archived_row now user (archived_row now user x) = archived_row now user x.
Proof.
  unfold archived_row.
  destruct (archivable user _ x) eqn:E.
  - replace (archivable user _ (set_updated_at now (set_is_active false x)))
      with false; [reflexivity |].
    unfold archivable. cbn. now rewrite andb_false_r.
  - now rewrite E.
Qed.

(** X10: the archival pass is idempotent at a given clock: a second run
    changes nothing. *)
Theorem archival_pass_idempotent (now : Z) (user : string) (db : Database) :
  unique_ids db ->
  archival_pass now user (archival_pass now user db)
  = archival_pass now user db.
Proof.
  intro Hids.
  assert (Hids1 : unique_ids (archival_pass now user db)).
  { unfold unique_ids. rewrite (archival_pass_rows now user db Hids), map_map.
    erewrite map_ext; [exact Hids |].
    intro x. unfold archived_row. now destruct (archivable _ _ x). }
  assert (Eta : forall d, archival_pass now user d
                = mkDatabase (learning_data (archival_pass now user d))
                    (conversation_summaries d) (user_profiles d)
                    (conversations d)) by reflexivity.
  rewrite (Eta (archival_pass now user db)).
  rewrite (Eta db) at 5. f_equal.
  rewrite (archival_pass_rows now user _ Hids1).
  rewrite (archival_pass_rows now user db Hids), map_map.
  apply map_ext. intro x. apply archived_row_twice.
Qed.

Lemma archival_pass_idempotent_witness :
  archival_pass 500 "u" (archival_pass 500 "u" two_cities)
  = archival_pass 500 "u" two_cities.
Proof. apply archival_pass_idempotent. exact two_cities_ids. Defined.

(** ** Retrieval, continued *)

(** X11: the recency part of the score is never negative; it is at most 1
    for a fact observed in the past, exactly 1 within the first day, and 0
    from thirty days on. *)
Theorem recency_score_decay (now : Z) (d : LearningData) :
  (0 <= recency_score now d)%Q
  /\ ((last_observed d <= now)%Z -> (recency_score now d <= 1)%Q)
  /\ ((0 <= now - last_observed d < microseconds_per_day)%Z ->
      (recency_score now d == 1)%Q)
  /\ ((30 * microseconds_per_day <= now - last_observed d)%Z ->
      (recency_score now d == 0)%Q).
Proof.
  assert (Hday : (0 < microseconds_per_day)%Z) by reflexivity.
  unfold recency_score, timedelta_days. cbv zeta.
  set (days := ((now - last_observed d) / microseconds_per_day)%Z).
  split; [| split; [| split]].
  - split_min_max; lra.
  - intro H.
    assert (Hd : (0 <= days)%Z) by (apply Z.div_pos; lia).
    assert (Hx : (0 <= inject_Z days / 30)%Q).
    { apply Qle_shift_div_l; [lra |]. rewrite Qmult_0_l.
      now apply inject_Z_nonneg. }
    set (x := (inject_Z days / 30)%Q) in *. split_min_max; lra.
  - intro H. assert (Hd : days = 0%Z) by (apply Z.div_small; lia).
    rewrite Hd. assert (Hx : (inject_Z 0 / 30 == 0)%Q) by reflexivity.
    set (x := (inject_Z 0 / 30)%Q) in *. split_min_max; [exfalso |]; lra.
  - intro H.
    assert (Hd : (30 <= days)%Z) by (apply Z.div_le_lower_bound; lia).
    assert (Hx : (1 <= inject_Z days / 30)%Q).
    { apply Qle_shift_div_l; [lra |]. rewrite Qmult_1_l.
      change 30%Q with (inject_Z 30). now rewrite <- Zle_Qle. }
    set (x := (inject_Z days / 30)%Q) in *. split_min_max; lra.
Qed.

Lemma lower_char_not_upper (c : ascii) : is_upper (lower_char c) = false.
Proof. destruct c as [[] [] [] [] [] [] [] []]; reflexivity. Qed.

Lemma lower_not_upper (s : string) :
  string_forallb (fun c => negb (is_upper c)) (lower s) = true.
Proof.
  induction s as [| c s IH]; cbn; [reflexivity |].
  now rewrite lower_char_not_upper, IH.
Qed.

Lemma string_forallb_of_list (q : ascii -> bool) (l : list ascii) :
  string_forallb q (string_of_list_ascii l) = forallb q l.
Proof. induction l as [| c l IH]; cbn; [reflexivity | now rewrite IH]. Qed.

Lemma forallb_rev_true (q : ascii -> bool) (l : list ascii) :
  forallb q l = true -> forallb q (rev l) = true.
Proof.
  rewrite !forallb_forall. intros H x Hx. apply H. now apply in_rev.
Qed.

Lemma word_runs_chars (q : ascii -> bool) (s : string) :
  forall cur,
    string_forallb q s = true -> forallb q cur = true ->
    forall w, In w (word_runs cur s) -> string_forallb q w = true.
Proof.
  induction s as [| c s IH]; intros cur Hs Hcur w Hw.
  - cbn in Hw. destruct cur as [| a cur']; [contradiction |].
    destruct Hw as [<- | []]. rewrite string_forallb_of_list.
    now apply forallb_rev_true.
  - cbn in Hs. apply andb_prop in Hs. destruct Hs as [Hc Hs].
    cbn [word_runs] in Hw. destruct (is_word_char c).
    + apply (IH (c :: cur)); [assumption | | assumption].
      cbn. now rewrite Hc, Hcur.
    + apply in_app_or in Hw. destruct Hw as [Hw | Hw].
      * destruct cur as [| a cur']; [contradiction |].
        destruct Hw as [<- | []]. rewrite string_forallb_of_list.
        now apply forallb_rev_true.
      * now apply (IH []).
Qed.

Lemma string_forallb_and (p q : ascii -> bool) (s : string) :
  string_forallb p s = true -> string_forallb q s = true ->
  string_forallb (fun c => p c && q c) s = true.
Proof.
  induction s as [| c s IH]; cbn; [reflexivity |].
  intros Hp Hq. apply andb_prop in Hp, Hq.
  destruct Hp as [-> Hp], Hq as [-> Hq]. cbn. now apply IH.
Qed.

Lemma string_forallb_impl (p q : ascii -> bool) (s : string) :
  (forall c, p c = true -> q c = true) ->
  string_forallb p s = true -> string_forallb q s = true.
Proof.
  intro H. induction s as [| c s IH]; cbn; [reflexivity |].
  intro Hp. apply andb_prop in Hp. destruct Hp as [Hc Hs].
  now rewrite (H c Hc), IH.
Qed.

(** X12: every keyword extracted from a text is made of lower-case
    letters only, has at least three of them, is not a stop word, and
    occurs once in the result. *)
Theorem extracted_keywords_are_clean (text : string) :
  NoDup (_extract_keywords text)
  /\ forall w, In w (_extract_keywords text) ->
       string_forallb is_lower w = true
       /\ 3 <= String.length w
       /\ ~ In w stop_words.
Proof.
  unfold _extract_keywords, findall_words. cbv zeta.
  split; [apply NoDup_nodup |].
  intros w Hw. apply nodup_In in Hw. apply filter_In in Hw.
  destruct Hw as [Hw Hstop]. apply filter_In in Hw.
  destruct Hw as [Hrun Hw]. apply andb_prop in Hw. destruct Hw as [Ha Hlen].
  split; [| split].
  - assert (Hnu : string_forallb (fun c => negb (is_upper c)) w = true).
    { apply (word_runs_chars _ (lower text) []);
        [apply lower_not_upper | reflexivity | assumption]. }
    apply (string_forallb_impl (fun c => is_alpha c && negb (is_upper c))).
    + intros c Hc. unfold is_alpha in Hc. destruct (is_upper c); cbn in Hc;
        [discriminate |]. now rewrite andb_true_r in Hc.
    + now apply string_forallb_and.
  - now apply Nat.leb_le.
  - apply negb_true_iff in Hstop. now apply mem_string_not_in.
Qed.

(** X13: retrieval returns only facts of the user that are active (a
    superseded or archived fact never comes back), at most twenty of them,
    and at most [limit] for a limit that is not negative. *)
Theorem retrieval_returns_active_facts (now : Z) (db : Database)
    (user : string) (query_text : string) (limit : Z) :
  unique_ids db ->
  let result := get_relevant_memories now db user query_text limit in
  (forall m, In m result ->
     exists d, In d (learning_data db)
               /\ user_id d = user /\ is_active d = true
               /\ Memory.type m = learning_type d
               /\ Memory.key m = key d /\ Memory.value m = value d)
  /\ List.length result <= 20
  /\ ((0 <= limit)%Z -> List.length result <= Z.to_nat limit).
Proof.
  intros Hids result. unfold result, get_relevant_memories. cbv zeta.
  set (kw := _extract_keywords (lower query_text)).
  set (unsorted := filter _ (map (memory_of now query_text kw)
                                 (candidates user db))).
  destruct (slice_to_prefix limit (order_by relevance_before unsorted))
    as [k Ek].
  assert (Hlen : List.length unsorted <= 20).
  { unfold unsorted. etransitivity; [apply filter_length_le |].
    rewrite length_map. unfold candidates. rewrite length_firstn.
    apply Nat.le_min_l. }
  split; [| split].
  - intros m Hm. rewrite Ek in Hm. apply in_firstn in Hm.
    apply order_by_in in Hm. apply filter_In in Hm. destruct Hm as [Hm _].
    apply in_map_iff in Hm. destruct Hm as (d & <- & Hd).
    unfold candidates in Hd. apply in_firstn in Hd.
    rewrite (query_fresh _ _ _ Hids) in Hd. apply order_by_in in Hd.
    apply filter_In in Hd. destruct Hd as [Hd Ha].
    unfold active_of in Ha. apply andb_prop in Ha. destruct Ha as [Hu Ha].
    apply String.eqb_eq in Hu. exists d. repeat split; assumption.
  - rewrite Ek, length_firstn.
    rewrite (Permutation_length (order_by_perm _ _)). lia.
  - intro Hlimit. unfold slice_to.
    rewrite (proj2 (Z.ltb_ge _ _) Hlimit), length_firstn. apply Nat.le_min_l.
Qed.

Lemma retrieval_returns_active_facts_witness :
  let result := get_relevant_memories 500 city_known "u" "city" 5 in
  (forall m, In m result ->
     exists d, In d (learning_data city_known)
               /\ user_id d = "u" /\ is_active d = true
               /\ Memory.type m = learning_type d
               /\ Memory.key m = key d /\ Memory.value m = value d)
  /\ List.length result <= 20
  /\ ((0 <= 5)%Z -> List.length result <= Z.to_nat 5).
Proof.
  apply (retrieval_returns_active_facts 500 city_known "u" "city" 5).
  unfold unique_ids. cbn. repeat constructor; cbn; intuition discriminate.
Defined.

(** X14: with the same type, confidence and [last_observed], a fact that
    matches at least as many of the keywords scores at least as high. *)
Theorem more_matches_score_higher (now : Z) (a b : LearningData)
    (query : string) (keywords : list string) :
  learning_type a = learning_type b ->
  (confidence a == confidence b)%Q ->
  last_observed a = last_observed b ->
  keyword_matches b keywords <= keyword_matches a keywords ->
  (_calculate_relevance_score now b query keywords
   <= _calculate_relevance_score now a query keywords)%Q.
Proof.
  intros Et Ec El Hm.
  destruct (relevance_score_unfold now a query keywords) as (ra & Ha & ->).
  destruct (relevance_score_unfold now b query keywords) as (rb & Hb & ->).
  assert (Hle : (rb <= ra)%Q).
  { rewrite Ha, Hb.
    assert (Hb1 : (type_bonus a == type_bonus b)%Q)
      by (unfold type_bonus; now rewrite Et).
    assert (Hr1 : (recency_score now a == recency_score now b)%Q)
      by (unfold recency_score; now rewrite El).
    unfold weighted_sum.
    assert (Hk : (keyword_overlap b keywords <= keyword_overlap a keywords)%Q).
    { unfold keyword_overlap. destruct keywords as [| k ks] eqn:E; [lra |].
      rewrite <- E in Hm |- *.
      assert (Hn : (0 < inject_Z (Z.of_nat (List.length keywords)))%Q).
      { change 0%Q with (inject_Z 0). rewrite <- Zlt_Qlt. subst keywords.
        cbn [List.length]. lia. }
      unfold Qdiv. apply Qmult_le_compat_r.
      - rewrite <- Zle_Qle. lia.
      - apply Qlt_le_weak. now apply Qinv_lt_0_compat. }
    lra. }
  split_min_max; lra.
Qed.

Lemma more_matches_score_higher_witness :
  (_calculate_relevance_score 500 topic_cars "What music do I like?"
     ["what"; "music"; "like"]
   <= _calculate_relevance_score 500 topic_jazz "What music do I like?"
        ["what"; "music"; "like"])%Q.
Proof.
  apply more_matches_score_higher; try reflexivity.
  vm_compute. lia.
Defined.

(** ** Summaries *)

Lemma find_app_none {A : Type} (p : A -> bool) (l : list A) (x : A) :
  find p l = None -> find p (l ++ [x]) = if p x then Some x else None.
Proof.
  induction l as [| y l IH]; cbn; [reflexivity |].
  destruct (p y); [discriminate | exact IH].
Qed.

Lemma last_in {A : Type} (l : list A) (d : A) : l <> [] -> In (last l d) l.
Proof.
  induction l as [| x l IH]; [congruence |]. intros _.
  destruct l as [| y l']; [now left |]. right.
  change (last (x :: y :: l') d) with (last (y :: l') d).
  apply IH. discriminate.
Qed.

Lemma timestamps_sorted (l : list Conversation.t) :
  StronglySorted
    (fun a b => (Conversation.timestamp a <= Conversation.timestamp b)%Z)
    (order_by timestamp_before l).
Proof.
  apply StronglySorted_weaken
    with (R := sorted_stably timestamp_before (fun _ _ => True)).
  - intros a b [H _]. unfold timestamp_before in H. now apply Z.ltb_ge in H.
  - apply order_by_sorted; [| | apply StronglySorted_any].
    + intros a b. unfold timestamp_before. rewrite Z.ltb_lt, Z.ltb_ge. lia.
    + intros a b c. unfold timestamp_before. rewrite !Z.ltb_ge. lia.
Qed.

Lemma create_recent_summary_cases (now : Z) (user : string) (db : Database) :
  summary_pass now user db = db
  \/ exists first rest x,
       recent_of now user db = first :: rest
       /\ (List.length (recent_of now user db) <? 10) = false
       /\ find (covered now user) (conversation_summaries db) = None
       /\ ConversationSummary.user_id x = user
       /\ ConversationSummary.start_time x = Conversation.timestamp first
       /\ summary_pass now user db
          = mkDatabase (learning_data db) (conversation_summaries db ++ [x])
              (user_profiles db) (conversations db).
Proof.
  unfold summary_pass, commit, _create_recent_summary.
  cbn [begin stored work]. fold (recent_of now user db).
  fold (covered now user).
  destruct (List.length (recent_of now user db) <? 10) eqn:Elen;
    [left; now destruct db |].
  destruct (find (covered now user) (conversation_summaries db)) eqn:Efind;
    [left; now destruct db |].
  destruct (recent_of now user db) as [| first rest] eqn:Erec;
    [discriminate |].
  right. eexists first, rest, _. repeat split; try reflexivity.
Qed.

(** X15: creating the summary is idempotent at a given clock: once the
    pass has run and committed, running it again adds nothing. *)
Theorem summary_pass_idempotent (now : Z) (user : string) (db : Database) :
  summary_pass now user (summary_pass now user db) = summary_pass now user db.
Proof.
  destruct (create_recent_summary_cases now user db)
    as [E | (first & rest & x & Erec & Elen & Efind & Hu & Hs & E)].
  - now rewrite !E.
  - rewrite E. set (db1 := mkDatabase _ _ _ _).
    unfold summary_pass, commit, _create_recent_summary.
    cbn [begin stored work]. fold (recent_of now user db1).
    fold (covered now user).
    change (recent_of now user db1) with (recent_of now user db).
    rewrite Elen. cbn [db1 conversation_summaries].
    rewrite (find_app_none _ _ _ Efind).
    assert (Hcov : covered now user x = true).
    { unfold covered. rewrite Hu, Hs, String.eqb_refl. cbn [andb].
      assert (Hfirst : In first (recent_of now user db))
        by (rewrite Erec; now left).
      unfold recent_of in Hfirst. apply order_by_in in Hfirst.
      apply filter_In in Hfirst. destruct Hfirst as [_ Hf].
      apply andb_prop in Hf. destruct Hf as [_ Hf].
      apply Z.gtb_lt in Hf. apply Z.gtb_lt. unfold hours in *. lia. }
    now rewrite Hcov.
Qed.

(** X16: the pass adds at most one summary; a summary it adds belongs to
    the user, is active, covers at least ten messages, all of the last 24
    hours, and starts no later than it ends. *)
Theorem summary_pass_adds_one (now : Z) (user : string) (db : Database) :
  conversation_summaries (summary_pass now user db) = conversation_summaries db
  \/ exists x,
       conversation_summaries (summary_pass now user db)
       = (conversation_summaries db ++ [x])%list
       /\ ConversationSummary.user_id x = user
       /\ ConversationSummary.is_active x = true
       /\ 10 <= ConversationSummary.message_count x
       /\ List.length (ConversationSummary.conversation_ids x)
          = ConversationSummary.message_count x
       /\ (now - hours 24 < ConversationSummary.start_time x)%Z
       /\ (ConversationSummary.start_time x
           <= ConversationSummary.end_time x)%Z.
Proof.
  unfold summary_pass, commit, _create_recent_summary.
  cbn [begin stored work].
  set (recent := order_by timestamp_before _).
  destruct (List.length recent <? 10) eqn:Elen; [now left |].
  destruct (find _ (conversation_summaries db)); [now left |].
  destruct recent as [| first rest] eqn:Erec; [now left |].
  right. eexists. split; [reflexivity |].
  cbn [ConversationSummary.user_id ConversationSummary.is_active
       ConversationSummary.message_count ConversationSummary.conversation_ids
       ConversationSummary.start_time ConversationSummary.end_time].
  apply Nat.ltb_ge in Elen.
  assert (Hfirst : In first recent) by (rewrite Erec; now left).
  assert (Hsorted := timestamps_sorted
            (filter (fun c => String.eqb (Conversation.user_id c) user
                              && (Conversation.timestamp c >? now - hours 24)%Z)
                    (conversations db))).
  fold recent in Hsorted. rewrite Erec in Hsorted.
  repeat split; try assumption.
  - now rewrite length_map.
  - unfold recent in Hfirst. apply order_by_in in Hfirst.
    apply filter_In in Hfirst. destruct Hfirst as [_ Hf].
    apply andb_prop in Hf. destruct Hf as [_ Hf]. now apply Z.gtb_lt in Hf.
  - inversion Hsorted as [| ? ? _ Hall]; subst.
    destruct (last_in (first :: rest) first) as [<- | Hin];
      [discriminate | lia |].
    rewrite Forall_forall in Hall. now apply Hall.
Qed.

(** ** Working memory and statistics *)

Lemma StronglySorted_app {A : Type} (R : A -> A -> Prop) (l1 l2 : list A) :
  StronglySorted R l1 -> StronglySorted R l2 ->
  (forall a b, In a l1 -> In b l2 -> R a b) ->
  StronglySorted R (l1 ++ l2).
Proof.
  induction 1 as [| x l Hl IH Hx]; intros H2 Hc; [assumption |].
  cbn. constructor.
  - apply IH; [assumption |]. intros a b Ha Hb. apply Hc; [now right | assumption].
  - apply Forall_app. split; [assumption |].
    apply Forall_forall. intros b Hb. apply Hc; [now left | assumption].
Qed.

Lemma StronglySorted_rev {A : Type} (R : A -> A -> Prop) (l : list A) :
  StronglySorted R l -> StronglySorted (fun a b => R b a) (rev l).
Proof.
  induction 1 as [| x l Hl IH Hx]; cbn; [constructor |].
  apply StronglySorted_app; [assumption | repeat constructor |].
  intros a b Ha [<- | []]. rewrite Forall_forall in Hx. apply Hx.
  now apply in_rev.
Qed.

Lemma newest_first (l : list Conversation.t) :
  StronglySorted
    (fun a b => (Conversation.timestamp b <= Conversation.timestamp a)%Z)
    (order_by timestamp_after l).
Proof.
  apply StronglySorted_weaken
    with (R := sorted_stably timestamp_after (fun _ _ => True)).
  - intros a b [H _]. unfold timestamp_after in H. now apply Z.ltb_ge in H.
  - apply order_by_sorted; [| | apply StronglySorted_any].
    + intros a b. unfold timestamp_after. rewrite Z.ltb_lt, Z.ltb_ge. lia.
    + intros a b c. unfold timestamp_after. rewrite !Z.ltb_ge. lia.
Qed.

(** X17: the conversation context holds the most recent messages of the
    user, oldest first: as many as the limit allows (50 when no limit or
    the limit 0 is given), each with the role [user] or [assistant], and
    no message left out is newer than one that is included. *)
Theorem conversation_context_is_recent_window (db : Database) (user : string)
    (max_messages : option nat) :
  let mine := filter (fun c => String.eqb (Conversation.user_id c) user)
                     (conversations db) in
  let context := get_conversation_context db user max_messages in
  List.length context
  = Nat.min (context_limit max_messages) (List.length mine)
  /\ StronglySorted
       (fun a b => (ContextMessage.timestamp a <= ContextMessage.timestamp b)%Z)
       context
  /\ (forall m, In m context ->
        ContextMessage.role m = "user" \/ ContextMessage.role m = "assistant")
  /\ (forall c, In c mine ->
        In (context_entry c) context
        \/ forall m, In m context ->
             (Conversation.timestamp c <= ContextMessage.timestamp m)%Z)
  /\ context_limit (Some 0) = 50 /\ context_limit None = 50.
Proof.
  intros mine context. unfold context, get_conversation_context. cbv zeta.
  fold mine. set (k := context_limit max_messages).
  pose proof (newest_first mine) as Hsorted.
  split; [| split; [| split; [| split]]].
  - rewrite length_map, length_rev, length_firstn.
    now rewrite (Permutation_length (order_by_perm _ _)).
  - apply StronglySorted_map.
    apply (StronglySorted_rev
             (fun a b => (Conversation.timestamp b <= Conversation.timestamp a)%Z)).
    now apply StronglySorted_firstn.
  - intros m Hm. apply in_map_iff in Hm. destruct Hm as (c & <- & _).
    unfold context_entry. cbn. destruct (String.eqb _ _); tauto.
  - intros c Hc.
    assert (Hin : In c (order_by timestamp_after mine)) by now apply order_by_in.
    rewrite <- (firstn_skipn k (order_by timestamp_after mine)) in Hin, Hsorted.
    apply in_app_or in Hin. destruct Hin as [Hin | Hin].
    + left. apply in_map. now apply in_rev in Hin.
    + right. intros m Hm. apply in_map_iff in Hm.
      destruct Hm as (c' & <- & Hc'). apply in_rev in Hc'. cbn.
      exact (StronglySorted_split _ _ _ Hsorted c' c Hc' Hin).
  - split; reflexivity.
Qed.

(** X18: in the memory statistics the high-confidence entries are among
    the active ones, the messages of the last week among all messages,
    and the confidence ratio lies in [0, 1], also for a user without any
    active fact. *)
Theorem memory_stats_are_consistent (now : Z) (db : Database) (user : string) :
  let stats := get_memory_stats now db user in
  stats_high_confidence_entries stats <= stats_active_entries stats
  /\ stats_recent_7_days stats <= stats_total_conversations stats
  /\ (0 <= stats_confidence_ratio stats <= 1)%Q
  /\ (stats_active_entries stats = 0 ->
      (stats_confidence_ratio stats == 0)%Q
      /\ (stats_consolidation_needed stats = true ->
          100 < recent_message_count now (hours 24) db user)).
Proof.
  cbv zeta. unfold get_memory_stats. cbv zeta.
  cbn [stats_high_confidence_entries stats_active_entries stats_recent_7_days
       stats_total_conversations stats_confidence_ratio
       stats_consolidation_needed].
  assert (Hhigh : List.length
                    (filter (fun d => active_of user d
                                      && Qltb (8 # 10) (confidence d))
                            (learning_data db))
                  <= active_learning_count db user).
  { unfold active_learning_count. rewrite <- filter_filter.
    apply filter_length_le. }
  split; [exact Hhigh |]. split.
  - unfold recent_message_count. rewrite <- filter_filter.
    apply filter_length_le.
  - split.
    + apply ratio_bounds; lia.
    + intro E0. rewrite E0 in Hhigh.
      assert (Hz : List.length
                     (filter (fun d => active_of user d
                                       && Qltb (8 # 10) (confidence d))
                             (learning_data db)) = 0) by lia.
      rewrite Hz, E0. split; [reflexivity |].
      unfold should_consolidate_memory. cbv zeta. rewrite E0.
      cbn [Nat.ltb Nat.leb]. rewrite orb_false_r.
      intro H. now apply Nat.ltb_lt in H.
Qed.

(** ** The memory context *)

Lemma concat_nonempty (sep x : string) (l : list string) :
  x <> EmptyString -> String.concat sep (x :: l) <> EmptyString.
Proof.
  intro Hx. cbn. destruct l as [| y l]; [assumption |].
  destruct x as [| c x']; [congruence | discriminate].
Qed.

Lemma profile_part_empty (label : string) (entries : list (string * string)) :
  label <> EmptyString ->
  (profile_part label entries = [] <-> entries = [])
  /\ forall x, In x (profile_part label entries) -> x <> EmptyString.
Proof.
  intro Hl. unfold profile_part. destruct entries as [| e es].
  - split; [tauto | intros x []].
  - split; [split; discriminate |].
    intros x [<- | []]. destruct label; [congruence | discriminate].
Qed.

Lemma memory_context_empty (now : Z) (db : Database)
    (user : string) (current_query : string) :
  build_memory_context now db user current_query = EmptyString
  <-> profile_entries UserProfile.personal_facts user db = []
      /\ get_relevant_memories now db user current_query 5 = []
      /\ profile_entries UserProfile.communication_preferences user db = [].
Proof.
  unfold build_memory_context, profile_entries. cbv zeta.
  set (facts := match first_profile user db with
                | Some p => UserProfile.personal_facts p | None => [] end).
  set (prefs := match first_profile user db with
                | Some p => UserProfile.communication_preferences p
                | None => [] end).
  replace (match first_profile user db with
           | Some p => profile_part "Personal facts: " (UserProfile.personal_facts p)
           | None => [] end)
    with (profile_part "Personal facts: " facts)
    by (unfold facts; now destruct (first_profile user db)).
  replace (match first_profile user db with
           | Some p => profile_part "Communication preferences: "
                         (UserProfile.communication_preferences p)
           | None => [] end)
    with (profile_part "Communication preferences: " prefs)
    by (unfold prefs; now destruct (first_profile user db)).
  destruct (profile_part_empty "Personal facts: " facts) as [Hf Hfne];
    [discriminate |].
  destruct (profile_part_empty "Communication preferences: " prefs)
    as [Hp Hpne]; [discriminate |].
  set (memories := get_relevant_memories now db user current_query 5).
  set (mpart := match memories with [] => [] | _ => _ end).
  assert (Hm : (mpart = [] <-> memories = [])
               /\ forall x, In x mpart -> x <> EmptyString).
  { unfold mpart. destruct memories; [split; [tauto | intros x []] |].
    split; [split; discriminate |]. intros x [<- | []]. discriminate. }
  destruct Hm as [Hm Hmne].
  split.
  - intro E.
    destruct (profile_part "Personal facts: " facts) as [| a l] eqn:E1.
    + destruct mpart as [| b l'] eqn:E2.
      * destruct (profile_part "Communication preferences: " prefs)
          as [| c l''] eqn:E3; [tauto |].
        exfalso. cbn [app] in E. revert E. apply concat_nonempty.
        apply Hpne. now left.
      * exfalso. cbn [app] in E. revert E. apply concat_nonempty.
        apply Hmne. now left.
    + exfalso. cbn [app] in E. revert E. apply concat_nonempty.
      apply Hfne. now left.
  - intros (E1 & E2 & E3).
    rewrite (proj2 Hf E1), (proj2 Hm E2), (proj2 Hp E3). reflexivity.
Qed.

(** X19: the memory context is the empty string exactly when nothing is
    known: no personal fact and no communication preference in the profile
    (or no profile row at all) and no relevant memory. *)
Theorem memory_context_empty_iff_nothing_known (now : Z) (db : Database)
    (user : string) (current_query : string) :
  build_memory_context now db user current_query = EmptyString
  <-> profile_entries UserProfile.personal_facts user db = []
      /\ get_relevant_memories now db user current_query 5 = []
      /\ profile_entries UserProfile.communication_preferences user db = [].
Proof. apply memory_context_empty. Qed.

(** ** The profile aggregator *)

Lemma dict_get_set (k k' v : string) (d : list (string * string)) :
  dict_get k (dict_set k' v d)
  = if String.eqb k k' then Some v else dict_get k d.
Proof.
  induction d as [| [k0 v0] d IH]; cbn.
  - now destruct (String.eqb k k').
  - destruct (String.eqb_spec k' k0) as [-> | N]; cbn.
    + now destruct (String.eqb k k0).
    + rewrite IH. destruct (String.eqb_spec k k0) as [-> | N'];
        [| reflexivity].
      destruct (String.eqb_spec k0 k'); [congruence | reflexivity].
Qed.

Lemma dict_get_none (k : string) (d : list (string * string)) :
  ~ In k (map fst d) -> dict_get k d = None.
Proof.
  induction d as [| [k0 v0] d IH]; cbn; [reflexivity |].
  intro H. destruct (String.eqb_spec k k0) as [-> | N]; [tauto |].
  apply IH. tauto.
Qed.

Lemma dict_get_update (k : string) (new d : list (string * string)) :
  NoDup (map fst new) ->
  dict_get k (dict_update d new)
  = match dict_get k new with
    | Some v => Some v
    | None => dict_get k d
    end.
Proof.
  unfold dict_update. revert d.
  induction new as [| [k1 v1] new IH]; intros d Hnd; [reflexivity |].
  cbn in Hnd. inversion Hnd as [| ? ? Hk Hnd']; subst.
  cbn [fold_left fst snd dict_get]. rewrite (IH _ Hnd'), dict_get_set.
  destruct (String.eqb_spec k k1) as [-> | N]; [| reflexivity].
  now rewrite (dict_get_none _ _ Hk).
Qed.

Lemma when_given_dict (o : option (list (string * string)))
    (d : list (string * string)) :
  when_given o (dict_update d) d = dict_update d (or_empty o).
Proof. destruct o as [[| x l] |]; reflexivity. Qed.

(** X20: an analysis is merged into the personal facts and communication
    preferences of the profile key by key: a key of the analysis takes
    the value of the analysis, every other key keeps its value. *)
Theorem profile_facts_last_write_wins (now : Z) (analysis : Analysis)
    (p : UserProfile.t) (k : string) :
  NoDup (map fst (or_empty (a_personal_facts analysis))) ->
  NoDup (map fst (or_empty (a_communication_preferences analysis))) ->
  let p' := _update_user_profile_from_analysis now analysis p in
  dict_get k (UserProfile.personal_facts p')
  = match dict_get k (or_empty (a_personal_facts analysis)) with
    | Some v => Some v
    | None => dict_get k (UserProfile.personal_facts p)
    end
  /\ dict_get k (UserProfile.communication_preferences p')
     = match dict_get k (or_empty (a_communication_preferences analysis)) with
       | Some v => Some v
       | None => dict_get k (UserProfile.communication_preferences p)
       end.
Proof.
  intros H1 H2. cbv zeta. unfold _update_user_profile_from_analysis.
  cbn [UserProfile.personal_facts UserProfile.communication_preferences].
  rewrite !when_given_dict. split; now apply dict_get_update.
Qed.

Lemma profile_facts_last_write_wins_witness :
  let p' := _update_user_profile_from_analysis 500 city_again profile_of_u in
  dict_get "city" (UserProfile.personal_facts p')
  = match dict_get "city" (or_empty (a_personal_facts city_again)) with
    | Some v => Some v
    | None => dict_get "city" (UserProfile.personal_facts profile_of_u)
    end
  /\ dict_get "city" (UserProfile.communication_preferences p')
     = match dict_get "city"
               (or_empty (a_communication_preferences city_again)) with
       | Some v => Some v
       | None =>
           dict_get "city" (UserProfile.communication_preferences profile_of_u)
       end.
Proof.
  apply (profile_facts_last_write_wins 500 city_again profile_of_u "city").
  - cbn. repeat constructor. intros [].
  - cbn. constructor.
Defined.

Lemma when_given_union (o : option (list string)) (old : list string)
    (t : string) :
  In t (when_given o (set_union old) old) <-> In t old \/ In t (or_empty o).
Proof.
  destruct o as [[| x l] |]; cbn [when_given or_empty].
  - cbn. tauto.
  - unfold set_union. rewrite nodup_In, in_app_iff. tauto.
  - cbn. tauto.
Qed.

(** X21: topics of interest and expertise areas only grow: after an
    analysis is merged the profile holds exactly the old entries and the
    entries of the analysis, and it never loses an entry. *)
Theorem profile_topics_only_grow (now : Z) (analysis : Analysis)
    (p : UserProfile.t) (t : string) :
  let p' := _update_user_profile_from_analysis now analysis p in
  (In t (UserProfile.topics_of_interest p')
   <-> In t (UserProfile.topics_of_interest p)
       \/ In t (or_empty (a_topics_of_interest analysis)))
  /\ (In t (UserProfile.expertise_areas p')
      <-> In t (UserProfile.expertise_areas p)
          \/ In t (or_empty (a_expertise_areas analysis))).
Proof.
  cbv zeta. unfold _update_user_profile_from_analysis.
  cbn [UserProfile.topics_of_interest UserProfile.expertise_areas].
  split; apply when_given_union.
Qed.

(** X22: the formality score stays in [0, 1] when the observed score is
    in [0, 1]; it moves to 0.3 of the observation plus 0.7 of the stored
    score, except that a stored score of exactly 0 is taken for 0.5. *)
Theorem formality_score_average (now : Z) (analysis : Analysis)
    (p : UserProfile.t) (observed : Q) :
  a_formality_score analysis = Some observed ->
  (0 <= observed <= 1)%Q ->
  (0 <= UserProfile.formality_score p <= 1)%Q ->
  let f := UserProfile.formality_score p in
  let f' := UserProfile.formality_score
              (_update_user_profile_from_analysis now analysis p) in
  (0 <= f' <= 1)%Q
  /\ (~ (f == 0)%Q -> f' == (3 # 10) * observed + (7 # 10) * f)%Q
  /\ ((f == 0)%Q -> f' == (3 # 10) * observed + (35 # 100))%Q.
Proof.
  intros E Ho Hf. cbv zeta. unfold _update_user_profile_from_analysis.
  cbn [UserProfile.formality_score]. rewrite E. unfold float_or.
  destruct (Qeq_bool (UserProfile.formality_score p) 0) eqn:E0.
  - apply Qeq_bool_true in E0. repeat split; intros; try lra.
  - assert (N : ~ (UserProfile.formality_score p == 0)%Q).
    { intro H. apply Qeq_bool_true in H. congruence. }
    repeat split; intros; try lra.
Qed.

Lemma formality_score_average_witness :
  let f := UserProfile.formality_score profile_of_u in
  let f' := UserProfile.formality_score
              (_update_user_profile_from_analysis 500 city_again profile_of_u) in
  (0 <= f' <= 1)%Q
  /\ (~ (f == 0)%Q -> f' == (3 # 10) * (1 # 2) + (7 # 10) * f)%Q
  /\ ((f == 0)%Q -> f' == (3 # 10) * (1 # 2) + (35 # 100))%Q.
Proof.
  apply (formality_score_average 500 city_again profile_of_u (1 # 2)).
  - reflexivity.
  - split; lra.
  - cbn. split; lra.
Defined.

(** X23: the average message length is updated from the messages the
    user wrote: messages of the assistant do not count, a batch without a
    message of the user leaves the profile as it is, and an average that
    is not negative stays so. *)
Theorem message_length_counts_user_messages
    (conversations : list Conversation.t) (p : UserProfile.t) :
  let mine := filter (fun conv =>
                        String.eqb (Conversation.message_type conv) "user")
                     conversations in
  _update_communication_metrics conversations p
  = _update_communication_metrics mine p
  /\ (mine = [] -> _update_communication_metrics conversations p = p)
  /\ ((0 <= UserProfile.avg_message_length p)%Q ->
      (0 <= UserProfile.avg_message_length
              (_update_communication_metrics conversations p))%Q).
Proof.
  cbv zeta. unfold _update_communication_metrics.
  set (f := fun conv => String.eqb (Conversation.message_type conv) "user").
  assert (Eff : filter f (filter f conversations) = filter f conversations).
  { rewrite filter_filter. apply filter_ext. intro x. now destruct (f x). }
  rewrite Eff. split; [reflexivity |]. split.
  - intros ->. reflexivity.
  - intro H. destruct (filter f conversations) as [| m ms] eqn:E;
      [assumption |].
    cbn [UserProfile.avg_message_length set_avg_message_length].
    assert (Hr : (0 <= inject_Z (Z.of_nat (total_length (m :: ms)))
                       / inject_Z (Z.of_nat (List.length (m :: ms))))%Q).
    { apply Qle_shift_div_l.
      - change 0%Q with (inject_Z 0). rewrite <- Zlt_Qlt. cbn [List.length]. lia.
      - rewrite Qmult_0_l. apply inject_Z_nonneg. lia. }
    set (r := (inject_Z (Z.of_nat (total_length (m :: ms))) / _)%Q) in *.
    lra.
Qed.

(** ** New records and the reset *)






Lemma find_update_first {A : Type} (p : A -> bool) (f : A -> A) (l : list A) :
  (forall x, p (f x) = p x) ->
  find p (update_first p f l) = option_map f (find p l).
Proof.
  intro H. induction l as [| x l IH]; [reflexivity |].
  cbn. destruct (p x) eqn:E; cbn.
  - now rewrite H, E.
  - now rewrite E.
Qed.

(** X25: after the reset of a profile nothing of the user is left to
    retrieve: no active fact, no relevant memory for any query, an empty
    memory context; and a second reset finds nothing to delete. *)
Theorem reset_leaves_nothing_to_retrieve (now later : Z) (user : string)
    (db : Database) (query_text : string) (limit : Z) :
  let db' := fst (reset_user_profile now user db) in
  active_learning_count db' user = 0
  /\ get_relevant_memories later db' user query_text limit = []
  /\ build_memory_context later db' user query_text = EmptyString
  /\ deleted_learning_entries (snd (reset_user_profile later user db')) = 0
  /\ deleted_summaries (snd (reset_user_profile later user db')) = 0.
Proof.
  cbv zeta.
  set (mine := fun d : LearningData => String.eqb (user_id d) user).
  assert (Hnone : forall q : LearningData -> bool,
            (forall d, q d = true -> mine d = true) ->
            filter q (filter (fun d => negb (mine d)) (learning_data db)) = []).
  { intros q Hq. apply filter_none. intros d Hd. apply filter_In in Hd.
    destruct Hd as [_ Hd]. destruct (q d) eqn:E; [| reflexivity].
    rewrite (Hq d E) in Hd. discriminate. }
  assert (Hactive : filter (active_of user)
                      (learning_data (fst (reset_user_profile now user db)))
                    = []).
  { cbn [reset_user_profile fst learning_data]. apply Hnone.
    intros d Hd. unfold active_of in Hd. apply andb_prop in Hd. tauto. }
  assert (Hmem : forall k,
            get_relevant_memories later (fst (reset_user_profile now user db))
              user query_text k = []).
  { intro k. unfold get_relevant_memories, candidates, query. cbv zeta.
    cbn [begin stored work]. rewrite Hactive. cbn.
    unfold slice_to. destruct (k <? 0)%Z; apply firstn_nil. }
  split; [| split; [| split; [| split]]].
  - unfold active_learning_count. now rewrite Hactive.
  - apply Hmem.
  - apply memory_context_empty.
    unfold profile_entries, first_profile.
    cbn [reset_user_profile fst user_profiles].
    rewrite find_update_first by reflexivity.
    split; [| split; [apply Hmem |]];
      destruct (find _ (user_profiles db)); reflexivity.
  - cbn [reset_user_profile snd fst learning_data deleted_learning_entries].
    rewrite Hnone; [reflexivity | tauto].
  - cbn [reset_user_profile snd fst conversation_summaries deleted_summaries].
    rewrite filter_none; [reflexivity |].
    intros x Hx. apply filter_In in Hx. destruct Hx as [_ Hx].
    now apply negb_true_iff in Hx.
Qed.

(** ** Consolidation without a profile row *)

Lemma deref_map (M : LearningData -> LearningData)
    (t l : list LearningData) :
  NoDup (map id t) -> (forall y, id (M y) = id y) -> incl l t ->
  deref (map M t) (map id l) = map M l.
Proof.
  intros Hnd HM. unfold deref. induction l as [| x l IH]; intro Hincl;
    [reflexivity |].
  cbn [map flat_map].
  rewrite (get_map M t x Hnd HM) by (apply Hincl; now left).
  cbn [app]. f_equal. apply IH. intros y Hy. apply Hincl. now right.
Qed.

Lemma merge_after_summary (now : Z) (user : string) (db : Database) :
  learning_data
    (work (_merge_similar_learnings user
             (_create_recent_summary now user (begin db))))
  = learning_data (merge_pass user db).
Proof.
  destruct (create_recent_summary_stored now user (begin db)) as [E1 E2].
  unfold merge_pass, commit, _merge_similar_learnings, with_learning, query.
  cbn [work learning_data]. now rewrite E1, E2.
Qed.

(** X26: for a user without a profile row a consolidation commits the
    merge and then the archival, and the archival selects its rows as they
    were stored when the session began (the session does not flush before
    a query): a row is archived when the stored row meets the criteria,
    whatever the merge made of it. *)
Theorem consolidation_archives_by_stored_rows (now : Z) (db : Database)
    (user : string) (x : LearningData) :
  unique_ids db ->
  first_profile user db = None ->
  In x (learning_data db) ->
  exists merged,
    fact (id x) (merge_pass user db) = Some merged
    /\ fact (id x) (fst (consolidate_memory now db user))
       = Some (if archivable user (now - 30 * microseconds_per_day) x
               then set_updated_at now (set_is_active false merged)
               else merged)
    /\ snd (consolidate_memory now db user) = Committed.
Proof.
  intros Hids Hnone Hx.
  rewrite (consolidation_commits_without_profile now db user Hnone).
  cbn [fst snd]. unfold fact, commit.
  set (M := fun x => if active_of user x
                     then merged_row (group_of x (queried_rows user db)) x
                     else x).
  assert (HM : forall y, id (M y) = id y).
  { intro y. unfold M. destruct (active_of user y);
      [apply merged_row_id | reflexivity]. }
  assert (Hrows : learning_data (merge_pass user db)
                  = map M (learning_data db))
    by apply (merge_pass_rows user db Hids).
  exists (M x). split; [| split; [| reflexivity]].
  - rewrite Hrows. now apply get_map.
  - assert (Hst : stored (_merge_similar_learnings user
                            (_create_recent_summary now user (begin db)))
                  = db).
    { unfold _merge_similar_learnings, with_learning. cbn [stored].
      apply (proj1 (create_recent_summary_stored now user (begin db))). }
    unfold _archive_old_learnings, with_learning, query.
    cbn [work learning_data].
    rewrite merge_after_summary, Hrows, Hst, order_by_unordered.
    set (cutoff := (now - 30 * microseconds_per_day)%Z).
    set (old := filter (archivable user cutoff) (learning_data db)).
    assert (Hincl : incl old (learning_data db)).
    { intros y Hy. apply filter_In in Hy. tauto. }
    rewrite (deref_map M _ old Hids HM Hincl).
    rewrite updates_by_id; [| reflexivity |].
    2:{ rewrite map_map. erewrite map_ext; [| apply HM].
        now apply NoDup_ids_filter. }
    rewrite map_map.
    erewrite map_ext_in.
    + apply (get_map (fun y => if archivable user cutoff y
                                then set_updated_at now
                                       (set_is_active false (M y))
                                else M y)); [assumption | | assumption].
      intro y. destruct (archivable user cutoff y); cbn; apply HM.
    + intros y Hy. cbv beta. rewrite HM.
      replace (map id (map M old)) with (map id old)
        by (rewrite map_map; symmetry; apply map_ext, HM).
      unfold old. now rewrite (mem_id_filter _ _ _ Hids Hy).
Qed.

Lemma consolidation_archives_by_stored_rows_witness :
  exists merged,
    fact (id city_a) (merge_pass "u" two_cities) = Some merged
    /\ fact (id city_a) (fst (consolidate_memory 500 two_cities "u"))
       = Some (if archivable "u" (500 - 30 * microseconds_per_day) city_a
               then set_updated_at 500 (set_is_active false merged)
               else merged)
    /\ snd (consolidate_memory 500 two_cities "u") = Committed.
Proof.
  apply consolidation_archives_by_stored_rows.
  - exact two_cities_ids.
  - reflexivity.
  - now left.
Defined.

(** ** The rate limiter *)

Lemma requests_of_set (key k : string) (v : list Z)
    (r : list (string * list Z)) :
  requests_of k (set_requests key v r)
  = if String.eqb k key then Some v else requests_of k r.
Proof.
  induction r as [| [k0 v0] r IH]; cbn.
  - now destruct (String.eqb k key).
  - destruct (String.eqb_spec key k0) as [-> | N]; cbn.
    + now destruct (String.eqb k k0).
    + rewrite IH. destruct (String.eqb_spec k k0) as [-> | N'];
        [| reflexivity].
      destruct (String.eqb_spec k0 key); [congruence | reflexivity].
Qed.

Lemma recorded_set (key : string) (v : list Z) (r : list (string * list Z)) :
  recorded key (set_requests key v r) = v.
Proof. unfold recorded. now rewrite requests_of_set, String.eqb_refl. Qed.

Lemma is_allowed_step (now : Z) (key : string) (max_requests window : Z)
    (r : list (string * list Z)) :
  let kept := filter (fun t => t >? now - seconds window)%Z (recorded key r) in
  let out := is_allowed now key max_requests window r in
  (fst out = true ->
   (Z.of_nat (List.length kept) < max_requests)%Z
   /\ recorded key (snd out) = (kept ++ [now])%list)
  /\ (fst out = false ->
      (max_requests <= Z.of_nat (List.length kept))%Z
      /\ recorded key (snd out) = kept)
  /\ (forall k, k <> key -> recorded k (snd out) = recorded k r).
Proof.
  cbv zeta. unfold is_allowed. cbv zeta.
  set (r1 := match requests_of key r with
             | None => set_requests key [] r | Some _ => r end).
  assert (E1 : recorded key r1 = recorded key r).
  { unfold r1, recorded. destruct (requests_of key r) eqn:E; [now rewrite E |].
    now rewrite requests_of_set, String.eqb_refl. }
  assert (E2 : forall k, k <> key -> recorded k r1 = recorded k r).
  { intros k N. unfold r1, recorded.
    destruct (requests_of key r); [reflexivity |].
    rewrite requests_of_set. now rewrite (proj2 (String.eqb_neq _ _) N). }
  rewrite E1.
  set (kept := filter _ (recorded key r)).
  destruct (Z.geb_spec (Z.of_nat (List.length kept)) max_requests) as [H | H];
    cbn [fst snd].
  - split; [discriminate |]. split.
    + intros _. split; [lia | apply recorded_set].
    + intros k N. unfold recorded at 1. rewrite requests_of_set.
      rewrite (proj2 (String.eqb_neq _ _) N). now apply E2.
  - split; [| split; [discriminate |]].
    + intros _. split; [lia | apply recorded_set].
    + intros k N. unfold recorded at 1. rewrite !requests_of_set.
      rewrite (proj2 (String.eqb_neq _ _) N). now apply E2.
Qed.

Lemma filter_above (c c' : Z) (l : list Z) :
  (c <= c')%Z ->
  filter (fun t => t >? c')%Z (filter (fun t => t >? c)%Z l)
  = filter (fun t => t >? c')%Z l.
Proof.
  intro H. rewrite filter_filter. apply filter_ext. intro t.
  destruct (Z.gtb_spec t c'), (Z.gtb_spec t c); try reflexivity. lia.
Qed.

Lemma StronglySorted_app_inv {A : Type} (R : A -> A -> Prop)
    (l1 l2 : list A) :
  StronglySorted R (l1 ++ l2) -> StronglySorted R l1.
Proof.
  induction l1 as [| x l1 IH]; cbn; intro H; [constructor |].
  inversion H as [| ? ? Hs Hx]; subst. constructor; [now apply IH |].
  apply Forall_app in Hx. tauto.
Qed.

Lemma limited_run_invariant (key : string) (max_requests window : Z)
    (times : list Z) :
  (0 <= max_requests)%Z -> (0 < window)%Z ->
  StronglySorted Z.le times ->
  let st := limited_run key max_requests window times in
  (Z.of_nat (List.length (recorded key (fst st))) <= max_requests)%Z
  /\ (forall c, (forall t, In t times -> t - seconds window <= c)%Z ->
        filter (fun t => t >? c)%Z (recorded key (fst st))
        = filter (fun t => t >? c)%Z (snd st)).
Proof.
  intros Hmax Hw. unfold limited_run.
  induction times as [| now times IH] using rev_ind; intro Hs.
  - cbn. split; [lia | reflexivity].
  - rewrite fold_left_app. cbn [fold_left].
    set (st := fold_left _ times ([], [])) in *.
    destruct (IH (StronglySorted_app_inv _ _ _ Hs)) as [Hlen Hsame].
    assert (Hnow : forall t, In t times -> (t <= now)%Z).
    { intros t Ht. apply (StronglySorted_split Z.le _ _ Hs); [assumption |].
      now left. }
    pose proof (is_allowed_step now key max_requests window (fst st)) as Hstep.
    cbv zeta in Hstep.
    assert (Hkept : filter (fun t => t >? now - seconds window)%Z
                      (recorded key (fst st))
                    = filter (fun t => t >? now - seconds window)%Z (snd st)).
    { apply Hsame. intros t Ht. specialize (Hnow t Ht). lia. }
    destruct (is_allowed now key max_requests window (fst st)) as [ok r'].
    cbn [fst snd] in *. destruct Hstep as (Hyes & Hno & _).
    assert (Hklen : (List.length (filter (fun t => t >? now - seconds window)%Z
                                         (recorded key (fst st)))
                     <= List.length (recorded key (fst st)))%nat)
      by apply filter_length_le.
    destruct ok.
    + destruct (Hyes eq_refl) as [Hlt ->]. split.
      * rewrite length_app. cbn [List.length]. lia.
      * intros c Hc. rewrite !filter_app. f_equal.
        rewrite Hkept. apply filter_above.
        apply Hc. apply in_or_app. right. now left.
    + destruct (Hno eq_refl) as [Hge ->]. split.
      * lia.
      * intros c Hc. rewrite Hkept. apply filter_above.
        apply Hc. apply in_or_app. right. now left.
Qed.

(** X27: the limiter keeps its promise: in a run of requests for one key
    at times that do not decrease, with a limit that is not negative and a
    positive window, at most [max_requests] of the requests that were
    allowed fall into the window that ends at the last request. *)
Theorem rate_limit_is_respected (key : string) (max_requests window : Z)
    (times : list Z) (now : Z) :
  (0 <= max_requests)%Z -> (0 < window)%Z ->
  StronglySorted Z.le (times ++ [now]) ->
  let allowed := snd (limited_run key max_requests window (times ++ [now])) in
  (Z.of_nat (List.length
               (filter (fun t => t >? now - seconds window)%Z allowed))
   <= max_requests)%Z.
Proof.
  intros Hmax Hw Hs allowed.
  destruct (limited_run_invariant key max_requests window (times ++ [now])
              Hmax Hw Hs) as [Hlen Hsame].
  cbv zeta in *. fold allowed in Hsame.
  rewrite <- (Hsame (now - seconds window)%Z).
  - etransitivity; [| exact Hlen]. apply Nat2Z.inj_le, filter_length_le.
  - intros t Ht. apply in_app_or in Ht. destruct Ht as [Ht | [<- | []]];
      [| lia].
    assert (t <= now)%Z; [| lia].
    apply (StronglySorted_split Z.le _ _ Hs); [assumption | now left].
Qed.

Lemma rate_limit_is_respected_witness :
  let allowed :=
    snd (limited_run "k" 2 10
           ([0%Z; 1000000%Z; 2000000%Z] ++ [3000000%Z])%list) in
  (Z.of_nat (List.length
               (filter (fun t => t >? 3000000 - seconds 10)%Z allowed))
   <= 2)%Z.
Proof.
  apply (rate_limit_is_respected "k" 2 10 [0; 1000000; 2000000]%Z 3000000%Z).
  - lia.
  - lia.
  - repeat constructor; lia.
Defined.

(** X28: a request that is refused is not recorded, one that is allowed
    is recorded once, and the times recorded for other keys are not
    touched. *)
Theorem rate_limiter_records_allowed_requests (now : Z) (key : string)
    (max_requests window : Z) (r : list (string * list Z)) :
  let kept := filter (fun t => t >? now - seconds window)%Z (recorded key r) in
  let out := is_allowed now key max_requests window r in
  (fst out = true <-> (Z.of_nat (List.length kept) < max_requests)%Z)
  /\ recorded key (snd out) = (if fst out then kept ++ [now] else kept)%list
  /\ (forall k, k <> key -> recorded k (snd out) = recorded k r).
Proof.
  cbv zeta.
  destruct (is_allowed_step now key max_requests window r)
    as (Hyes & Hno & Hother).
  cbv zeta in *. destruct (fst (is_allowed now key max_requests window r)).
  - destruct (Hyes eq_refl) as [H1 H2].
    split; [split; [intros _; exact H1 | reflexivity] |].
    split; [exact H2 | exact Hother].
  - destruct (Hno eq_refl) as [H1 H2].
    split; [split; [discriminate | intro; lia] |].
    split; [exact H2 | exact Hother].
Qed.

(** ** Input checks *)

Lemma id_char_not_newline (c : ascii) :
  is_id_char c = true -> Ascii.eqb c newline = false.
Proof.
  intro H. destruct (Ascii.eqb_spec c newline) as [-> | N]; [| reflexivity].
  discriminate H.
Qed.

Lemma before_final_newline_body (body : list ascii) :
  forallb is_id_char body = true ->
  before_final_newline body = body
  /\ before_final_newline (body ++ [newline]) = body.
Proof.
  intro H. unfold before_final_newline. split.
  - destruct (rev body) as [| c l] eqn:E; [reflexivity |].
    assert (Hc : In c body) by (apply in_rev; rewrite E; now left).
    rewrite forallb_forall in H.
    now rewrite (id_char_not_newline c (H c Hc)).
  - rewrite rev_app_distr. cbn. apply rev_involutive.
Qed.

Lemma validate_chars (user_id : string) :
  validate_user_id user_id
  = let body := before_final_newline (list_ascii_of_string user_id) in
    (1 <=? List.length body) && (List.length body <=? 50)
    && forallb is_id_char body.
Proof. destruct user_id; reflexivity. Qed.

(** X29: a user id is accepted exactly when it is one to fifty letters,
    digits, underscores or hyphens, possibly followed by one newline (the
    pattern ends in [$]); so an accepted id has at most 51 characters. *)
Theorem accepted_user_ids (user_id : string) :
  (validate_user_id user_id = true
   <-> exists body,
         forallb is_id_char body = true
         /\ 1 <= List.length body <= 50
         /\ (list_ascii_of_string user_id = body
             \/ list_ascii_of_string user_id = (body ++ [newline])%list))
  /\ (validate_user_id user_id = true -> String.length user_id <= 51).
Proof.
  assert (Hiff : validate_user_id user_id = true
    <-> exists body,
          forallb is_id_char body = true
          /\ 1 <= List.length body <= 50
          /\ (list_ascii_of_string user_id = body
              \/ list_ascii_of_string user_id = (body ++ [newline])%list)).
  { rewrite validate_chars. cbv zeta. split.
    - intro H. apply andb_prop in H. destruct H as [H Hall].
      apply andb_prop in H. destruct H as [H1 H50].
      apply Nat.leb_le in H1, H50.
      exists (before_final_newline (list_ascii_of_string user_id)).
      split; [assumption |]. split; [lia |].
      unfold before_final_newline.
      destruct (rev (list_ascii_of_string user_id)) as [| c l] eqn:E;
        [now left |].
      destruct (Ascii.eqb_spec c newline) as [-> | N]; [right | now left].
      rewrite <- (rev_involutive (list_ascii_of_string user_id)), E.
      reflexivity.
    - intros (body & Hall & [H1 H50] & [E | E]); rewrite E;
        destruct (before_final_newline_body body Hall) as [B1 B2].
      + rewrite B1, Hall.
        now rewrite (proj2 (Nat.leb_le _ _) H1), (proj2 (Nat.leb_le _ _) H50).
      + rewrite B2, Hall.
        now rewrite (proj2 (Nat.leb_le _ _) H1), (proj2 (Nat.leb_le _ _) H50). }
  split; [exact Hiff |].
  intro H. apply Hiff in H. destruct H as (body & _ & [_ H50] & [E | E]).
  - rewrite <- (string_of_list_ascii_of_string user_id), E.
    clear E. revert H50. generalize body. intros l Hl.
    assert (String.length (string_of_list_ascii l) = List.length l)
      by (clear; induction l; cbn; congruence).
    lia.
  - rewrite <- (string_of_list_ascii_of_string user_id), E.
    assert (Hlen : forall l, String.length (string_of_list_ascii l)
                             = List.length l)
      by (clear; induction l; cbn; congruence).
    rewrite Hlen, length_app. cbn. lia.
Qed.




